(** * search-proxy: a shallow embedding of the federated search service

    The development follows the Go packages of the repository:
    - [golang]   : the few pieces of the Go language and runtime the code
                   relies on (machine integers, string slicing, contexts);
    - [models]   : internal/models/result.go;
    - [pb]       : the request and response messages;
    - [config]   : internal/config/config.go (the fields the handlers read);
    - [fetchers] : the [Fetcher] interface and [TruncateString];
    - [handlers] : internal/handlers/search.go ([Search], [fetchFromPlatform]);
    - [grpc]     : the gRPC server ([FederatedSearch], [validateSearchRequest]);
    - [properties], [examples] : the vocabulary of the statements and the
                   concrete configurations, services and requests they are
                   tried on.

    The goroutines, the channel and the range loop of [Search] are one
    machine driven by a schedule, the list of choices of the Go scheduler.
    Times and durations are integers (milliseconds on one global clock). *)

From stdpp Require Import gmap strings list.
From Stdlib Require Import ZArith Lia Ascii.


(* ===================================================================== *)
(** ** Go language and runtime                                            *)
(* ===================================================================== *)

Module golang.

(** A Go function either returns or panics. *)
Inductive result (A : Type) : Type :=
| Returned (a : A)
| Panicked (msg : string).
Arguments Returned {A} a.
Arguments Panicked {A} msg.

(** [error]: [None] is [nil], [Some msg] an error with that text. *)
Definition error : Type := option string.

(** [int] is 64 bits wide, [int32] 32 bits; both wrap around. *)
Definition wrap (w : Z) (z : Z) : Z :=
  ((z + 2 ^ (w - 1)) `mod` 2 ^ w - 2 ^ (w - 1))%Z.

Definition int (z : Z) : Z := wrap 64 z.
Definition int32 (z : Z) : Z := wrap 32 z.

Definition is_int (z : Z) : Prop := (- 2 ^ 63 <= z < 2 ^ 63)%Z.

(** [len(s)] of a string is its number of bytes. *)
Definition len (s : string) : Z := Z.of_nat (String.length s).

(** [s[:hi]]: a run-time panic unless [0 <= hi <= len(s)]. *)
Definition slice_to (s : string) (hi : Z) : result string :=
  if ((hi <? 0) || (len s <? hi))%Z
  then Panicked "runtime error: slice bounds out of range"
  else Returned (String.substring 0 (Z.to_nat hi) s).

(** [utf8.RuneCountInString] on well-formed UTF-8: every byte that is not a
    continuation byte (10xxxxxx) starts one character. *)
Definition is_continuation (a : ascii) : bool :=
  (N.land (N_of_ascii a) 192 =? 128)%N.

Fixpoint RuneCountInString (s : string) : Z :=
  match s with
  | EmptyString => 0%Z
  | String a s' =>
      ((if is_continuation a then 0 else 1) + RuneCountInString s')%Z
  end.

(** *** package context *)

Inductive ctx_error : Type :=
| ctx_nil
| Canceled
| DeadlineExceeded.

#[global] Instance ctx_error_eq_dec : EqDecision ctx_error.
Proof. solve_decision. Defined.

(** A context is known by the two events that can end it: its deadline and
    the moment a parent is cancelled. *)
Record Context : Type := {
  deadline : option Z;
  canceled_at : option Z
}.

Definition Background : Context :=
  {| deadline := None; canceled_at := None |}.

Definition earlier (d : Z) (o : option Z) : Z :=
  match o with
  | Some d' => Z.min d' d
  | None => d
  end.

(** [context.WithTimeout(parent, timeout)] called at time [now]: the child
    expires at the earlier of the parent's deadline and [now + timeout], and
    is cancelled whenever the parent is.  With a timeout that is not
    positive the child is ended as it is made, at [now] and not before: a
    parent that was cancelled by then has ended it first. *)
Definition WithTimeout (parent : Context) (now timeout : Z) : Context :=
  {| deadline := Some (earlier (now + Z.max timeout 0)%Z (deadline parent));
     canceled_at := canceled_at parent |}.

Definition expired (ctx : Context) (t : Z) : bool :=
  match deadline ctx with
  | Some d => (d <=? t)%Z
  | None => false
  end.

Definition cancelled_before_deadline (ctx : Context) (t : Z) : bool :=
  match canceled_at ctx with
  | Some c =>
      (c <=? t)%Z &&
      match deadline ctx with
      | Some d => (c <? d)%Z
      | None => true
      end
  | None => false
  end.

(** [ctx.Err()] read at time [t]: the first of the two events to happen. *)
Definition Err (ctx : Context) (t : Z) : ctx_error :=
  if cancelled_before_deadline ctx t then Canceled
  else if expired ctx t then DeadlineExceeded
  else ctx_nil.

End golang.

Import golang.

(* ===================================================================== *)
(** ** internal/models                                                    *)
(* ===================================================================== *)

(** Modelled from the spec: the generated [proto] package is not among the
    sources; the messages below carry the fields the spec lists for the
    request/response boundary, with the types the handlers convert to. *)
Module pb.

Module Result.
Record t : Type := {
  Platform : string;
  Title : string;
  Snippet : string;
  Url : string;
  Timestamp : Z;
  Metadata : gmap string string
}.
End Result.

Module SearchRequest.
Record t : Type := {
  Query : string;
  MaxResults : Z;
  Platforms : list string
}.
End SearchRequest.

Module ResponseMetadata.
Record t : Type := {
  ResponseTimeMs : Z;
  PlatformsQueried : Z
}.
End ResponseMetadata.

Module SearchResponse.
Record t : Type := {
  Results : list Result.t;
  TotalCount : Z;
  PlatformsSuccess : list string;
  PlatformsTimeout : list string;
  PlatformsError : list string;
  Metadata : ResponseMetadata.t
}.
End SearchResponse.

End pb.

Module models.

Module SearchResult.
Record t : Type := {
  Platform : string;
  Title : string;
  Snippet : string;
  URL : string;
  Timestamp : Z;
  Metadata : gmap string string
}.
End SearchResult.

Definition ToProto (r : SearchResult.t) : pb.Result.t :=
  {| pb.Result.Platform := SearchResult.Platform r;
     pb.Result.Title := SearchResult.Title r;
     pb.Result.Snippet := SearchResult.Snippet r;
     pb.Result.Url := SearchResult.URL r;
     pb.Result.Timestamp := SearchResult.Timestamp r;
     pb.Result.Metadata := SearchResult.Metadata r |}.

Module FetchResult.
Record t : Type := {
  Platform : string;
  Results : list SearchResult.t;
  Error : error;
  Duration : Z;
  TimedOut : bool
}.
End FetchResult.

Definition NewFetchResult (platform : string) : FetchResult.t :=
  {| FetchResult.Platform := platform;
     FetchResult.Results := [];
     FetchResult.Error := None;
     FetchResult.Duration := 0%Z;
     FetchResult.TimedOut := false |}.

End models.

(* ===================================================================== *)
(** ** internal/config                                                    *)
(* ===================================================================== *)

Module config.

Record ServerConfig : Type := {
  GRPCPort : string;
  ServerTimeout : Z;
  PerAPITimeout : Z
}.

Record GitHubConfig : Type := {
  APIToken : string;
  GitHub_BaseURL : string
}.

Record StackOverflowConfig : Type := {
  APIKey : string;
  StackOverflow_BaseURL : string
}.

Record RedditConfig : Type := {
  ClientID : string;
  ClientSecret : string;
  UserAgent : string;
  Reddit_BaseURL : string
}.

Record PerformanceConfig : Type := {
  MaxResultsPerPlatform : Z;
  EnableCircuitBreaker : bool;
  CircuitBreakerThreshold : Z;
  CircuitBreakerTimeout : Z
}.

Record Config : Type := {
  Server : ServerConfig;
  GitHub : GitHubConfig;
  StackOverflow : StackOverflowConfig;
  Reddit : RedditConfig;
  Performance : PerformanceConfig
}.

End config.

(* ===================================================================== *)
(** ** internal/fetchers                                                  *)
(* ===================================================================== *)

Module fetchers.

Import models.

(** What one call of [Fetch] gives back, and how long the caller waits for
    it.  The HTTP exchange behind it belongs to the environment. *)
Record FetchReturn : Type := {
  ret_results : list SearchResult.t;
  ret_err : error;
  ret_latency : Z
}.

(** The [Fetcher] interface.  [Fetch k ctx query maxResults] is the answer the
    environment gives to the call made by the [k]-th task of a request: two
    calls with the same arguments need not be answered alike. *)
Record Fetcher : Type := {
  Name : string;
  Fetch : nat -> Context -> string -> Z -> FetchReturn
}.

(** The environment of a fetcher: the answers of the remote service. *)
Definition Remote : Type := nat -> Context -> string -> Z -> FetchReturn.

Definition NewGitHubFetcher (net : Remote) (apiToken baseURL : string) : Fetcher :=
  {| Name := "github"; Fetch := net |}.

Definition NewStackOverflowFetcher (net : Remote) (apiKey baseURL : string) : Fetcher :=
  {| Name := "stackoverflow"; Fetch := net |}.

Definition NewRedditFetcher (net : Remote)
    (clientID clientSecret userAgent baseURL : string) : Fetcher :=
  {| Name := "reddit"; Fetch := net |}.

Section Truncate.

(** [strings.TrimSpace] is the Go library's; all the code below needs of it
    is that it returns a piece of its argument. *)
Variable TrimSpace : string -> string.

Definition TruncateString (s : string) (maxLength : Z) : result string :=
  if (len s <=? maxLength)%Z then Returned s
  else
    match slice_to s (int (maxLength - 3)) with
    | Returned prefix => Returned (TrimSpace prefix +:+ "...")
    | Panicked msg => Panicked msg
    end.

End Truncate.

(** A [TrimSpace] for ASCII white space, enough to run [TruncateString]. *)
Definition is_space (a : ascii) : bool :=
  let n := N_of_ascii a in
  ((n =? 32) || ((9 <=? n) && (n <=? 13)))%N.

Fixpoint trim_left (s : string) : string :=
  match s with
  | String a s' => if is_space a then trim_left s' else s
  | EmptyString => EmptyString
  end.

Fixpoint trim_right (s : string) : string :=
  match s with
  | String a s' =>
      match trim_right s' with
      | EmptyString => if is_space a then EmptyString else String a EmptyString
      | t => String a t
      end
  | EmptyString => EmptyString
  end.

Definition TrimSpaceASCII (s : string) : string := trim_right (trim_left s).

End fetchers.

(* ===================================================================== *)
(** ** internal/handlers                                                  *)
(* ===================================================================== *)

Module handlers.

Import models fetchers config.

Record SearchHandler : Type := {
  fetchers : gmap string Fetcher;
  config : Config
}.

(** The three remote services the handler talks to. *)
Record World : Type := {
  github_api : Remote;
  stackoverflow_api : Remote;
  reddit_api : Remote
}.

Definition NewSearchHandler (w : World) (cfg : Config) : SearchHandler :=
  let handler := {| fetchers := ∅; config := cfg |} in
  let handler :=
    {| fetchers := <["github" :=
                       NewGitHubFetcher (github_api w)
                         (APIToken (GitHub cfg)) (GitHub_BaseURL (GitHub cfg))]>
                     (fetchers handler);
       config := config handler |} in
  let handler :=
    {| fetchers := <["stackoverflow" :=
                       NewStackOverflowFetcher (stackoverflow_api w)
                         (APIKey (StackOverflow cfg))
                         (StackOverflow_BaseURL (StackOverflow cfg))]>
                     (fetchers handler);
       config := config handler |} in
  let handler :=
    {| fetchers := <["reddit" :=
                       NewRedditFetcher (reddit_api w)
                         (ClientID (Reddit cfg)) (ClientSecret (Reddit cfg))
                         (UserAgent (Reddit cfg)) (Reddit_BaseURL (Reddit cfg))]>
                     (fetchers handler);
       config := config handler |} in
  handler.

(** *** One provider task *)

(** The arguments of one [fetcher.Fetch] invocation. *)
Record FetchCall : Type := {
  call_fetcher : string;
  call_ctx : Context;
  call_query : string;
  call_maxResults : Z
}.

(** A spawned [fetchFromPlatform]: the call it makes, the [FetchResult] it
    builds and the time at which it is ready to send it on the channel.
    The task reads the clock and its context as [Fetch] returns. *)
Record Goroutine : Type := {
  g_call : FetchCall;
  g_result : FetchResult.t;
  g_sends_at : Z
}.

(** The [if err != nil { ... } else { ... }] block of [fetchFromPlatform];
    [ctxErr] is what [ctx.Err()] answers there. *)
Definition classify (result : FetchResult.t) (err : error) (ctxErr : ctx_error)
    (results : list SearchResult.t) : FetchResult.t :=
  match err with
  | Some e =>
      {| FetchResult.Platform := FetchResult.Platform result;
         FetchResult.Results := FetchResult.Results result;
         FetchResult.Error := Some e;
         FetchResult.Duration := FetchResult.Duration result;
         FetchResult.TimedOut :=
           if decide (ctxErr = DeadlineExceeded) then true
           else FetchResult.TimedOut result |}
  | None =>
      {| FetchResult.Platform := FetchResult.Platform result;
         FetchResult.Results := results;
         FetchResult.Error := FetchResult.Error result;
         FetchResult.Duration := FetchResult.Duration result;
         FetchResult.TimedOut := FetchResult.TimedOut result |}
  end.

Definition fetchFromPlatform (h : SearchHandler) (k : nat)
    (parentCtx : Context) (fetcher : Fetcher) (query : string)
    (maxResults : Z) (startTime : Z) : Goroutine :=
  let result := NewFetchResult (Name fetcher) in
  let ctx := WithTimeout parentCtx startTime (PerAPITimeout (Server (config h))) in
  let ret := Fetch fetcher k ctx query maxResults in
  let returned_at := (startTime + ret_latency ret)%Z in
  let result :=
    {| FetchResult.Platform := FetchResult.Platform result;
       FetchResult.Results := FetchResult.Results result;
       FetchResult.Error := FetchResult.Error result;
       FetchResult.Duration := (returned_at - startTime)%Z;
       FetchResult.TimedOut := FetchResult.TimedOut result |} in
  let result := classify result (ret_err ret) (Err ctx returned_at) (ret_results ret) in
  {| g_call := {| call_fetcher := Name fetcher; call_ctx := ctx;
                  call_query := query; call_maxResults := maxResults |};
     g_result := result;
     g_sends_at := returned_at |}.

(** How the fan-in loop reads a [FetchResult]. *)
Inductive failure : Type :=
| failure_none
| failure_timeout
| failure_error (detail : string).

Definition failure_of (fr : FetchResult.t) : failure :=
  match FetchResult.Error fr with
  | Some e => if FetchResult.TimedOut fr then failure_timeout else failure_error e
  | None => failure_none
  end.

(** *** Fan-out *)

Definition default_platforms : list string :=
  ["github"; "stackoverflow"; "reddit"].

Definition effective_platforms (req : pb.SearchRequest.t) : list string :=
  let platforms := pb.SearchRequest.Platforms req in
  if (length platforms =? 0)%nat then default_platforms else platforms.

(** [int(req.MaxResults)] widens an int32 to an int: the value is unchanged. *)
Definition effective_maxResults (h : SearchHandler) (req : pb.SearchRequest.t) : Z :=
  let maxResults := pb.SearchRequest.MaxResults req in
  if ((maxResults <=? 0) || (100 <? maxResults))%Z
  then MaxResultsPerPlatform (Performance (config h))
  else maxResults.

(** The [for _, platform := range platforms] loop that spawns the tasks;
    [k] counts the tasks spawned so far.  A task is taken to start as it is
    spawned: the time the scheduler may leave between the [go] statement and
    the first statement of the goroutine is not part of the machine below.
    [fetchFromPlatform] itself takes the start of its task as an argument. *)
Fixpoint fan_out (h : SearchHandler) (ctx : Context) (query : string)
    (maxResults : Z) (startTime : Z) (platforms : list string) (k : nat)
    : list Goroutine :=
  match platforms with
  | [] => []
  | platform :: rest =>
      match fetchers h !! platform with
      | None => fan_out h ctx query maxResults startTime rest k
      | Some fetcher =>
          fetchFromPlatform h k ctx fetcher query maxResults startTime
            :: fan_out h ctx query maxResults startTime rest (S k)
      end
  end.

Definition dispatched (h : SearchHandler) (ctx : Context) (startTime : Z)
    (req : pb.SearchRequest.t) : list Goroutine :=
  fan_out h ctx (pb.SearchRequest.Query req) (effective_maxResults h req)
    startTime (effective_platforms req) 0.

(** *** Fan-in *)

Record Collected : Type := {
  allResults : list pb.Result.t;
  platformsSuccess : list string;
  platformsTimeout : list string;
  platformsError : list string
}.

Definition nothing_collected : Collected :=
  {| allResults := []; platformsSuccess := [];
     platformsTimeout := []; platformsError := [] |}.

(** One iteration of [for fetchResult := range resultsChan]. *)
Definition collect_step (c : Collected) (fetchResult : FetchResult.t) : Collected :=
  match FetchResult.Error fetchResult with
  | Some _ =>
      if FetchResult.TimedOut fetchResult then
        {| allResults := allResults c;
           platformsSuccess := platformsSuccess c;
           platformsTimeout := platformsTimeout c ++ [FetchResult.Platform fetchResult];
           platformsError := platformsError c |}
      else
        {| allResults := allResults c;
           platformsSuccess := platformsSuccess c;
           platformsTimeout := platformsTimeout c;
           platformsError := platformsError c ++ [FetchResult.Platform fetchResult] |}
  | None =>
      {| allResults :=
           fold_left (fun acc result => acc ++ [ToProto result])
             (FetchResult.Results fetchResult) (allResults c);
         platformsSuccess := platformsSuccess c ++ [FetchResult.Platform fetchResult];
         platformsTimeout := platformsTimeout c;
         platformsError := platformsError c |}
  end.

(** The loop over the Outcomes in the order the channel delivers them. *)
Definition collect (outcomes : list FetchResult.t) : Collected :=
  fold_left collect_step outcomes nothing_collected.

(** *** The tasks, the channel and the loop as one machine

    [running] are the tasks that have not sent yet (the WaitGroup counter is
    its length), [chan] the buffered channel, [closed] whether the closer
    goroutine has run, [returned] the time the range loop was left. *)
Record State : Type := {
  now : Z;
  running : list Goroutine;
  chan : list FetchResult.t;
  closed : bool;
  collected : Collected;
  returned : option Z
}.

Inductive Event : Type :=
| Tick
| Send (i : nat)
| Close
| Recv
| LoopExit.

Definition step (cap : nat) (e : Event) (s : State) : option State :=
  match e with
  | Tick =>
      Some {| now := (now s + 1)%Z; running := running s; chan := chan s;
              closed := closed s; collected := collected s;
              returned := returned s |}
  | Send i =>
      match running s !! i with
      | Some g =>
          if (g_sends_at g <=? now s)%Z && (length (chan s) <? cap)%nat
             && negb (closed s)
          then Some {| now := now s; running := delete i (running s);
                       chan := chan s ++ [g_result g];
                       closed := closed s; collected := collected s;
                       returned := returned s |}
          else None
      | None => None
      end
  | Close =>
      match running s, closed s with
      | [], false =>
          Some {| now := now s; running := running s; chan := chan s;
                  closed := true; collected := collected s;
                  returned := returned s |}
      | _, _ => None
      end
  | Recv =>
      match returned s, chan s with
      | None, fetchResult :: rest =>
          Some {| now := now s; running := running s; chan := rest;
                  closed := closed s;
                  collected := collect_step (collected s) fetchResult;
                  returned := returned s |}
      | _, _ => None
      end
  | LoopExit =>
      match returned s, chan s, closed s with
      | None, [], true =>
          Some {| now := now s; running := running s; chan := chan s;
                  closed := closed s; collected := collected s;
                  returned := Some (now s) |}
      | _, _, _ => None
      end
  end.

(** A schedule is the list of choices the Go scheduler makes. *)
Fixpoint run (cap : nat) (schedule : list Event) (s : State) : option State :=
  match schedule with
  | [] => Some s
  | e :: rest =>
      match step cap e s with
      | Some s' => run cap rest s'
      | None => None
      end
  end.

Definition initial (startTime : Z) (tasks : list Goroutine) : State :=
  {| now := startTime; running := tasks; chan := []; closed := false;
     collected := nothing_collected; returned := None |}.

(** *** Search *)

(** What a call of [Search] leaves behind: the two values it returns, the
    [Fetch] calls it caused and the time at which it returned. *)
Record SearchRun : Type := {
  run_response : pb.SearchResponse.t;
  run_err : error;
  run_calls : list FetchCall;
  run_returned_at : Z
}.

Definition build_response (platforms : list string) (c : Collected)
    (responseTime : Z) : pb.SearchResponse.t :=
  {| pb.SearchResponse.Results := allResults c;
     pb.SearchResponse.TotalCount := int32 (Z.of_nat (length (allResults c)));
     pb.SearchResponse.PlatformsSuccess := platformsSuccess c;
     pb.SearchResponse.PlatformsTimeout := platformsTimeout c;
     pb.SearchResponse.PlatformsError := platformsError c;
     pb.SearchResponse.Metadata :=
       {| pb.ResponseMetadata.ResponseTimeMs := int32 responseTime;
          pb.ResponseMetadata.PlatformsQueried :=
            int32 (Z.of_nat (length platforms)) |} |}.

(** [Search] under a given schedule; [None] when the schedule is not a
    complete execution (a choice that is not enabled, or the loop is not
    left by its end). *)
Definition Search (h : SearchHandler) (schedule : list Event) (ctx : Context)
    (startTime : Z) (req : pb.SearchRequest.t) : option SearchRun :=
  let platforms := effective_platforms req in
  let maxResults := effective_maxResults h req in
  let tasks :=
    fan_out h ctx (pb.SearchRequest.Query req) maxResults startTime platforms 0 in
  match run (length platforms) schedule (initial startTime tasks) with
  | Some s =>
      match returned s with
      | Some t =>
          let responseTime := (t - startTime)%Z in
          Some {| run_response := build_response platforms (collected s) responseTime;
                  run_err := None;
                  run_calls := map g_call tasks;
                  run_returned_at := t |}
      | None => None
      end
  | None => None
  end.

(** The schedule of a prompt scheduler: let time pass until the last task is
    ready, let each task send, close the channel, drain it, leave the loop. *)
Definition last_send (startTime : Z) (tasks : list Goroutine) : Z :=
  fold_right (fun g t => Z.max (g_sends_at g) t) startTime tasks.

Definition prompt_schedule (startTime : Z) (tasks : list Goroutine) : list Event :=
  replicate (Z.to_nat (last_send startTime tasks - startTime)) Tick
    ++ replicate (length tasks) (Send 0)
    ++ [Close]
    ++ replicate (length tasks) Recv
    ++ [LoopExit].

End handlers.

(* ===================================================================== *)
(** ** internal/grpc                                                      *)
(* ===================================================================== *)

Module grpc.

Import config handlers.

Inductive Code : Type :=
| InvalidArgument
| Internal.

Record Status : Type := {
  code : Code;
  message : string
}.

Record Server : Type := {
  searchHandler : SearchHandler;
  server_config : Config
}.

Definition NewServer (w : World) (cfg : Config) : Server :=
  {| searchHandler := NewSearchHandler w cfg; server_config := cfg |}.

Definition validPlatforms : gmap string bool :=
  <["github" := true]> (<["stackoverflow" := true]> (<["reddit" := true]> ∅)).

Fixpoint check_platforms (platforms : list string) : option Status :=
  match platforms with
  | [] => None
  | platform :: rest =>
      if negb (default false (validPlatforms !! platform)) then
        Some {| code := InvalidArgument;
                message := "invalid platform: " +:+ platform
                             +:+ " (valid: github, stackoverflow, reddit)" |}
      else check_platforms rest
  end.

Definition validateSearchRequest (s : Server) (req : pb.SearchRequest.t)
    : option Status :=
  if decide (pb.SearchRequest.Query req = "") then
    Some {| code := InvalidArgument; message := "query cannot be empty" |}
  else if (500 <? len (pb.SearchRequest.Query req))%Z then
    Some {| code := InvalidArgument;
            message := "query too long (max 500 characters)" |}
  else if (pb.SearchRequest.MaxResults req <? 0)%Z then
    Some {| code := InvalidArgument; message := "max_results cannot be negative" |}
  else if (100 <? pb.SearchRequest.MaxResults req)%Z then
    Some {| code := InvalidArgument; message := "max_results cannot exceed 100" |}
  else check_platforms (pb.SearchRequest.Platforms req).

(** What a call of [FederatedSearch] leaves behind. *)
Record FederatedRun : Type := {
  fed_response : option pb.SearchResponse.t;
  fed_status : option Status;
  fed_calls : list FetchCall;
  fed_returned_at : Z
}.

Definition FederatedSearch (s : Server) (schedule : list Event) (ctx : Context)
    (startTime : Z) (req : pb.SearchRequest.t) : option FederatedRun :=
  match validateSearchRequest s req with
  | Some err =>
      Some {| fed_response := None; fed_status := Some err;
              fed_calls := []; fed_returned_at := startTime |}
  | None =>
      let searchCtx :=
        WithTimeout ctx startTime (ServerTimeout (config.Server (server_config s))) in
      match Search (searchHandler s) schedule searchCtx startTime req with
      | Some r =>
          match run_err r with
          | Some err =>
              Some {| fed_response := None;
                      fed_status :=
                        Some {| code := Internal;
                                message := "search failed: " +:+ err |};
                      fed_calls := run_calls r;
                      fed_returned_at := run_returned_at r |}
          | None =>
              Some {| fed_response := Some (run_response r); fed_status := None;
                      fed_calls := run_calls r;
                      fed_returned_at := run_returned_at r |}
          end
      | None => None
      end
  end.

End grpc.

(* ===================================================================== *)
(** ** Vocabulary of the statements                                       *)
(* ===================================================================== *)

Module properties.

Import models fetchers config handlers.

(** The classification the specification words: timeout when the failed
    task's own context reports deadline-exceeded, error for any other
    failure, none when the fetch did not fail. *)
Definition spec_failure (err : error) (ctxErr : ctx_error) : failure :=
  match err with
  | Some detail =>
      if decide (ctxErr = DeadlineExceeded) then failure_timeout
      else failure_error detail
  | None => failure_none
  end.

(** The effective result cap as the specification words it. *)
Definition spec_resultCap (default_cap resultCap : Z) : Z :=
  if ((1 <=? resultCap) && (resultCap <=? 100))%Z then resultCap else default_cap.

(** Provider names of the three partition lists, taken together. *)
Definition partition_names (c : Collected) : list string :=
  platformsSuccess c ++ platformsTimeout c ++ platformsError c.

Definition response_names (r : pb.SearchResponse.t) : list string :=
  pb.SearchResponse.PlatformsSuccess r ++ pb.SearchResponse.PlatformsTimeout r
    ++ pb.SearchResponse.PlatformsError r.

Definition failed (fr : FetchResult.t) : Prop := FetchResult.Error fr <> None.

(** Two accumulators of the fan-in loop that differ in order only. *)
Record same_up_to_order (c c' : Collected) : Prop := {
  same_results : allResults c ≡ₚ allResults c';
  same_success : platformsSuccess c ≡ₚ platformsSuccess c';
  same_timeout : platformsTimeout c ≡ₚ platformsTimeout c';
  same_error : platformsError c ≡ₚ platformsError c'
}.

(** The invariant of the machine started on [tasks] at [startTime]: [sent]
    are the tasks that have sent, [received] the Outcomes the loop has read. *)
Record Inv (startTime : Z) (tasks sent : list Goroutine)
    (received : list FetchResult.t) (s : State) : Prop := {
  inv_tasks : sent ++ running s ≡ₚ tasks;
  inv_outcomes : map g_result sent ≡ₚ received ++ chan s;
  inv_collected : collected s = collect received;
  inv_ready : Forall (fun g => (g_sends_at g <= now s)%Z) sent;
  inv_clock : (startTime <= now s)%Z;
  inv_closed : closed s = true -> running s = [];
  inv_returned : forall t, returned s = Some t ->
      closed s = true /\ chan s = [] /\ (startTime <= t <= now s)%Z /\
      Forall (fun g => (g_sends_at g <= t)%Z) tasks
}.

Definition registered (h : SearchHandler) (platform : string) : Prop :=
  is_Some (handlers.fetchers h !! platform).

(** Every fetcher is registered under its own name. *)
Definition well_named (h : SearchHandler) : Prop :=
  forall platform fetcher,
    handlers.fetchers h !! platform = Some fetcher -> Name fetcher = platform.

Definition task_name (g : Goroutine) : string := call_fetcher (g_call g).

(** A provider name is in exactly one of the three lists of a response. *)
Definition in_exactly_one (p : string) (r : pb.SearchResponse.t) : Prop :=
  let S := pb.SearchResponse.PlatformsSuccess r in
  let T := pb.SearchResponse.PlatformsTimeout r in
  let E := pb.SearchResponse.PlatformsError r in
  ((p ∈ S) /\ (p ∉ T) /\ (p ∉ E)) \/
  ((p ∉ S) /\ (p ∈ T) /\ (p ∉ E)) \/
  ((p ∉ S) /\ (p ∉ T) /\ (p ∈ E)).

(** The deadline bound as the specification words it: with a global
    timeout [T], every call of [Search] returns within [T + slack]. *)
Definition spec_deadline_bound (slack : Z) : Prop :=
  forall h schedule ctx startTime T req r,
    deadline ctx = Some (startTime + T)%Z ->
    Search h schedule ctx startTime req = Some r ->
    (run_returned_at r <= startTime + T + slack)%Z.

End properties.

(* ===================================================================== *)
(** ** Concrete configurations, worlds and requests                       *)
(* ===================================================================== *)

Module examples.

Import models fetchers config handlers grpc.

Definition cfg : Config :=
  {| config.Server := {| GRPCPort := "50051"; ServerTimeout := 500; PerAPITimeout := 400 |};
     GitHub := {| APIToken := ""; GitHub_BaseURL := "https://api.github.com" |};
     StackOverflow :=
       {| APIKey := ""; StackOverflow_BaseURL := "https://api.stackexchange.com/2.3" |};
     Reddit := {| ClientID := ""; ClientSecret := "";
                  UserAgent := "FederatedSearchEngine/1.0";
                  Reddit_BaseURL := "https://oauth.reddit.com" |};
     Performance := {| MaxResultsPerPlatform := 20; EnableCircuitBreaker := true;
                       CircuitBreakerThreshold := 5; CircuitBreakerTimeout := 30 |} |}.

Definition hit (platform title : string) : SearchResult.t :=
  {| SearchResult.Platform := platform; SearchResult.Title := title;
     SearchResult.Snippet := title; SearchResult.URL := "https://example.org";
     SearchResult.Timestamp := 1704067200; SearchResult.Metadata := ∅ |}.

(** A service that answers with one hit after [latency] ms. *)
Definition answers (platform : string) (latency : Z) : Remote :=
  fun k ctx query maxResults =>
    {| ret_results := [hit platform query]; ret_err := None;
       ret_latency := latency |}.

(** A service that refuses every call after [latency] ms. *)
Definition refuses (latency : Z) : Remote :=
  fun k ctx query maxResults =>
    {| ret_results := []; ret_err := Some "API error: status=403";
       ret_latency := latency |}.

(** A client that honours its context: called at time 0, it gives up at the
    deadline. *)
Definition hangs : Remote :=
  fun k ctx query maxResults =>
    {| ret_results := []; ret_err := Some "context deadline exceeded";
       ret_latency := default 0%Z (deadline ctx) |}.

(** A service that serves the first call of a request and refuses the rest. *)
Definition serves_once (platform : string) (latency : Z) : Remote :=
  fun k ctx query maxResults =>
    match k with
    | O => answers platform latency k ctx query maxResults
    | S _ => refuses latency k ctx query maxResults
    end.

Definition healthy : World :=
  {| github_api := answers "github" 120;
     stackoverflow_api := answers "stackoverflow" 90;
     reddit_api := answers "reddit" 200 |}.

Definition rate_limited : World :=
  {| github_api := serves_once "github" 120;
     stackoverflow_api := answers "stackoverflow" 90;
     reddit_api := answers "reddit" 200 |}.

Definition all_down : World :=
  {| github_api := refuses 30;
     stackoverflow_api := hangs;
     reddit_api := refuses 45 |}.

(** A service that takes as many ms as the number of results it is asked
    for. *)
Definition metered : Remote :=
  fun k ctx query maxResults =>
    {| ret_results := []; ret_err := None; ret_latency := maxResults |}.

Definition metered_world : World :=
  {| github_api := metered; stackoverflow_api := metered; reddit_api := metered |}.

(** A provider that ignores its context and answers after 5000 ms. *)
Definition slow_fetcher : Fetcher :=
  {| Name := "slow"; Fetch := answers "slow" 5000 |}.

Definition slow_handler : SearchHandler :=
  {| fetchers := <["slow" := slow_fetcher]> ∅; config := cfg |}.

Definition request (query : string) (maxResults : Z) (platforms : list string)
    : pb.SearchRequest.t :=
  {| pb.SearchRequest.Query := query;
     pb.SearchRequest.MaxResults := maxResults;
     pb.SearchRequest.Platforms := platforms |}.

(** 251 times the two bytes of U+00E9: 251 characters, 502 bytes. *)
Definition e_acute : string :=
  String (ascii_of_nat 195) (String (ascii_of_nat 169) EmptyString).

Fixpoint repeat_string (n : nat) (s : string) : string :=
  match n with
  | O => EmptyString
  | S n' => s +:+ repeat_string n' s
  end.

Definition accented_query : string := repeat_string 251 e_acute.

(** The Context a request arrives with: no deadline of the client's. *)
Definition global_ctx : Context := WithTimeout Background 0 500.

(** Three Outcomes as the tasks hand them to the channel. *)
Definition ok_github : FetchResult.t :=
  {| FetchResult.Platform := "github";
     FetchResult.Results := [hit "github" "rocq"; hit "github" "stdpp"];
     FetchResult.Error := None; FetchResult.Duration := 120;
     FetchResult.TimedOut := false |}.

Definition late_reddit : FetchResult.t :=
  {| FetchResult.Platform := "reddit"; FetchResult.Results := [];
     FetchResult.Error := Some "context deadline exceeded";
     FetchResult.Duration := 400; FetchResult.TimedOut := true |}.

Definition broken_stackoverflow : FetchResult.t :=
  {| FetchResult.Platform := "stackoverflow"; FetchResult.Results := [];
     FetchResult.Error := Some "failed to decode response";
     FetchResult.Duration := 80; FetchResult.TimedOut := false |}.

Definition rocq_everywhere : pb.SearchRequest.t := request "rocq" 0 [].
Definition rocq_with_typo : pb.SearchRequest.t := request "rocq" 10 ["github"; "bogus"].
Definition rocq_twice : pb.SearchRequest.t := request "rocq" 10 ["github"; "github"].
Definition rocq_slow : pb.SearchRequest.t := request "rocq" 0 ["slow"].
Definition rocq_accented : pb.SearchRequest.t := request accented_query 10 [].

(** The schedule of a prompt scheduler for a request on a handler. *)
Definition prompt (h : SearchHandler) (ctx : Context) (req : pb.SearchRequest.t)
    : list Event :=
  prompt_schedule 0 (dispatched h ctx 0 req).

End examples.

(* ===================================================================== *)
(** * Further code of the repository                                      *)
(* ===================================================================== *)

(** ** More vocabulary for the orchestrator *)

Module orchestration.

Import models fetchers config handlers.

(** The task an event makes send, if any. *)
Definition sender (e : Event) (s : State) : list Goroutine :=
  match e with
  | Send i =>
      match running s !! i with
      | Some g => [g]
      | None => []
      end
  | _ => []
  end.

(** The tasks in the order in which they send along a run. *)
Fixpoint send_order (cap : nat) (schedule : list Event) (s : State)
    : list Goroutine :=
  match schedule with
  | [] => []
  | e :: rest =>
      match step cap e s with
      | Some s' => sender e s ++ send_order cap rest s'
      | None => []
      end
  end.

(** The three classes of Outcomes, as the fan-in loop tells them apart. *)
Definition succeeded (fr : FetchResult.t) : Prop :=
  FetchResult.Error fr = None.

Definition timed_out (fr : FetchResult.t) : Prop :=
  FetchResult.Error fr <> None /\ FetchResult.TimedOut fr = true.

Definition errored (fr : FetchResult.t) : Prop :=
  FetchResult.Error fr <> None /\ FetchResult.TimedOut fr = false.

#[global] Instance succeeded_dec fr : Decision (succeeded fr).
Proof. unfold succeeded. apply _. Defined.

#[global] Instance timed_out_dec fr : Decision (timed_out fr).
Proof. unfold timed_out. apply _. Defined.

#[global] Instance errored_dec fr : Decision (errored fr).
Proof. unfold errored. apply _. Defined.

(** The response lists written as comprehensions over the Outcomes read. *)
Definition collect_spec (outcomes : list FetchResult.t) : Collected :=
  {| allResults :=
       concat (map (fun fr => map ToProto (FetchResult.Results fr))
                   (filter succeeded outcomes));
     platformsSuccess := map FetchResult.Platform (filter succeeded outcomes);
     platformsTimeout := map FetchResult.Platform (filter timed_out outcomes);
     platformsError := map FetchResult.Platform (filter errored outcomes) |}.

(** A way to the end of the loop from any state: wait until the running
    tasks are ready, let them send, close the channel if that is still to be
    done, drain it, leave. *)
Definition finish_schedule (s : State) : list Event :=
  replicate (Z.to_nat (last_send (now s) (running s) - now s)) Tick
    ++ replicate (length (running s)) (Send 0)
    ++ (if closed s then [] else [Close])
    ++ replicate (length (chan s) + length (running s)) Recv
    ++ [LoopExit].

End orchestration.

(** ** internal/fetchers: the three providers

    [Fetch] talks to a remote service through the Go library.  The library
    and the network are an environment [Env]: the functions below are the
    code of the repository around it. *)

Module providers.

Import models fetchers.

(** [NewSearchResult]; [now] is [time.Now().Unix()]. *)
Definition NewSearchResult (now : Z) (platform title snippet url : string)
    : SearchResult.t :=
  {| SearchResult.Platform := platform;
     SearchResult.Title := title;
     SearchResult.Snippet := snippet;
     SearchResult.URL := url;
     SearchResult.Timestamp := now;
     SearchResult.Metadata := ∅ |}.

Definition with_Timestamp (r : SearchResult.t) (timestamp : Z) : SearchResult.t :=
  {| SearchResult.Platform := SearchResult.Platform r;
     SearchResult.Title := SearchResult.Title r;
     SearchResult.Snippet := SearchResult.Snippet r;
     SearchResult.URL := SearchResult.URL r;
     SearchResult.Timestamp := timestamp;
     SearchResult.Metadata := SearchResult.Metadata r |}.

Definition with_Metadata (r : SearchResult.t) (metadata : gmap string string)
    : SearchResult.t :=
  {| SearchResult.Platform := SearchResult.Platform r;
     SearchResult.Title := SearchResult.Title r;
     SearchResult.Snippet := SearchResult.Snippet r;
     SearchResult.URL := SearchResult.URL r;
     SearchResult.Timestamp := SearchResult.Timestamp r;
     SearchResult.Metadata := metadata |}.

(** *** net/http, as far as the fetchers use it *)

Record Request : Type := {
  req_ctx : Context;
  req_method : string;
  req_url : string;
  req_header : gmap string string
}.

Record Response : Type := {
  StatusCode : Z;
  Body : string
}.

(** What [client.Do] gives back (a response or an error) and how long the
    exchange takes, reading the body included. *)
Record Exchange : Type := {
  ex_result : Response + string;
  ex_elapsed : Z
}.

Definition Header_Set (req : Request) (key value : string) : Request :=
  {| req_ctx := req_ctx req; req_method := req_method req;
     req_url := req_url req;
     req_header := <[key := value]> (req_header req) |}.

(** *** The decoded answers of the three services *)

Module GitHubRepository.
Record t : Type := {
  ID : Z;
  Name : string;
  FullName : string;
  Description : string;
  HTMLURL : string;
  StargazersCount : Z;
  ForksCount : Z;
  Language : string;
  OpenIssuesCount : Z;
  (** [CreatedAt] and [UpdatedAt] are [time.Time]s, held as Unix seconds. *)
  CreatedAt : Z;
  UpdatedAt : Z
}.
End GitHubRepository.

Module GitHubSearchResponse.
Record t : Type := {
  TotalCount : Z;
  Items : list GitHubRepository.t
}.
End GitHubSearchResponse.

Module StackOverflowQuestion.
Record t : Type := {
  QuestionID : Z;
  Title : string;
  Link : string;
  Score : Z;
  AnswerCount : Z;
  ViewCount : Z;
  IsAnswered : bool;
  Tags : list string;
  CreationDate : Z
}.
End StackOverflowQuestion.

Module StackOverflowSearchResponse.
Record t : Type := {
  Items : list StackOverflowQuestion.t;
  HasMore : bool;
  QuotaMax : Z;
  QuotaRemaining : Z
}.
End StackOverflowSearchResponse.

(** [Float] stands for float64. *)
Module RedditPost.
Record t (Float : Type) : Type := {
  ID : string;
  Title : string;
  Selftext : string;
  Author : string;
  Subreddit : string;
  Score : Z;
  NumComments : Z;
  CreatedUTC : Float;
  Permalink : string;
  URL : string;
  UpvoteRatio : Float
}.
Arguments ID {Float} _.
Arguments Title {Float} _.
Arguments Selftext {Float} _.
Arguments Author {Float} _.
Arguments Subreddit {Float} _.
Arguments Score {Float} _.
Arguments NumComments {Float} _.
Arguments CreatedUTC {Float} _.
Arguments Permalink {Float} _.
Arguments URL {Float} _.
Arguments UpvoteRatio {Float} _.
End RedditPost.

Module RedditChild.
Record t (Float : Type) : Type := {
  Kind : string;
  Data : RedditPost.t Float
}.
Arguments Kind {Float} _.
Arguments Data {Float} _.
End RedditChild.

Module RedditSearchResponse.
Record t (Float : Type) : Type := {
  Kind : string;
  After : string;
  Children : list (RedditChild.t Float)
}.
Arguments Kind {Float} _.
Arguments After {Float} _.
Arguments Children {Float} _.
End RedditSearchResponse.

(** *** The environment *)

Record Env (Float : Type) : Type := {
  (** net/url, fmt, strings and the conversion [int64(f)] *)
  QueryEscape : string -> string;
  Sprint_d : Z -> string;
  Sprint_2f : Float -> string;
  int64_of_float64 : Float -> Z;
  TrimSpace : string -> string;
  (** [time.Now().Unix()] *)
  Now_Unix : Z;
  (** why [http.NewRequestWithContext] refuses a method and URL, if it does *)
  NewRequest_error : string -> string -> error;
  (** [client.Do] for the call of the [k]-th task *)
  Do : nat -> Request -> Exchange;
  (** [json.NewDecoder(resp.Body).Decode] *)
  decode_github : string -> GitHubSearchResponse.t + string;
  decode_stackoverflow : string -> StackOverflowSearchResponse.t + string;
  decode_reddit : string -> RedditSearchResponse.t Float + string
}.
Arguments QueryEscape {Float} _ _.
Arguments Sprint_d {Float} _ _.
Arguments Sprint_2f {Float} _ _.
Arguments int64_of_float64 {Float} _ _.
Arguments TrimSpace {Float} _ _.
Arguments Now_Unix {Float} _.
Arguments NewRequest_error {Float} _ _ _.
Arguments Do {Float} _ _ _.
Arguments decode_github {Float} _ _.
Arguments decode_stackoverflow {Float} _ _.
Arguments decode_reddit {Float} _ _.

Definition NewRequestWithContext {Float} (env : Env Float) (ctx : Context)
    (method url : string) : Request + string :=
  match NewRequest_error env method url with
  | Some err => inr err
  | None => inl {| req_ctx := ctx; req_method := method; req_url := url;
                   req_header := ∅ |}
  end.

(** [return nil, err] after [elapsed] ms. *)
Definition failure (err : string) (elapsed : Z) : FetchReturn :=
  {| ret_results := []; ret_err := Some err; ret_latency := elapsed |}.

(** [strings.Join] *)
Definition Join (elems : list string) (sep : string) : string :=
  String.concat sep elems.

(** [fmt.Sprintf("%t", b)] *)
Definition Sprint_t (b : bool) : string := if b then "true" else "false".

(** A loop that builds a list and may panic on the way. *)
Fixpoint for_each {A B} (f : A -> result B) (l : list A) : result (list B) :=
  match l with
  | [] => Returned []
  | x :: rest =>
      match f x with
      | Panicked msg => Panicked msg
      | Returned y =>
          match for_each f rest with
          | Panicked msg => Panicked msg
          | Returned ys => Returned (y :: ys)
          end
      end
  end.

(** *** GitHub *)

Record GitHubFetcher : Type := {
  github_apiToken : string;
  github_baseURL : string
}.

Definition GitHub_Name (g : GitHubFetcher) : string := "github".

Definition GitHub_request {Float} (env : Env Float) (g : GitHubFetcher)
    (ctx : Context) (query : string) (maxResults : Z) : Request + string :=
  let searchURL :=
    github_baseURL g +:+ "/search/repositories?q=" +:+ QueryEscape env query
      +:+ "&per_page=" +:+ Sprint_d env maxResults
      +:+ "&sort=stars&order=desc" in
  match NewRequestWithContext env ctx "GET" searchURL with
  | inr err => inr ("failed to create request: " +:+ err)
  | inl req =>
      if decide (github_apiToken g = "") then inl req
      else
        let req := Header_Set req "Authorization"
                     ("Bearer " +:+ github_apiToken g) in
        let req := Header_Set req "X-GitHub-Api-Version" "2022-11-28" in
        inl req
  end.

Definition GitHub_convert {Float} (env : Env Float)
    (item : GitHubRepository.t) : SearchResult.t :=
  let result :=
    NewSearchResult (Now_Unix env) "github"
      (GitHubRepository.FullName item)
      (GitHubRepository.Description item)
      (GitHubRepository.HTMLURL item) in
  let result := with_Timestamp result (GitHubRepository.CreatedAt item) in
  with_Metadata result
    (<["stars" := Sprint_d env (GitHubRepository.StargazersCount item)]>
       (<["forks" := Sprint_d env (GitHubRepository.ForksCount item)]>
          (<["language" := GitHubRepository.Language item]>
             (<["open_issues" :=
                  Sprint_d env (GitHubRepository.OpenIssuesCount item)]> ∅)))).

Definition GitHub_Fetch {Float} (env : Env Float) (g : GitHubFetcher)
    (k : nat) (ctx : Context) (query : string) (maxResults : Z) : FetchReturn :=
  match GitHub_request env g ctx query maxResults with
  | inr err => failure err 0
  | inl req =>
      let exchange := Do env k req in
      match ex_result exchange with
      | inr err =>
          failure ("failed to execute request: " +:+ err) (ex_elapsed exchange)
      | inl resp =>
          if decide (StatusCode resp = 200%Z) then
            match decode_github env (Body resp) with
            | inr err =>
                failure ("failed to decode response: " +:+ err)
                  (ex_elapsed exchange)
            | inl githubResp =>
                {| ret_results :=
                     map (GitHub_convert env) (GitHubSearchResponse.Items githubResp);
                   ret_err := None;
                   ret_latency := ex_elapsed exchange |}
            end
          else
            failure ("GitHub API error: status=" +:+ Sprint_d env (StatusCode resp)
                       +:+ ", body=" +:+ Body resp)
              (ex_elapsed exchange)
      end
  end.

(** *** StackOverflow *)

Record StackOverflowFetcher : Type := {
  stackoverflow_apiKey : string;
  stackoverflow_baseURL : string
}.

Definition StackOverflow_Name (s : StackOverflowFetcher) : string := "stackoverflow".

Definition StackOverflow_request {Float} (env : Env Float)
    (s : StackOverflowFetcher) (ctx : Context) (query : string)
    (maxResults : Z) : Request + string :=
  let searchURL :=
    stackoverflow_baseURL s +:+ "/search/advanced?q=" +:+ QueryEscape env query
      +:+ "&pagesize=" +:+ Sprint_d env maxResults
      +:+ "&order=desc&sort=relevance&site=stackoverflow" in
  let searchURL :=
    if decide (stackoverflow_apiKey s = "") then searchURL
    else searchURL +:+ ("&key=" +:+ stackoverflow_apiKey s) in
  match NewRequestWithContext env ctx "GET" searchURL with
  | inr err => inr ("failed to create request: " +:+ err)
  | inl req => inl (Header_Set req "Accept" "application/json")
  end.

Definition StackOverflow_snippet (item : StackOverflowQuestion.t) : string :=
  let snippet := StackOverflowQuestion.Title item in
  if (0 <? Z.of_nat (length (StackOverflowQuestion.Tags item)))%Z
  then snippet +:+ (" | Tags: " +:+ Join (StackOverflowQuestion.Tags item) ", ")
  else snippet.

Definition StackOverflow_convert {Float} (env : Env Float)
    (item : StackOverflowQuestion.t) : result SearchResult.t :=
  let snippet := StackOverflow_snippet item in
  match TruncateString (TrimSpace env) snippet 500 with
  | Panicked msg => Panicked msg
  | Returned truncated =>
      let result :=
        NewSearchResult (Now_Unix env) "stackoverflow"
          (StackOverflowQuestion.Title item) truncated
          (StackOverflowQuestion.Link item) in
      let result := with_Timestamp result (StackOverflowQuestion.CreationDate item) in
      Returned
        (with_Metadata result
           (<["score" := Sprint_d env (StackOverflowQuestion.Score item)]>
              (<["answer_count" :=
                   Sprint_d env (StackOverflowQuestion.AnswerCount item)]>
                 (<["view_count" :=
                      Sprint_d env (StackOverflowQuestion.ViewCount item)]>
                    (<["is_answered" :=
                         Sprint_t (StackOverflowQuestion.IsAnswered item)]>
                       (<["tags" :=
                            Join (StackOverflowQuestion.Tags item) ","]> ∅))))))
  end.

Definition StackOverflow_Fetch {Float} (env : Env Float)
    (s : StackOverflowFetcher) (k : nat) (ctx : Context) (query : string)
    (maxResults : Z) : result FetchReturn :=
  match StackOverflow_request env s ctx query maxResults with
  | inr err => Returned (failure err 0)
  | inl req =>
      let exchange := Do env k req in
      match ex_result exchange with
      | inr err =>
          Returned (failure ("failed to execute request: " +:+ err)
                      (ex_elapsed exchange))
      | inl resp =>
          if decide (StatusCode resp = 200%Z) then
            match decode_stackoverflow env (Body resp) with
            | inr err =>
                Returned (failure ("failed to decode response: " +:+ err)
                            (ex_elapsed exchange))
            | inl soResp =>
                match for_each (StackOverflow_convert env)
                        (StackOverflowSearchResponse.Items soResp) with
                | Panicked msg => Panicked msg
                | Returned results =>
                    Returned {| ret_results := results; ret_err := None;
                                ret_latency := ex_elapsed exchange |}
                end
            end
          else
            Returned
              (failure ("StackOverflow API error: status="
                          +:+ Sprint_d env (StatusCode resp)
                          +:+ ", body=" +:+ Body resp)
                 (ex_elapsed exchange))
      end
  end.

(** *** Reddit *)

Record RedditFetcher : Type := {
  reddit_clientID : string;
  reddit_clientSecret : string;
  reddit_userAgent : string;
  reddit_baseURL : string
}.

Definition Reddit_Name (r : RedditFetcher) : string := "reddit".

Definition Reddit_request {Float} (env : Env Float) (r : RedditFetcher)
    (ctx : Context) (query : string) (maxResults : Z) : Request + string :=
  let searchURL :=
    "https://www.reddit.com/search.json?q=" +:+ QueryEscape env query
      +:+ "&limit=" +:+ Sprint_d env maxResults +:+ "&sort=relevance" in
  match NewRequestWithContext env ctx "GET" searchURL with
  | inr err => inr ("failed to create request: " +:+ err)
  | inl req =>
      let req := Header_Set req "User-Agent" (reddit_userAgent r) in
      inl (Header_Set req "Accept" "application/json")
  end.

Definition Reddit_snippet {Float} (post : RedditPost.t Float) : string :=
  let snippet := RedditPost.Selftext post in
  if decide (snippet = "") then RedditPost.Title post else snippet.

Definition Reddit_convert {Float} (env : Env Float)
    (child : RedditChild.t Float) : result SearchResult.t :=
  let post := RedditChild.Data child in
  let postURL := "https://www.reddit.com" +:+ RedditPost.Permalink post in
  let snippet := Reddit_snippet post in
  match TruncateString (TrimSpace env) snippet 500 with
  | Panicked msg => Panicked msg
  | Returned truncated =>
      let result :=
        NewSearchResult (Now_Unix env) "reddit" (RedditPost.Title post)
          truncated postURL in
      let result :=
        with_Timestamp result (int64_of_float64 env (RedditPost.CreatedUTC post)) in
      Returned
        (with_Metadata result
           (<["score" := Sprint_d env (RedditPost.Score post)]>
              (<["num_comments" := Sprint_d env (RedditPost.NumComments post)]>
                 (<["subreddit" := RedditPost.Subreddit post]>
                    (<["author" := RedditPost.Author post]>
                       (<["upvote_ratio" :=
                            Sprint_2f env (RedditPost.UpvoteRatio post)]> ∅))))))
  end.

Definition Reddit_Fetch {Float} (env : Env Float) (r : RedditFetcher)
    (k : nat) (ctx : Context) (query : string) (maxResults : Z)
    : result FetchReturn :=
  match Reddit_request env r ctx query maxResults with
  | inr err => Returned (failure err 0)
  | inl req =>
      let exchange := Do env k req in
      match ex_result exchange with
      | inr err =>
          Returned (failure ("failed to execute request: " +:+ err)
                      (ex_elapsed exchange))
      | inl resp =>
          if decide (StatusCode resp = 200%Z) then
            match decode_reddit env (Body resp) with
            | inr err =>
                Returned (failure ("failed to decode response: " +:+ err)
                            (ex_elapsed exchange))
            | inl redditResp =>
                match for_each (Reddit_convert env)
                        (RedditSearchResponse.Children redditResp) with
                | Panicked msg => Panicked msg
                | Returned results =>
                    Returned {| ret_results := results; ret_err := None;
                                ret_latency := ex_elapsed exchange |}
                end
            end
          else
            Returned
              (failure ("Reddit API error: status="
                          +:+ Sprint_d env (StatusCode resp)
                          +:+ ", body=" +:+ Body resp)
                 (ex_elapsed exchange))
      end
  end.

(** *** The providers as the handler sees them *)

(** A remote service is one of the providers when its answers are what the
    provider's [Fetch] returns. *)
Definition serves (remote : Remote)
    (fetch : nat -> Context -> string -> Z -> result FetchReturn) : Prop :=
  forall k ctx query maxResults,
    fetch k ctx query maxResults = Returned (remote k ctx query maxResults).

(** The world of a handler whose three fetchers are the three providers,
    set up from the configuration as [NewSearchHandler] does. *)
Definition provided {Float} (env : Env Float) (cfg : config.Config)
    (w : handlers.World) : Prop :=
  serves (handlers.github_api w)
    (fun k ctx query maxResults =>
       Returned
         (GitHub_Fetch env
            {| github_apiToken := config.APIToken (config.GitHub cfg);
               github_baseURL := config.GitHub_BaseURL (config.GitHub cfg) |}
            k ctx query maxResults)) /\
  serves (handlers.stackoverflow_api w)
    (StackOverflow_Fetch env
       {| stackoverflow_apiKey := config.APIKey (config.StackOverflow cfg);
          stackoverflow_baseURL :=
            config.StackOverflow_BaseURL (config.StackOverflow cfg) |}) /\
  serves (handlers.reddit_api w)
    (Reddit_Fetch env
       {| reddit_clientID := config.ClientID (config.Reddit cfg);
          reddit_clientSecret := config.ClientSecret (config.Reddit cfg);
          reddit_userAgent := config.UserAgent (config.Reddit cfg);
          reddit_baseURL := config.Reddit_BaseURL (config.Reddit cfg) |}).

(** What the orchestrator may rely on in the return of a [Fetch]: an error
    comes without results, and every result carries the provider's name. *)
Definition keeps_contract (name : string) (ret : FetchReturn) : Prop :=
  (ret_err ret <> None -> ret_results ret = []) /\
  Forall (fun r => SearchResult.Platform r = name) (ret_results ret).

(** The exchange went well: the request was accepted, the service answered
    with status 200 and the body could be decoded into [answer]. *)
Definition answered {Float A} (env : Env Float) (k : nat)
    (request : Request + string) (decode : string -> A + string)
    (answer : A) : Prop :=
  exists req resp,
    request = inl req /\
    ex_result (Do env k req) = inl resp /\
    StatusCode resp = 200%Z /\
    decode (Body resp) = inl answer.

End providers.

(** ** internal/config: loading the configuration

    The process environment is a finite map from the names of the variables
    that are set to their values; so are the entries of the file [.env].
    [strconv.Atoi] and [strconv.ParseBool] are the Go library's.  Durations
    are [time.Duration]s: 64-bit counts of nanoseconds. *)

Module environment.

Import config.

Record LoggingConfig : Type := {
  Level : string;
  Format : string
}.

(** The [Config] of the source: the part the handlers read and the logging
    settings. *)
Record Loaded : Type := {
  settings : Config;
  Logging : LoggingConfig
}.

(** [os.Getenv]: the empty string for a variable that is not set. *)
Definition Getenv (env : gmap string string) (key : string) : string :=
  default "" (env !! key).

(** [godotenv.Load()], of the library github.com/joho/godotenv, as the
    library documents it: the entries of [.env] are added to the process
    environment, except for the variables that are set already, be it to the
    empty string.  [dotenv] holds the entries of the file and is empty when
    there is no file or it cannot be read: [Load] ignores the error. *)
Definition godotenv_Load (dotenv env : gmap string string) : gmap string string :=
  env ∪ dotenv.

Definition Millisecond : Z := 1000000.
Definition Second : Z := 1000000000.

(** The product of two [time.Duration]s, in 64 bits. *)
Definition Duration_mul (a b : Z) : Z := wrap 64 (a * b).

Section Load.

Variable Atoi : string -> Z + string.
Variable ParseBool : string -> bool + string.

Definition getEnv (env : gmap string string) (key defaultValue : string) : string :=
  let value := Getenv env key in
  if decide (value = "") then defaultValue else value.

Definition getIntEnv (env : gmap string string) (key : string)
    (defaultValue : Z) : Z :=
  let valueStr := Getenv env key in
  if decide (valueStr = "") then defaultValue
  else
    match Atoi valueStr with
    | inr _ => defaultValue
    | inl value => value
    end.

Definition getBoolEnv (env : gmap string string) (key : string)
    (defaultValue : bool) : bool :=
  let valueStr := Getenv env key in
  if decide (valueStr = "") then defaultValue
  else
    match ParseBool valueStr with
    | inr _ => defaultValue
    | inl value => value
    end.

Definition getDurationEnv (env : gmap string string) (key : string)
    (defaultValue : Z) : Z :=
  let valueStr := Getenv env key in
  if decide (valueStr = "") then defaultValue
  else
    match Atoi valueStr with
    | inr _ => defaultValue
    | inl value => value
    end.

(** [Validate] only logs warnings about credentials that are not set. *)
Definition Validate (c : Loaded) : error := None.

Definition Load (dotenv env : gmap string string) : option Loaded * error :=
  let env := godotenv_Load dotenv env in
  let config :=
    {| settings :=
         {| config.Server :=
              {| GRPCPort := getEnv env "GRPC_SERVER_PORT" "50051";
                 ServerTimeout :=
                   Duration_mul (getDurationEnv env "SERVER_TIMEOUT_MS" 500)
                     Millisecond;
                 PerAPITimeout :=
                   Duration_mul (getDurationEnv env "PER_API_TIMEOUT_MS" 400)
                     Millisecond |};
            GitHub :=
              {| APIToken := getEnv env "GITHUB_API_TOKEN" "";
                 GitHub_BaseURL :=
                   getEnv env "GITHUB_API_BASE_URL" "https://api.github.com" |};
            StackOverflow :=
              {| APIKey := getEnv env "STACKOVERFLOW_API_KEY" "";
                 StackOverflow_BaseURL :=
                   getEnv env "STACKOVERFLOW_API_BASE_URL"
                     "https://api.stackexchange.com/2.3" |};
            Reddit :=
              {| ClientID := getEnv env "REDDIT_CLIENT_ID" "";
                 ClientSecret := getEnv env "REDDIT_CLIENT_SECRET" "";
                 UserAgent :=
                   getEnv env "REDDIT_USER_AGENT" "FederatedSearchEngine/1.0";
                 Reddit_BaseURL :=
                   getEnv env "REDDIT_API_BASE_URL" "https://oauth.reddit.com" |};
            Performance :=
              {| MaxResultsPerPlatform := getIntEnv env "MAX_RESULTS_PER_PLATFORM" 20;
                 EnableCircuitBreaker := getBoolEnv env "ENABLE_CIRCUIT_BREAKER" true;
                 CircuitBreakerThreshold :=
                   getIntEnv env "CIRCUIT_BREAKER_THRESHOLD" 5;
                 CircuitBreakerTimeout :=
                   Duration_mul (getDurationEnv env "CIRCUIT_BREAKER_TIMEOUT_SEC" 30)
                     Second |} |};
       Logging :=
         {| Level := getEnv env "LOG_LEVEL" "info";
            Format := getEnv env "LOG_FORMAT" "json" |} |} in
  match Validate config with
  | Some err => (None, Some ("config validation failed: " +:+ err))
  | None => (Some config, None)
  end.

End Load.

(** The variables [Load] reads. *)
Definition load_keys : list string :=
  ["GRPC_SERVER_PORT"; "SERVER_TIMEOUT_MS"; "PER_API_TIMEOUT_MS";
   "GITHUB_API_TOKEN"; "GITHUB_API_BASE_URL";
   "STACKOVERFLOW_API_KEY"; "STACKOVERFLOW_API_BASE_URL";
   "REDDIT_CLIENT_ID"; "REDDIT_CLIENT_SECRET"; "REDDIT_USER_AGENT";
   "REDDIT_API_BASE_URL";
   "MAX_RESULTS_PER_PLATFORM"; "ENABLE_CIRCUIT_BREAKER";
   "CIRCUIT_BREAKER_THRESHOLD"; "CIRCUIT_BREAKER_TIMEOUT_SEC";
   "LOG_LEVEL"; "LOG_FORMAT"].

(** A variable does not count: it is not set, set to the empty string, or
    set to something [parse] refuses. *)
Definition unusable {A} (parse : string -> A + string)
    (env : gmap string string) (key : string) : Prop :=
  Getenv env key = "" \/ exists err, parse (Getenv env key) = inr err.

(** [time.Duration.Milliseconds]. *)
Definition Milliseconds (d : Z) : Z := Z.quot d Millisecond.

(** The handlers are modelled on a clock that counts milliseconds, and read
    their two timeouts in that unit; [Load] yields [time.Duration]s.
    [on_the_clock] is the loaded configuration as the handlers see it on
    that clock.  Nothing is lost for timeouts of whole milliseconds, which
    those of [Load] are unless the multiplication overflows. *)
Definition on_the_clock (c : Config) : Config :=
  {| config.Server :=
       {| GRPCPort := GRPCPort (config.Server c);
          ServerTimeout := Milliseconds (ServerTimeout (config.Server c));
          PerAPITimeout := Milliseconds (PerAPITimeout (config.Server c)) |};
     GitHub := GitHub c;
     StackOverflow := StackOverflow c;
     Reddit := Reddit c;
     Performance := Performance c |}.

End environment.

(** ** More concrete inputs *)

Module more_examples.

Import models fetchers config handlers grpc examples.

Definition rocq_call (platform : string) : FetchCall :=
  {| call_fetcher := platform; call_ctx := global_ctx;
     call_query := "rocq"; call_maxResults := 20 |}.

(** Two tasks, ready to send at 1 ms and at 400 ms. *)
Definition two_tasks : list Goroutine :=
  [{| g_call := rocq_call "github"; g_result := ok_github; g_sends_at := 1 |};
   {| g_call := rocq_call "reddit"; g_result := late_reddit; g_sends_at := 400 |}].

(** A probe: a service that fails after as many ms as the deadline of the
    context it is called under says. *)
Definition deadline_probe : Remote :=
  fun k ctx query maxResults =>
    {| ret_results := []; ret_err := Some "probe";
       ret_latency := default 0%Z (deadline ctx) |}.

Definition probe : Fetcher := {| Name := "probe"; Fetch := deadline_probe |}.

(** A handler whose registry is empty. *)
Definition no_fetchers : SearchHandler :=
  {| handlers.fetchers := ∅; handlers.config := cfg |}.

(** A small environment: floats are held in hundredths, every service
    answers after 120 ms with status 200 and the decoders give fixed
    answers. *)
Fixpoint decimal (fuel : nat) (n : N) : string :=
  match fuel with
  | O => ""
  | S fuel' =>
      let digit := String (ascii_of_N (48 + n `mod` 10)) "" in
      if (n <? 10)%N then digit else decimal fuel' (n `div` 10) +:+ digit
  end.

Definition print_int (z : Z) : string :=
  if (z <? 0)%Z then "-" +:+ decimal 20 (Z.abs_N z) else decimal 20 (Z.abs_N z).

Definition question : providers.StackOverflowQuestion.t :=
  {| providers.StackOverflowQuestion.QuestionID := 42;
     providers.StackOverflowQuestion.Title := "How do I prove a fold correct?";
     providers.StackOverflowQuestion.Link := "https://stackoverflow.com/q/42";
     providers.StackOverflowQuestion.Score := 7;
     providers.StackOverflowQuestion.AnswerCount := 2;
     providers.StackOverflowQuestion.ViewCount := 1200;
     providers.StackOverflowQuestion.IsAnswered := true;
     providers.StackOverflowQuestion.Tags := ["rocq"; "stdpp"];
     providers.StackOverflowQuestion.CreationDate := 1704067200 |}.

Definition post : providers.RedditPost.t Z :=
  {| providers.RedditPost.ID := "t3_1"; providers.RedditPost.Title := "Rocq 9 is out";
     providers.RedditPost.Selftext := ""; providers.RedditPost.Author := "someone";
     providers.RedditPost.Subreddit := "rocq"; providers.RedditPost.Score := 55;
     providers.RedditPost.NumComments := 8;
     providers.RedditPost.CreatedUTC := 170406720000%Z;
     providers.RedditPost.Permalink := "/r/rocq/comments/1";
     providers.RedditPost.URL := "https://rocq-prover.org";
     providers.RedditPost.UpvoteRatio := 97%Z |}.

Definition repository : providers.GitHubRepository.t :=
  {| providers.GitHubRepository.ID := 1;
     providers.GitHubRepository.Name := "stdpp";
     providers.GitHubRepository.FullName := "iris/stdpp";
     providers.GitHubRepository.Description := "An extended standard library";
     providers.GitHubRepository.HTMLURL := "https://github.com/iris/stdpp";
     providers.GitHubRepository.StargazersCount := 100;
     providers.GitHubRepository.ForksCount := 10;
     providers.GitHubRepository.Language := "Rocq";
     providers.GitHubRepository.OpenIssuesCount := 3;
     providers.GitHubRepository.CreatedAt := 1500000000;
     providers.GitHubRepository.UpdatedAt := 1700000000 |}.

Definition lab : providers.Env Z :=
  {| providers.QueryEscape := fun s => s;
     providers.Sprint_d := print_int;
     providers.Sprint_2f := fun f : Z =>
       print_int (f `div` 100)%Z +:+ "." +:+ print_int (f `mod` 100)%Z;
     providers.int64_of_float64 := fun f : Z => (f `div` 100)%Z;
     providers.TrimSpace := TrimSpaceASCII;
     providers.Now_Unix := 1760000000;
     providers.NewRequest_error := fun method url => None;
     providers.Do := fun k req =>
       {| providers.ex_result :=
            inl {| providers.StatusCode := 200; providers.Body := "{}" |};
          providers.ex_elapsed := 120 |};
     providers.decode_github := fun body =>
       inl {| providers.GitHubSearchResponse.TotalCount := 1;
              providers.GitHubSearchResponse.Items := [repository] |};
     providers.decode_stackoverflow := fun body =>
       inl {| providers.StackOverflowSearchResponse.Items := [question];
              providers.StackOverflowSearchResponse.HasMore := false;
              providers.StackOverflowSearchResponse.QuotaMax := 300;
              providers.StackOverflowSearchResponse.QuotaRemaining := 299 |};
     providers.decode_reddit := fun body =>
       inl {| providers.RedditSearchResponse.Kind := "Listing";
              providers.RedditSearchResponse.After := "";
              providers.RedditSearchResponse.Children :=
                [{| providers.RedditChild.Kind := "t3";
                    providers.RedditChild.Data := post |}] |} |}.

Definition the_github : providers.GitHubFetcher :=
  {| providers.github_apiToken := "";
     providers.github_baseURL := "https://api.github.com" |}.

Definition the_stackoverflow : providers.StackOverflowFetcher :=
  {| providers.stackoverflow_apiKey := "";
     providers.stackoverflow_baseURL := "https://api.stackexchange.com/2.3" |}.

Definition the_reddit : providers.RedditFetcher :=
  {| providers.reddit_clientID := ""; providers.reddit_clientSecret := "";
     providers.reddit_userAgent := "FederatedSearchEngine/1.0";
     providers.reddit_baseURL := "https://oauth.reddit.com" |}.

(** What [Fetch] returns when it does not panic; a panic shows as an error
    here, and none of the three calls below panics. *)
Definition returned_or (r : result FetchReturn) : FetchReturn :=
  match r with
  | Returned ret => ret
  | Panicked msg => providers.failure msg 0
  end.

(** The world of the three providers in the environment [lab]. *)
Definition lab_world : World :=
  {| github_api := providers.GitHub_Fetch lab the_github;
     stackoverflow_api := fun k ctx query maxResults =>
       returned_or (providers.StackOverflow_Fetch lab the_stackoverflow
                      k ctx query maxResults);
     reddit_api := fun k ctx query maxResults =>
       returned_or (providers.Reddit_Fetch lab the_reddit k ctx query maxResults) |}.

(** A reading of decimal numbers and of booleans, enough to run [Load]. *)
Fixpoint digits (s : string) (acc : Z) : Z + string :=
  match s with
  | EmptyString => inl acc
  | String a rest =>
      let n := N_of_ascii a in
      if ((48 <=? n) && (n <=? 57))%N
      then digits rest (10 * acc + Z.of_N (n - 48))%Z
      else inr "invalid syntax"
  end.

Definition read_int (s : string) : Z + string :=
  match s with
  | EmptyString => inr "invalid syntax"
  | String "-" rest =>
      match rest with
      | EmptyString => inr "invalid syntax"
      | _ => match digits rest 0 with
             | inl n => inl (- n)%Z
             | inr e => inr e
             end
      end
  | _ => digits s 0
  end.

Definition read_bool (s : string) : bool + string :=
  if decide (s = "true") then inl true
  else if decide (s = "false") then inl false
  else inr "invalid syntax".

(** A process environment and a file [.env]. *)
Definition production : gmap string string :=
  <["GRPC_SERVER_PORT" := "9090"]>
    (<["PER_API_TIMEOUT_MS" := "250"]>
       (<["SERVER_TIMEOUT_MS" := "fast"]>
          (<["LOG_LEVEL" := ""]>
             (<["HOME" := "/root"]> ∅)))).

Definition dotenv_file : gmap string string :=
  <["LOG_LEVEL" := "debug"]>
    (<["GRPC_SERVER_PORT" := "50052"]>
       (<["GITHUB_API_TOKEN" := "ghp_example"]> ∅)).

End more_examples.

(* ===================================================================== *)
(** * Properties                                                          *)
(* ===================================================================== *)

Import models fetchers config handlers grpc.

(** ** Machine integers and strings *)

Lemma wrap64_id z : is_int z -> int z = z.
Proof.
  unfold is_int, int, wrap. intros Hz.
  rewrite Z.mod_small; lia.
Qed.

Lemma wrap64_below z :
  (- 2 ^ 63 - 2 ^ 63 <= z < - 2 ^ 63)%Z -> int z = (z + 2 ^ 64)%Z.
Proof.
  unfold int, wrap. intros Hz.
  replace (z + 2 ^ (64 - 1))%Z with ((z + 2 ^ 63 + 2 ^ 64) + (-1) * 2 ^ 64)%Z by lia.
  rewrite Z.mod_add by lia.
  rewrite Z.mod_small; lia.
Qed.

Lemma string_length_append (s1 s2 : string) :
  String.length (s1 +:+ s2) = (String.length s1 + String.length s2)%nat.
Proof. induction s1 as [|a s1 IH]; simpl; [reflexivity | now rewrite IH]. Qed.

Lemma string_length_prefix (n : nat) (s : string) :
  (n <= String.length s)%nat -> String.length (String.substring 0 n s) = n.
Proof.
  revert n. induction s as [|a s IH]; intros [|n] Hn; simpl in *; try lia.
  rewrite IH; lia.
Qed.

Lemma trim_left_shorter s : (String.length (trim_left s) <= String.length s)%nat.
Proof.
  induction s as [|a s IH]; simpl; [lia |].
  destruct (is_space a); simpl; lia.
Qed.

Lemma trim_right_shorter s : (String.length (trim_right s) <= String.length s)%nat.
Proof.
  induction s as [|a s IH]; simpl; [lia |].
  destruct (trim_right s) eqn:E; [destruct (is_space a) |]; simpl in *; lia.
Qed.

Lemma TrimSpaceASCII_shorter s :
  (String.length (TrimSpaceASCII s) <= String.length s)%nat.
Proof.
  unfold TrimSpaceASCII.
  pose proof (trim_right_shorter (trim_left s)).
  pose proof (trim_left_shorter s). lia.
Qed.

(** ** TruncateString *)

Section TruncateString_spec.

Variable TrimSpace : string -> string.
Hypothesis TrimSpace_shorter :
  forall s, (String.length (TrimSpace s) <= String.length s)%nat.

Lemma TruncateString_fits s maxLength :
  (len s <= maxLength)%Z -> TruncateString TrimSpace s maxLength = Returned s.
Proof.
  intros H. unfold TruncateString.
  destruct (Z.leb_spec (len s) maxLength); [reflexivity | lia].
Qed.

Lemma TruncateString_cuts s maxLength :
  is_int maxLength -> (maxLength < len s)%Z -> (3 <= maxLength)%Z ->
  exists t,
    TruncateString TrimSpace s maxLength = Returned (t +:+ "...") /\
    (len (t +:+ "...") <= maxLength)%Z.
Proof.
  intros Hint Hlt H3. unfold TruncateString.
  destruct (Z.leb_spec (len s) maxLength); [lia |].
  rewrite wrap64_id by (unfold is_int in *; lia).
  unfold slice_to.
  destruct (Z.ltb_spec (maxLength - 3) 0); [lia |].
  destruct (Z.ltb_spec (len s) (maxLength - 3)); [lia |].
  cbn [orb]. eexists; split; [reflexivity |].
  unfold len in *. rewrite string_length_append. cbn [String.length].
  pose proof (TrimSpace_shorter (String.substring 0 (Z.to_nat (maxLength - 3)) s)) as Ht.
  rewrite string_length_prefix in Ht by lia. lia.
Qed.

Lemma TruncateString_panics s maxLength :
  is_int maxLength -> (len s < 2 ^ 63 - 3)%Z ->
  (maxLength < len s)%Z -> (maxLength < 3)%Z ->
  TruncateString TrimSpace s maxLength
    = Panicked "runtime error: slice bounds out of range".
Proof.
  intros Hint Hs Hlt H3. unfold TruncateString.
  destruct (Z.leb_spec (len s) maxLength); [lia |].
  unfold is_int in Hint.
  destruct (Z.le_gt_cases (- 2 ^ 63) (maxLength - 3)) as [Hin | Hout].
  - rewrite wrap64_id by (unfold is_int; lia).
    unfold slice_to.
    destruct (Z.ltb_spec (maxLength - 3) 0); [reflexivity | lia].
  - rewrite wrap64_below by lia.
    unfold slice_to.
    destruct (Z.ltb_spec (maxLength - 3 + 2 ^ 64) 0); [reflexivity |].
    destruct (Z.ltb_spec (len s) (maxLength - 3 + 2 ^ 64)); [reflexivity | lia].
Qed.

(** C10. [TruncateString] is not total.  For every string [s] (of a length
    a Go program can hold) and every [int] [maxLength]: if
    [len(s) <= maxLength] it returns [s] unchanged; if [len(s) > maxLength]
    and [maxLength >= 3] it returns a string of length at most [maxLength]
    that ends in "..."; if [len(s) > maxLength] and [maxLength < 3] the slice
    expression [s[:maxLength-3]] is out of range and the call panics; and
    such a panicking call exists. *)
Theorem TruncateString_not_total :
  (forall s maxLength,
      is_int maxLength -> (len s < 2 ^ 63 - 3)%Z ->
      ((len s <= maxLength)%Z ->
         TruncateString TrimSpace s maxLength = Returned s) /\
      ((maxLength < len s)%Z -> (3 <= maxLength)%Z ->
         exists t,
           TruncateString TrimSpace s maxLength = Returned (t +:+ "...") /\
           (len (t +:+ "...") <= maxLength)%Z) /\
      ((maxLength < len s)%Z -> (maxLength < 3)%Z ->
         TruncateString TrimSpace s maxLength
           = Panicked "runtime error: slice bounds out of range")) /\
  (exists s maxLength msg,
      is_int maxLength /\ TruncateString TrimSpace s maxLength = Panicked msg).
Proof.
  split.
  - intros s maxLength Hint Hs. split; [| split].
    + apply TruncateString_fits.
    + now apply TruncateString_cuts.
    + now apply TruncateString_panics.
  - exists "abcd", 2%Z, "runtime error: slice bounds out of range".
    split; [unfold is_int; lia |].
    apply TruncateString_panics; unfold is_int, len; simpl; lia.
Qed.

End TruncateString_spec.

Lemma TruncateString_not_total_witness :
  TruncateString TrimSpaceASCII "a long  snippet" 9 = Returned "a long..." /\
  TruncateString TrimSpaceASCII "reddit" 2
    = Panicked "runtime error: slice bounds out of range".
Proof.
  destruct (TruncateString_not_total TrimSpaceASCII TrimSpaceASCII_shorter)
    as [Hall _].
  split.
  - reflexivity.
  - destruct (Hall "reddit" 2%Z) as (_ & _ & Hpanic).
    + unfold is_int; lia.
    + unfold len; simpl; lia.
    + apply Hpanic; unfold len; simpl; lia.
Defined.

(** ** The fan-in fold *)

Import properties.

Lemma append_protos (results : list SearchResult.t) (acc : list pb.Result.t) :
  fold_left (fun acc result => acc ++ [ToProto result]) results acc
  = acc ++ map ToProto results.
Proof.
  revert acc. induction results as [|r results IH]; intros acc; simpl.
  - now rewrite app_nil_r.
  - rewrite IH, <- app_assoc. reflexivity.
Qed.

Lemma collect_snoc outcomes fr :
  collect (outcomes ++ [fr]) = collect_step (collect outcomes) fr.
Proof. unfold collect. now rewrite fold_left_app. Qed.

#[local] Instance same_up_to_order_refl : Reflexive same_up_to_order.
Proof. intros c. split; reflexivity. Qed.

#[local] Instance same_up_to_order_trans : Transitive same_up_to_order.
Proof. intros c1 c2 c3 [] []. split; etrans; eassumption. Qed.

Ltac order_only :=
  simpl; rewrite <- ?app_assoc;
  first [ reflexivity
        | apply Permutation_app_head; apply Permutation_app_comm ].

Lemma collect_step_swap c x y :
  same_up_to_order (collect_step (collect_step c x) y)
                   (collect_step (collect_step c y) x).
Proof.
  unfold collect_step. rewrite !append_protos.
  destruct (FetchResult.Error x), (FetchResult.TimedOut x),
    (FetchResult.Error y), (FetchResult.TimedOut y);
    split; simpl; rewrite ?append_protos; order_only.
Qed.

Lemma collect_step_proper c c' fr :
  same_up_to_order c c' ->
  same_up_to_order (collect_step c fr) (collect_step c' fr).
Proof.
  intros [Hr Hs Ht He]. unfold collect_step. rewrite !append_protos.
  destruct (FetchResult.Error fr), (FetchResult.TimedOut fr);
    split; simpl; try assumption; now apply Permutation_app_tail.
Qed.

Lemma fold_collect_proper outcomes c c' :
  same_up_to_order c c' ->
  same_up_to_order (fold_left collect_step outcomes c)
                   (fold_left collect_step outcomes c').
Proof.
  revert c c'. induction outcomes as [|fr outcomes IH]; intros c c' H; simpl.
  - exact H.
  - apply IH. now apply collect_step_proper.
Qed.

Lemma fold_collect_perm outcomes outcomes' c :
  outcomes ≡ₚ outcomes' ->
  same_up_to_order (fold_left collect_step outcomes c)
                   (fold_left collect_step outcomes' c).
Proof.
  intros H. revert c.
  induction H as [| x l l' _ IH | x y l | l1 l2 l3 _ IH1 _ IH2]; intros c; simpl.
  - reflexivity.
  - apply IH.
  - apply fold_collect_proper, collect_step_swap.
  - etrans; [apply IH1 | apply IH2].
Qed.

Lemma collect_perm outcomes outcomes' :
  outcomes ≡ₚ outcomes' -> same_up_to_order (collect outcomes) (collect outcomes').
Proof. apply fold_collect_perm. Qed.

(** Every Outcome read adds its provider name to one of the three lists. *)
Lemma collect_step_names c fr :
  partition_names (collect_step c fr)
    ≡ₚ partition_names c ++ [FetchResult.Platform fr].
Proof.
  unfold partition_names, collect_step.
  destruct (FetchResult.Error fr), (FetchResult.TimedOut fr); simpl;
    rewrite <- ?app_assoc; try reflexivity;
    repeat (apply Permutation_app_head);
    try apply Permutation_app_comm;
    rewrite (Permutation_app_comm [FetchResult.Platform fr]);
    rewrite <- ?app_assoc; reflexivity.
Qed.

Lemma fold_collect_names outcomes c :
  partition_names (fold_left collect_step outcomes c)
    ≡ₚ partition_names c ++ map FetchResult.Platform outcomes.
Proof.
  revert c. induction outcomes as [|fr outcomes IH]; intros c; simpl.
  - now rewrite app_nil_r.
  - rewrite IH, collect_step_names, <- app_assoc. reflexivity.
Qed.

Lemma collect_names outcomes :
  partition_names (collect outcomes) ≡ₚ map FetchResult.Platform outcomes.
Proof. unfold collect. now rewrite fold_collect_names. Qed.

Lemma fold_collect_all_failed outcomes c :
  Forall failed outcomes ->
  allResults (fold_left collect_step outcomes c) = allResults c /\
  platformsSuccess (fold_left collect_step outcomes c) = platformsSuccess c.
Proof.
  intros H. revert c. induction H as [|fr outcomes Hfr _ IH]; intros c; simpl.
  - split; reflexivity.
  - destruct (IH (collect_step c fr)) as [-> ->].
    unfold collect_step, failed in *.
    destruct (FetchResult.Error fr); [| congruence].
    destruct (FetchResult.TimedOut fr); split; reflexivity.
Qed.

(** C7. Folding any permutation of a sequence of Outcomes yields a response
    whose success, timeout and error lists are equal as sets to those of the
    original fold and whose results are the same multiset (a permutation);
    the count and the metadata are the same, so only the order in which the
    results are concatenated can differ. *)
Theorem fold_order_insensitive
    (outcomes outcomes' : list FetchResult.t) (platforms : list string)
    (responseTime : Z) :
  outcomes ≡ₚ outcomes' ->
  let r := build_response platforms (collect outcomes) responseTime in
  let r' := build_response platforms (collect outcomes') responseTime in
  list_to_set (pb.SearchResponse.PlatformsSuccess r)
    =@{gset string} list_to_set (pb.SearchResponse.PlatformsSuccess r') /\
  list_to_set (pb.SearchResponse.PlatformsTimeout r)
    =@{gset string} list_to_set (pb.SearchResponse.PlatformsTimeout r') /\
  list_to_set (pb.SearchResponse.PlatformsError r)
    =@{gset string} list_to_set (pb.SearchResponse.PlatformsError r') /\
  pb.SearchResponse.Results r ≡ₚ pb.SearchResponse.Results r' /\
  pb.SearchResponse.TotalCount r = pb.SearchResponse.TotalCount r' /\
  pb.SearchResponse.Metadata r = pb.SearchResponse.Metadata r'.
Proof.
  intros Hperm r r'. subst r r'. simpl.
  destruct (collect_perm _ _ Hperm) as [Hr Hs Ht He].
  repeat split.
  - now apply list_to_set_perm_L.
  - now apply list_to_set_perm_L.
  - now apply list_to_set_perm_L.
  - exact Hr.
  - now rewrite (Permutation_length Hr).
Qed.

Lemma fold_order_insensitive_witness :
  let r := build_response default_platforms
             (collect [examples.ok_github; examples.late_reddit;
                       examples.broken_stackoverflow]) 400 in
  let r' := build_response default_platforms
              (collect [examples.broken_stackoverflow; examples.ok_github;
                        examples.late_reddit]) 400 in
  list_to_set (pb.SearchResponse.PlatformsSuccess r)
    =@{gset string} list_to_set (pb.SearchResponse.PlatformsSuccess r') /\
  list_to_set (pb.SearchResponse.PlatformsTimeout r)
    =@{gset string} list_to_set (pb.SearchResponse.PlatformsTimeout r') /\
  list_to_set (pb.SearchResponse.PlatformsError r)
    =@{gset string} list_to_set (pb.SearchResponse.PlatformsError r') /\
  pb.SearchResponse.Results r ≡ₚ pb.SearchResponse.Results r' /\
  pb.SearchResponse.TotalCount r = pb.SearchResponse.TotalCount r' /\
  pb.SearchResponse.Metadata r = pb.SearchResponse.Metadata r'.
Proof.
  apply (fold_order_insensitive
           [examples.ok_github; examples.late_reddit; examples.broken_stackoverflow]
           [examples.broken_stackoverflow; examples.ok_github; examples.late_reddit]).
  symmetry.
  apply (Permutation_cons_append
           [examples.ok_github; examples.late_reddit] examples.broken_stackoverflow).
Defined.

(** ** One provider task *)

Lemma failure_of_classify result err ctxErr results :
  FetchResult.Error result = None -> FetchResult.TimedOut result = false ->
  failure_of (classify result err ctxErr results) = spec_failure err ctxErr.
Proof.
  intros HE HT. unfold failure_of, classify, spec_failure.
  destruct err as [e|]; simpl.
  - destruct (decide (ctxErr = DeadlineExceeded)); [reflexivity |].
    now rewrite HT.
  - now rewrite HE.
Qed.

Lemma collect_step_files c fr :
  match failure_of fr with
  | failure_none =>
      platformsSuccess (collect_step c fr)
        = platformsSuccess c ++ [FetchResult.Platform fr] /\
      platformsTimeout (collect_step c fr) = platformsTimeout c /\
      platformsError (collect_step c fr) = platformsError c
  | failure_timeout =>
      platformsSuccess (collect_step c fr) = platformsSuccess c /\
      platformsTimeout (collect_step c fr)
        = platformsTimeout c ++ [FetchResult.Platform fr] /\
      platformsError (collect_step c fr) = platformsError c
  | failure_error _ =>
      platformsSuccess (collect_step c fr) = platformsSuccess c /\
      platformsTimeout (collect_step c fr) = platformsTimeout c /\
      platformsError (collect_step c fr)
        = platformsError c ++ [FetchResult.Platform fr]
  end.
Proof.
  unfold failure_of, collect_step.
  destruct (FetchResult.Error fr), (FetchResult.TimedOut fr); simpl; auto.
Qed.

(** C4. The Outcome a provider task produces is classified as the
    specification words it: among failed fetches, timeout exactly when the
    task's own deadline context reports deadline-exceeded at the moment
    [Fetch] returns (whatever the error is) and error(detail) for any other
    failure; none exactly when [Fetch] returns no error.  The fan-in loop
    files the provider under the list of that class. *)
Theorem fetchFromPlatform_classification
    (h : SearchHandler) (k : nat) (parentCtx : Context) (fetcher : Fetcher)
    (query : string) (maxResults startTime : Z) :
  let ctx := WithTimeout parentCtx startTime
               (PerAPITimeout (config.Server (handlers.config h))) in
  let ret := Fetch fetcher k ctx query maxResults in
  let ctxErr := Err ctx (startTime + ret_latency ret) in
  let outcome :=
    g_result (fetchFromPlatform h k parentCtx fetcher query maxResults startTime) in
  failure_of outcome = spec_failure (ret_err ret) ctxErr /\
  (failure_of outcome = failure_timeout
     <-> ret_err ret <> None /\ ctxErr = DeadlineExceeded) /\
  (forall detail,
     failure_of outcome = failure_error detail
     <-> ret_err ret = Some detail /\ ctxErr <> DeadlineExceeded) /\
  (failure_of outcome = failure_none <-> ret_err ret = None) /\
  (forall c,
     match failure_of outcome with
     | failure_none =>
         platformsSuccess (collect_step c outcome)
           = platformsSuccess c ++ [Name fetcher]
     | failure_timeout =>
         platformsTimeout (collect_step c outcome)
           = platformsTimeout c ++ [Name fetcher]
     | failure_error _ =>
         platformsError (collect_step c outcome)
           = platformsError c ++ [Name fetcher]
     end).
Proof.
  intros ctx ret ctxErr outcome.
  assert (Hclass : failure_of outcome = spec_failure (ret_err ret) ctxErr).
  { subst outcome. unfold fetchFromPlatform. cbn [g_result].
    now apply failure_of_classify. }
  assert (Hname : FetchResult.Platform outcome = Name fetcher).
  { subst outcome. unfold fetchFromPlatform, classify. cbn [g_result].
    destruct (ret_err _); reflexivity. }
  split; [exact Hclass |].
  split; [| split; [| split]].
  - rewrite Hclass. unfold spec_failure.
    destruct (ret_err ret), (decide (ctxErr = DeadlineExceeded));
      intuition congruence.
  - intros detail. rewrite Hclass. unfold spec_failure.
    destruct (ret_err ret), (decide (ctxErr = DeadlineExceeded));
      intuition congruence.
  - rewrite Hclass. unfold spec_failure.
    destruct (ret_err ret), (decide (ctxErr = DeadlineExceeded));
      intuition congruence.
  - intros c. rewrite <- Hname.
    pose proof (collect_step_files c outcome) as H.
    destruct (failure_of outcome); tauto.
Qed.

(** The three classes occur; the last task returns a result after its
    deadline and is filed as a success. *)
Example classification_examples :
  let outcomes :=
    map g_result
      (dispatched (NewSearchHandler examples.all_down examples.cfg)
         examples.global_ctx 0 (examples.request "rocq" 0 [])) in
  map failure_of outcomes
    = [failure_error "API error: status=403"; failure_timeout;
       failure_error "API error: status=403"] /\
  let late :=
    fetchFromPlatform examples.slow_handler 0 examples.global_ctx
      examples.slow_fetcher "rocq" 20 0 in
  Err (call_ctx (g_call late)) (g_sends_at late) = DeadlineExceeded /\
  failure_of (g_result late) = failure_none.
Proof. vm_compute. repeat split. Qed.

(** ** Fan-out *)

Lemma NewSearchHandler_lookup w cfg platform :
  handlers.fetchers (NewSearchHandler w cfg) !! platform =
    if decide (platform = "reddit") then
      Some (NewRedditFetcher (reddit_api w)
              (ClientID (Reddit cfg)) (ClientSecret (Reddit cfg))
              (UserAgent (Reddit cfg)) (Reddit_BaseURL (Reddit cfg)))
    else if decide (platform = "stackoverflow") then
      Some (NewStackOverflowFetcher (stackoverflow_api w)
              (APIKey (StackOverflow cfg)) (StackOverflow_BaseURL (StackOverflow cfg)))
    else if decide (platform = "github") then
      Some (NewGitHubFetcher (github_api w)
              (APIToken (GitHub cfg)) (GitHub_BaseURL (GitHub cfg)))
    else None.
Proof.
  unfold NewSearchHandler. cbn [handlers.fetchers].
  repeat (rewrite lookup_insert; case_decide; subst; try congruence;
          case_decide; try congruence).
  apply lookup_empty.
Qed.

Lemma NewSearchHandler_well_named w cfg : well_named (NewSearchHandler w cfg).
Proof.
  intros platform fetcher. rewrite NewSearchHandler_lookup.
  repeat case_decide; intros [= <-]; subst; reflexivity.
Qed.

Lemma NewSearchHandler_dom w cfg :
  dom (handlers.fetchers (NewSearchHandler w cfg))
    =@{gset string} list_to_set default_platforms.
Proof.
  unfold NewSearchHandler. cbn [handlers.fetchers].
  rewrite !dom_insert_L, dom_empty_L. unfold default_platforms. simpl.
  set_solver.
Qed.

Lemma NewSearchHandler_registered w cfg platform :
  registered (NewSearchHandler w cfg) platform <-> platform ∈ default_platforms.
Proof.
  unfold registered. rewrite <- elem_of_dom, NewSearchHandler_dom.
  apply elem_of_list_to_set.
Qed.

Section FanOut.

Variables (h : SearchHandler) (ctx : Context) (query : string)
          (maxResults startTime : Z).

Lemma fan_out_length_le platforms k :
  (length (fan_out h ctx query maxResults startTime platforms k)
     <= length platforms)%nat.
Proof.
  revert k. induction platforms as [|p ps IH]; intros k; simpl; [lia |].
  destruct (handlers.fetchers h !! p); simpl.
  - specialize (IH (S k)). lia.
  - specialize (IH k). lia.
Qed.

Lemma fan_out_length platforms k :
  length (fan_out h ctx query maxResults startTime platforms k)
  = length (filter (registered h) platforms).
Proof.
  revert k. induction platforms as [|p ps IH]; intros k; simpl; [reflexivity |].
  destruct (handlers.fetchers h !! p) as [f|] eqn:E.
  - rewrite filter_cons_True by (unfold registered; rewrite E; eauto).
    simpl. f_equal. apply IH.
  - rewrite filter_cons_False by (unfold registered; rewrite E; intros [? ?]; congruence).
    apply IH.
Qed.

Lemma fan_out_names platforms k :
  well_named h ->
  map task_name (fan_out h ctx query maxResults startTime platforms k)
  = filter (registered h) platforms.
Proof.
  intros Hwn. revert k.
  induction platforms as [|p ps IH]; intros k; simpl; [reflexivity |].
  destruct (handlers.fetchers h !! p) as [f|] eqn:E.
  - rewrite filter_cons_True by (unfold registered; rewrite E; eauto).
    simpl. f_equal; [| apply IH].
    unfold task_name, fetchFromPlatform. simpl. now apply Hwn.
  - rewrite filter_cons_False by (unfold registered; rewrite E; intros [? ?]; congruence).
    apply IH.
Qed.

Lemma fan_out_arguments platforms k :
  Forall (fun g => call_query (g_call g) = query /\
                   call_maxResults (g_call g) = maxResults /\
                   FetchResult.Platform (g_result g) = task_name g)
         (fan_out h ctx query maxResults startTime platforms k).
Proof.
  revert k. induction platforms as [|p ps IH]; intros k; simpl; [constructor |].
  destruct (handlers.fetchers h !! p) as [f|]; [| apply IH].
  constructor; [| apply IH].
  unfold fetchFromPlatform, task_name, classify. simpl.
  destruct (ret_err _); auto.
Qed.

End FanOut.

Lemma filter_all {A} (P : A -> Prop) `{forall x, Decision (P x)} (l : list A) :
  Forall P l -> filter P l = l.
Proof.
  induction 1 as [|x l Hx _ IH]; [reflexivity |].
  rewrite filter_cons_True by assumption. f_equal. exact IH.
Qed.

Lemma effective_platforms_empty req :
  pb.SearchRequest.Platforms req = [] -> effective_platforms req = default_platforms.
Proof. intros E. unfold effective_platforms. now rewrite E. Qed.

Lemma Search_calls h schedule ctx startTime req r :
  Search h schedule ctx startTime req = Some r ->
  run_calls r = map g_call (dispatched h ctx startTime req).
Proof.
  unfold Search, dispatched. intros H.
  destruct (run _ _ _) as [s|]; [| discriminate].
  destruct (returned s); [| discriminate].
  injection H as <-. reflexivity.
Qed.

Lemma fetchFromPlatform_applies_Fetch h k parentCtx fetcher query maxResults startTime :
  let g := fetchFromPlatform h k parentCtx fetcher query maxResults startTime in
  let ret := Fetch fetcher k (call_ctx (g_call g)) query maxResults in
  FetchResult.Platform (g_result g) = Name fetcher /\
  FetchResult.Error (g_result g) = ret_err ret /\
  FetchResult.Duration (g_result g) = ret_latency ret /\
  (ret_err ret = None -> FetchResult.Results (g_result g) = ret_results ret).
Proof.
  unfold fetchFromPlatform, classify. cbn [g_call g_result call_ctx].
  destruct (ret_err _) as [e|]; cbn; repeat split; try congruence; lia.
Qed.

Lemma fan_out_applies_Fetch h ctx query maxResults startTime platforms k :
  Forall (fun g =>
            exists platform fetcher j,
              platform ∈ platforms /\
              handlers.fetchers h !! platform = Some fetcher /\
              g = fetchFromPlatform h j ctx fetcher query maxResults startTime)
         (fan_out h ctx query maxResults startTime platforms k).
Proof.
  revert k. induction platforms as [|p ps IH]; intros k; simpl; [constructor |].
  destruct (handlers.fetchers h !! p) as [f|] eqn:E.
  - constructor.
    + exists p, f, k. split; [left | auto].
    + eapply Forall_impl; [apply IH |]. cbn beta.
      intros g (q & f' & j & Hq & Hf & Hg). exists q, f', j.
      split; [now right | auto].
  - eapply Forall_impl; [apply IH |]. cbn beta.
    intros g (q & f' & j & Hq & Hf & Hg). exists q, f', j.
    split; [now right | auto].
Qed.

(** Every task [Search] spawns is one application of [Fetch], of a fetcher of
    the registry, to the context of the task, the query of the request and
    the effective cap; the Outcome of the task is what that application
    returned. *)
Lemma dispatched_applies_Fetch h ctx startTime req :
  Forall (fun g =>
            exists platform fetcher k,
              platform ∈ effective_platforms req /\
              handlers.fetchers h !! platform = Some fetcher /\
              let ret := Fetch fetcher k (call_ctx (g_call g))
                           (pb.SearchRequest.Query req)
                           (effective_maxResults h req) in
              FetchResult.Platform (g_result g) = Name fetcher /\
              FetchResult.Error (g_result g) = ret_err ret /\
              FetchResult.Duration (g_result g) = ret_latency ret /\
              (ret_err ret = None ->
               FetchResult.Results (g_result g) = ret_results ret))
         (dispatched h ctx startTime req).
Proof.
  unfold dispatched.
  eapply Forall_impl; [apply fan_out_applies_Fetch |]. cbn beta.
  intros g (p & f & j & Hp & Hf & ->). exists p, f, j.
  split; [exact Hp |]. split; [exact Hf |].
  apply fetchFromPlatform_applies_Fetch.
Qed.

(** C8. For a request whose platform list is empty the orchestrator
    dispatches exactly one task to every provider of the registry and to no
    other: the default list [github, stackoverflow, reddit] has no repeated
    name, is the key set of the registry [NewSearchHandler] builds, and is
    the list of providers called. *)
Theorem empty_platform_list_default
    (w : World) (cfg : Config) (ctx : Context) (startTime : Z)
    (req : pb.SearchRequest.t) :
  pb.SearchRequest.Platforms req = [] ->
  let h := NewSearchHandler w cfg in
  dom (handlers.fetchers h) =@{gset string} list_to_set default_platforms /\
  NoDup default_platforms /\
  map task_name (dispatched h ctx startTime req) = default_platforms /\
  (forall schedule r,
     Search h schedule ctx startTime req = Some r ->
     map call_fetcher (run_calls r) = default_platforms).
Proof.
  intros Hempty h.
  assert (Hnames : map task_name (dispatched h ctx startTime req) = default_platforms).
  { unfold dispatched. rewrite fan_out_names by apply NewSearchHandler_well_named.
    rewrite (effective_platforms_empty _ Hempty).
    apply filter_all, Forall_forall. intros p Hp.
    now apply NewSearchHandler_registered. }
  split; [apply NewSearchHandler_dom |].
  split.
  { unfold default_platforms.
    repeat (apply NoDup_cons; split;
            [rewrite ?elem_of_cons, elem_of_nil; intuition discriminate |]).
    apply NoDup_nil_2. }
  split; [exact Hnames |].
  intros schedule r Hr. rewrite (Search_calls _ _ _ _ _ _ Hr).
  rewrite <- Hnames, map_map. reflexivity.
Qed.

Lemma empty_platform_list_default_witness :
  map task_name
    (dispatched (NewSearchHandler examples.healthy examples.cfg)
       examples.global_ctx 0 (examples.request "rocq" 0 []))
  = ["github"; "stackoverflow"; "reddit"].
Proof.
  apply (empty_platform_list_default examples.healthy examples.cfg
           examples.global_ctx 0 (examples.request "rocq" 0 [])).
  reflexivity.
Defined.

(** ** The machine: what every schedule preserves *)

Lemma Inv_initial startTime tasks :
  Inv startTime tasks [] [] (initial startTime tasks).
Proof.
  split; simpl; try reflexivity; try constructor; discriminate.
Qed.

Lemma step_Inv startTime tasks cap e s s' sent received :
  Inv startTime tasks sent received s ->
  step cap e s = Some s' ->
  exists sent' received', Inv startTime tasks sent' received' s'.
Proof.
  intros [Htasks Hout Hcol Hready Hclock Hclosed Hret] Hstep.
  destruct e; simpl in Hstep.
  - (* Tick *)
    injection Hstep as <-. exists sent, received.
    split; simpl; auto; try lia.
    + eapply Forall_impl; [exact Hready |]. simpl. intros; lia.
    + intros t Ht. destruct (Hret t Ht) as (? & ? & ? & ?).
      repeat split; auto; lia.
  - (* Send *)
    destruct (running s !! i) as [g|] eqn:Eg; [| discriminate].
    destruct (_ && _) eqn:Eguard; [| discriminate].
    injection Hstep as <-.
    apply andb_true_iff in Eguard as [Eguard Hopen].
    apply andb_true_iff in Eguard as [Hdue _].
    apply negb_true_iff in Hopen. apply Z.leb_le in Hdue.
    exists (sent ++ [g]), received.
    split; simpl.
    + rewrite <- app_assoc. simpl.
      rewrite <- (delete_Permutation _ _ _ Eg). exact Htasks.
    + rewrite map_app. simpl. rewrite Hout, app_assoc. reflexivity.
    + exact Hcol.
    + apply Forall_app. split; [exact Hready |]. repeat constructor. exact Hdue.
    + exact Hclock.
    + congruence.
    + intros t Ht. destruct (Hret t Ht) as (Hc & _). congruence.
  - (* Close *)
    destruct (running s) eqn:Erun; [| discriminate].
    destruct (closed s) eqn:Ecl; [discriminate |].
    injection Hstep as <-. exists sent, received.
    split; simpl; rewrite ?Erun; auto.
    intros t Ht. destruct (Hret t Ht) as (Hc & _). congruence.
  - (* Recv *)
    destruct (returned s) eqn:Er; [discriminate |].
    destruct (chan s) as [|fr rest] eqn:Ech; [discriminate |].
    injection Hstep as <-. exists sent, (received ++ [fr]).
    split; simpl; auto.
    + rewrite Hout, <- app_assoc. reflexivity.
    + rewrite collect_snoc, Hcol. reflexivity.
    + intros t Ht. congruence.
  - (* LoopExit *)
    destruct (returned s) eqn:Er; [discriminate |].
    destruct (chan s) eqn:Ech; [| discriminate].
    destruct (closed s) eqn:Ecl; [| discriminate].
    injection Hstep as <-. exists sent, received.
    split; simpl; rewrite ?Ech; auto.
    intros t [= <-]. repeat split; auto; try lia.
    specialize (Hclosed eq_refl). rewrite Hclosed, app_nil_r in Htasks.
    rewrite <- Htasks. exact Hready.
Qed.

Lemma run_Inv startTime tasks cap schedule s s' sent received :
  Inv startTime tasks sent received s ->
  run cap schedule s = Some s' ->
  exists sent' received', Inv startTime tasks sent' received' s'.
Proof.
  revert s sent received.
  induction schedule as [|e schedule IH]; intros s sent received HI Hrun; simpl in Hrun.
  - injection Hrun as <-. eauto.
  - destruct (step cap e s) as [s1|] eqn:E; [| discriminate].
    destruct (step_Inv _ _ _ _ _ _ _ _ HI E) as (sent1 & received1 & HI1).
    eapply IH; eassumption.
Qed.

(** When the range loop is left, every task has sent and every Outcome has
    been read. *)
Lemma run_returned startTime tasks cap schedule s t :
  run cap schedule (initial startTime tasks) = Some s ->
  returned s = Some t ->
  exists received,
    received ≡ₚ map g_result tasks /\
    collected s = collect received /\
    (startTime <= t)%Z /\
    Forall (fun g => (g_sends_at g <= t)%Z) tasks.
Proof.
  intros Hrun Ht.
  destruct (run_Inv _ _ _ _ _ _ _ _ (Inv_initial startTime tasks) Hrun)
    as (sent & received & [Htasks Hout Hcol _ _ Hclosed Hret]).
  destruct (Hret t Ht) as (Hc & Hch & Hclock & Hall).
  exists received. repeat split; auto; try lia.
  rewrite (Hclosed Hc), app_nil_r in Htasks.
  rewrite Hch, app_nil_r in Hout.
  rewrite <- Hout, Htasks. reflexivity.
Qed.

(** The channel is as large as the platform list, so a task that is ready
    to send never finds it full. *)
Lemma send_never_blocks startTime tasks cap schedule s i g :
  (length tasks <= cap)%nat ->
  run cap schedule (initial startTime tasks) = Some s ->
  running s !! i = Some g ->
  (length (chan s) < cap)%nat.
Proof.
  intros Hcap Hrun Hg.
  destruct (run_Inv _ _ _ _ _ _ _ _ (Inv_initial startTime tasks) Hrun)
    as (sent & received & [Htasks Hout _ _ _ _ _]).
  apply Permutation_length in Htasks, Hout.
  rewrite length_app in Htasks. rewrite length_map, length_app in Hout.
  apply lookup_lt_Some in Hg. lia.
Qed.

Lemma Search_inv h schedule ctx startTime req r :
  Search h schedule ctx startTime req = Some r ->
  exists received,
    received ≡ₚ map g_result (dispatched h ctx startTime req) /\
    run_response r =
      build_response (effective_platforms req) (collect received)
        (run_returned_at r - startTime) /\
    run_err r = None /\
    (startTime <= run_returned_at r)%Z /\
    Forall (fun g => (g_sends_at g <= run_returned_at r)%Z)
           (dispatched h ctx startTime req).
Proof.
  unfold Search, dispatched. intros H.
  destruct (run _ _ _) as [s|] eqn:Hrun; [| discriminate].
  destruct (returned s) as [t|] eqn:Ht; [| discriminate].
  injection H as <-. simpl.
  destruct (run_returned _ _ _ _ _ _ Hrun Ht) as (received & Hperm & Hcol & Hclock & Hall).
  exists received. rewrite Hcol. auto.
Qed.

(** ** The machine: a prompt scheduler always gets through *)

Lemma run_app cap schedule1 schedule2 s :
  run cap (schedule1 ++ schedule2) s
  = match run cap schedule1 s with
    | Some s' => run cap schedule2 s'
    | None => None
    end.
Proof.
  revert s. induction schedule1 as [|e schedule1 IH]; intros s; simpl; [reflexivity |].
  destruct (step cap e s); [apply IH | reflexivity].
Qed.

Lemma run_ticks cap n s :
  run cap (replicate n Tick) s =
    Some {| now := (now s + Z.of_nat n)%Z; running := running s; chan := chan s;
            closed := closed s; collected := collected s;
            returned := returned s |}.
Proof.
  revert s. induction n as [|n IH]; intros s.
  - simpl. destruct s; simpl. do 2 f_equal. lia.
  - cbn [replicate run step]. rewrite IH. simpl. do 2 f_equal. lia.
Qed.

Lemma run_sends cap t tasks ch col :
  Forall (fun g => (g_sends_at g <= t)%Z) tasks ->
  (length ch + length tasks <= cap)%nat ->
  run cap (replicate (length tasks) (Send 0))
    {| now := t; running := tasks; chan := ch; closed := false;
       collected := col; returned := None |}
  = Some {| now := t; running := []; chan := ch ++ map g_result tasks;
            closed := false; collected := col; returned := None |}.
Proof.
  intros Hready. revert ch.
  induction Hready as [|g tasks Hg _ IH]; intros ch Hcap; simpl.
  - now rewrite app_nil_r.
  - simpl in Hcap.
    destruct (Z.leb_spec (g_sends_at g) t); [| lia].
    destruct (Nat.ltb_spec (length ch) cap); [| lia].
    simpl. rewrite IH by (rewrite length_app; simpl; lia).
    rewrite <- app_assoc. reflexivity.
Qed.

Lemma run_recvs cap t ch cl col :
  run cap (replicate (length ch) Recv)
    {| now := t; running := []; chan := ch; closed := cl;
       collected := col; returned := None |}
  = Some {| now := t; running := []; chan := []; closed := cl;
            collected := fold_left collect_step ch col; returned := None |}.
Proof.
  revert col. induction ch as [|fr ch IH]; intros col; simpl; [reflexivity |].
  apply IH.
Qed.

Lemma last_send_bounds startTime tasks :
  (startTime <= last_send startTime tasks)%Z /\
  Forall (fun g => (g_sends_at g <= last_send startTime tasks)%Z) tasks.
Proof.
  induction tasks as [|g tasks [IH1 IH2]]; simpl.
  - split; [lia | constructor].
  - split; [lia |]. constructor; [lia |].
    eapply Forall_impl; [exact IH2 |]. simpl. intros; lia.
Qed.

Lemma last_send_least startTime tasks t :
  (startTime <= t)%Z -> Forall (fun g => (g_sends_at g <= t)%Z) tasks ->
  (last_send startTime tasks <= t)%Z.
Proof.
  intros Ht. induction 1 as [|g tasks Hg _ IH]; simpl; lia.
Qed.

Lemma prompt_schedule_runs cap startTime tasks :
  (length tasks <= cap)%nat ->
  run cap (prompt_schedule startTime tasks) (initial startTime tasks)
  = Some {| now := last_send startTime tasks; running := []; chan := [];
            closed := true; collected := collect (map g_result tasks);
            returned := Some (last_send startTime tasks) |}.
Proof.
  intros Hcap. unfold prompt_schedule, initial.
  destruct (last_send_bounds startTime tasks) as [Hle Hready].
  rewrite run_app, run_ticks. cbn [now running chan closed collected returned].
  replace (startTime + Z.of_nat (Z.to_nat (last_send startTime tasks - startTime)))%Z
    with (last_send startTime tasks) by lia.
  rewrite run_app, run_sends by (simpl; auto).
  rewrite run_app. cbn [run step running closed app].
  rewrite run_app.
  rewrite <- (length_map g_result tasks), run_recvs.
  reflexivity.
Qed.

Lemma Search_prompt h ctx startTime req :
  exists r,
    Search h (prompt_schedule startTime (dispatched h ctx startTime req))
      ctx startTime req = Some r /\
    run_returned_at r = last_send startTime (dispatched h ctx startTime req).
Proof.
  unfold Search, dispatched.
  rewrite prompt_schedule_runs by apply fan_out_length_le.
  cbn [returned]. eexists; split; reflexivity.
Qed.

(** C9. Every dispatched provider task calls [Fetch] with the effective
    result cap: the request's maxResults when it lies in [1,100], and the
    configured [MaxResultsPerPlatform] otherwise, in particular when
    maxResults is 0, negative or above 100.  The query is passed on as it
    came.  The call is the application of [Fetch] itself: the Outcome of
    every task is what a fetcher of the registry returned when applied to
    the query and that cap, and the response is folded from these
    Outcomes. *)
Theorem dispatched_result_cap
    (h : SearchHandler) (schedule : list Event) (ctx : Context)
    (startTime : Z) (req : pb.SearchRequest.t) (r : SearchRun) :
  Search h schedule ctx startTime req = Some r ->
  let cap :=
    spec_resultCap (MaxResultsPerPlatform (Performance (handlers.config h)))
      (pb.SearchRequest.MaxResults req) in
  let tasks := dispatched h ctx startTime req in
  Forall (fun call => call_maxResults call = cap /\
                      call_query call = pb.SearchRequest.Query req)
         (run_calls r) /\
  run_calls r = map g_call tasks /\
  Forall (fun g =>
            exists platform fetcher k,
              platform ∈ effective_platforms req /\
              handlers.fetchers h !! platform = Some fetcher /\
              let ret := Fetch fetcher k (call_ctx (g_call g))
                           (pb.SearchRequest.Query req) cap in
              FetchResult.Platform (g_result g) = Name fetcher /\
              FetchResult.Error (g_result g) = ret_err ret /\
              FetchResult.Duration (g_result g) = ret_latency ret /\
              (ret_err ret = None ->
               FetchResult.Results (g_result g) = ret_results ret))
         tasks /\
  (exists received,
     received ≡ₚ map g_result tasks /\
     run_response r =
       build_response (effective_platforms req) (collect received)
         (run_returned_at r - startTime)) /\
  ((1 <= pb.SearchRequest.MaxResults req <= 100)%Z ->
     cap = pb.SearchRequest.MaxResults req) /\
  ((pb.SearchRequest.MaxResults req <= 0)%Z \/
   (100 < pb.SearchRequest.MaxResults req)%Z ->
     cap = MaxResultsPerPlatform (Performance (handlers.config h))).
Proof.
  intros Hr cap tasks.
  assert (Hcap : effective_maxResults h req = cap).
  { subst cap. unfold effective_maxResults, spec_resultCap.
    destruct (Z.leb_spec (pb.SearchRequest.MaxResults req) 0),
      (Z.ltb_spec 100 (pb.SearchRequest.MaxResults req)),
      (Z.leb_spec 1 (pb.SearchRequest.MaxResults req)),
      (Z.leb_spec (pb.SearchRequest.MaxResults req) 100); simpl; lia || reflexivity. }
  split; [| split; [| split; [| split; [| split]]]].
  - rewrite (Search_calls _ _ _ _ _ _ Hr). unfold dispatched. rewrite Hcap.
    apply Forall_map.
    eapply Forall_impl; [apply fan_out_arguments |].
    simpl. intros g (Hq & Hm & _). auto.
  - exact (Search_calls _ _ _ _ _ _ Hr).
  - subst tasks. rewrite <- Hcap. apply dispatched_applies_Fetch.
  - destruct (Search_inv _ _ _ _ _ _ Hr) as (received & Hperm & Hbuild & _).
    exists received. auto.
  - intros Hin. subst cap. unfold spec_resultCap.
    destruct (Z.leb_spec 1 (pb.SearchRequest.MaxResults req)),
      (Z.leb_spec (pb.SearchRequest.MaxResults req) 100); simpl; lia || reflexivity.
  - intros Hout. subst cap. unfold spec_resultCap.
    destruct (Z.leb_spec 1 (pb.SearchRequest.MaxResults req)),
      (Z.leb_spec (pb.SearchRequest.MaxResults req) 100); simpl; lia || reflexivity.
Qed.

Lemma dispatched_result_cap_witness :
  exists r,
    Search (NewSearchHandler examples.metered_world examples.cfg)
      (examples.prompt (NewSearchHandler examples.metered_world examples.cfg)
         examples.global_ctx examples.rocq_everywhere)
      examples.global_ctx 0 examples.rocq_everywhere = Some r /\
    Forall (fun call => call_maxResults call = 20%Z /\ call_query call = "rocq")
           (run_calls r) /\
    Forall (fun g => FetchResult.Duration (g_result g) = 20%Z)
           (dispatched (NewSearchHandler examples.metered_world examples.cfg)
              examples.global_ctx 0 examples.rocq_everywhere).
Proof.
  destruct (Search (NewSearchHandler examples.metered_world examples.cfg)
              (examples.prompt
                 (NewSearchHandler examples.metered_world examples.cfg)
                 examples.global_ctx examples.rocq_everywhere)
              examples.global_ctx 0 examples.rocq_everywhere) as [r|] eqn:E;
    [| vm_compute in E; discriminate].
  exists r. split; [reflexivity |].
  destruct (dispatched_result_cap _ _ _ _ _ _ E) as (Hcalls & _ & Htasks & _).
  split; [exact Hcalls |].
  eapply Forall_impl; [exact Htasks |]. cbv zeta.
  intros g (p & f & k & _ & Hf & _ & _ & Hd & _). rewrite Hd.
  rewrite NewSearchHandler_lookup in Hf.
  repeat case_decide; try discriminate Hf; injection Hf as <-; reflexivity.
Defined.

Lemma fetchFromPlatform_classification_witness :
  failure_of
    (g_result (fetchFromPlatform
                 (NewSearchHandler examples.all_down examples.cfg) 1
                 examples.global_ctx
                 (NewStackOverflowFetcher examples.hangs "" "") "rocq" 20 0))
  = failure_timeout.
Proof.
  apply (fetchFromPlatform_classification
           (NewSearchHandler examples.all_down examples.cfg) 1
           examples.global_ctx
           (NewStackOverflowFetcher examples.hangs "" "") "rocq" 20 0).
  split; [discriminate | reflexivity].
Defined.

(** ** Boundary validation *)

Lemma valid_platform platform :
  default false (validPlatforms !! platform) = true <-> platform ∈ default_platforms.
Proof.
  unfold validPlatforms, default_platforms.
  rewrite !lookup_insert, lookup_empty, !elem_of_cons, elem_of_nil.
  repeat case_decide; subst; simpl; intuition congruence.
Qed.

Lemma check_platforms_None platforms :
  check_platforms platforms = None
  <-> Forall (fun p => p ∈ default_platforms) platforms.
Proof.
  induction platforms as [|p ps IH]; simpl.
  - split; [constructor | reflexivity].
  - destruct (default false (validPlatforms !! p)) eqn:E; simpl.
    + rewrite IH. apply valid_platform in E.
      split; [now constructor | now inversion 1].
    + split; [discriminate |]. inversion 1 as [|? ? Hp _]; subst.
      apply valid_platform in Hp. congruence.
Qed.

(** The requests the boundary lets through, as the code decides it: the
    length of the query is its number of bytes. *)
Lemma validateSearchRequest_None s req :
  validateSearchRequest s req = None <->
  pb.SearchRequest.Query req <> "" /\
  (len (pb.SearchRequest.Query req) <= 500)%Z /\
  (0 <= pb.SearchRequest.MaxResults req <= 100)%Z /\
  Forall (fun p => p ∈ default_platforms) (pb.SearchRequest.Platforms req).
Proof.
  unfold validateSearchRequest.
  destruct (decide (pb.SearchRequest.Query req = "")) as [Hq|Hq];
    [split; [discriminate | tauto] |].
  destruct (Z.ltb_spec 500 (len (pb.SearchRequest.Query req)));
    [split; [discriminate | lia] |].
  destruct (Z.ltb_spec (pb.SearchRequest.MaxResults req) 0);
    [split; [discriminate | lia] |].
  destruct (Z.ltb_spec 100 (pb.SearchRequest.MaxResults req));
    [split; [discriminate | lia] |].
  rewrite check_platforms_None. intuition lia.
Qed.

Lemma rejected_before_any_call s schedule ctx startTime req err :
  validateSearchRequest s req = Some err ->
  FederatedSearch s schedule ctx startTime req =
    Some {| fed_response := None; fed_status := Some err;
            fed_calls := []; fed_returned_at := startTime |}.
Proof. intros H. unfold FederatedSearch. now rewrite H. Qed.

Lemma validated_platforms_registered s w cfg req :
  validateSearchRequest s req = None ->
  Forall (registered (NewSearchHandler w cfg)) (effective_platforms req).
Proof.
  intros H. apply validateSearchRequest_None in H as (_ & _ & _ & H).
  unfold effective_platforms.
  destruct (pb.SearchRequest.Platforms req) as [|p ps]; simpl.
  - apply Forall_forall. intros p Hp. now apply NewSearchHandler_registered.
  - eapply Forall_impl; [exact H |]. intros q Hq.
    now apply NewSearchHandler_registered.
Qed.

(** ** The orchestrator *)

Lemma map_ext_Forall {A B} (f g : A -> B) (l : list A) :
  Forall (fun x => f x = g x) l -> map f l = map g l.
Proof. induction 1 as [|x l Hx _ IH]; simpl; congruence. Qed.

Lemma dispatched_outcome_names h ctx startTime req :
  map FetchResult.Platform (map g_result (dispatched h ctx startTime req))
  = map task_name (dispatched h ctx startTime req).
Proof.
  rewrite map_map. apply map_ext_Forall. unfold dispatched.
  eapply Forall_impl; [apply fan_out_arguments |].
  simpl. intros g (_ & _ & H). exact H.
Qed.

(** The names in the three lists of a response are, with multiplicity, the
    names of the dispatched tasks. *)
Lemma Search_names h schedule ctx startTime req r :
  Search h schedule ctx startTime req = Some r ->
  response_names (run_response r)
    ≡ₚ map task_name (dispatched h ctx startTime req).
Proof.
  intros Hr.
  destruct (Search_inv _ _ _ _ _ _ Hr) as (received & Hperm & -> & _).
  change (response_names (build_response _ (collect received) _))
    with (partition_names (collect received)).
  rewrite collect_names, Hperm. now rewrite dispatched_outcome_names.
Qed.

Lemma NoDup_exactly_one (p : string) (r : pb.SearchResponse.t) :
  NoDup (response_names r) -> p ∈ response_names r -> in_exactly_one p r.
Proof.
  unfold response_names, in_exactly_one. cbv zeta.
  intros Hnd Hin.
  apply NoDup_app in Hnd as (_ & Hst & Hnd).
  apply NoDup_app in Hnd as (_ & Hte & _).
  apply elem_of_app in Hin as [Hs | Hin].
  - left. specialize (Hst p Hs). rewrite elem_of_app in Hst. tauto.
  - apply elem_of_app in Hin as [Ht | He].
    + right; left. split; [| split; [assumption | now apply Hte]].
      intros Hs. apply (Hst p Hs). apply elem_of_app. now left.
    + right; right. split; [| split; [| assumption]].
      * intros Hs. apply (Hst p Hs). apply elem_of_app. now right.
      * intros Ht. now apply (Hte p Ht).
Qed.

(** C1, as the code has it.  The fan-in loop is left when, and only when,
    every dispatched task has sent its Outcome and the loop has read it: the
    count of Outcomes read then equals the count of dispatched tasks.  The
    loop has no exit on the global deadline, so [Search] never returns before
    its slowest task is ready to send; under a prompt scheduler it returns at
    that very moment, and therefore by any time [D] (such as the global
    deadline) by which every task's [Fetch] has returned. *)
Theorem collection_ends_with_last_task
    (h : SearchHandler) (ctx : Context) (startTime : Z)
    (req : pb.SearchRequest.t) :
  let tasks := dispatched h ctx startTime req in
  (forall schedule r,
     Search h schedule ctx startTime req = Some r ->
     length (response_names (run_response r)) = length tasks /\
     Forall (fun g => (g_sends_at g <= run_returned_at r)%Z) tasks /\
     (last_send startTime tasks <= run_returned_at r)%Z) /\
  (exists r,
     Search h (prompt_schedule startTime tasks) ctx startTime req = Some r /\
     run_returned_at r = last_send startTime tasks) /\
  (forall D,
     (startTime <= D)%Z ->
     Forall (fun g => (g_sends_at g <= D)%Z) tasks ->
     exists r,
       Search h (prompt_schedule startTime tasks) ctx startTime req = Some r /\
       (run_returned_at r <= D)%Z).
Proof.
  intros tasks. split; [| split].
  - intros schedule r Hr.
    pose proof (Search_names _ _ _ _ _ _ Hr) as Hnames.
    destruct (Search_inv _ _ _ _ _ _ Hr) as (_ & _ & _ & _ & Hclock & Hall).
    split; [| split].
    + rewrite (Permutation_length Hnames). apply length_map.
    + exact Hall.
    + now apply last_send_least.
  - apply Search_prompt.
  - intros D HD Hall.
    destruct (Search_prompt h ctx startTime req) as (r & Hr & Ht).
    exists r. split; [exact Hr |]. rewrite Ht. now apply last_send_least.
Qed.

Lemma collection_ends_with_last_task_witness :
  exists r,
    Search (NewSearchHandler examples.all_down examples.cfg)
      (examples.prompt (NewSearchHandler examples.all_down examples.cfg)
         examples.global_ctx examples.rocq_everywhere)
      examples.global_ctx 0 examples.rocq_everywhere = Some r /\
    (run_returned_at r <= 500)%Z.
Proof.
  destruct (collection_ends_with_last_task
              (NewSearchHandler examples.all_down examples.cfg)
              examples.global_ctx 0 examples.rocq_everywhere) as (_ & _ & H).
  apply (H 500%Z).
  - lia.
  - vm_compute. repeat constructor; discriminate.
Defined.

(** C1 fails as stated: with a global deadline at 500 ms and one provider
    that answers after 5000 ms, [Search] returns at 5000 ms under the prompt
    schedule and no earlier under any schedule. *)
Lemma deadline_does_not_end_collection :
  deadline examples.global_ctx = Some 500%Z /\
  (exists r,
     Search examples.slow_handler
       (examples.prompt examples.slow_handler examples.global_ctx examples.rocq_slow)
       examples.global_ctx 0 examples.rocq_slow = Some r /\
     run_returned_at r = 5000%Z) /\
  (forall schedule r,
     Search examples.slow_handler schedule examples.global_ctx 0
       examples.rocq_slow = Some r ->
     (5000 <= run_returned_at r)%Z) /\
  ~ spec_deadline_bound 1000.
Proof.
  assert (Hall : forall schedule r,
             Search examples.slow_handler schedule examples.global_ctx 0
               examples.rocq_slow = Some r ->
             (5000 <= run_returned_at r)%Z).
  { intros schedule r Hr.
    destruct (Search_inv _ _ _ _ _ _ Hr) as (_ & _ & _ & _ & _ & Hsent).
    assert (Hd : map g_sends_at
                   (dispatched examples.slow_handler examples.global_ctx 0
                      examples.rocq_slow) = [5000%Z])
      by (vm_compute; reflexivity).
    apply (Forall_map g_sends_at (fun z => (z <= run_returned_at r)%Z)) in Hsent.
    rewrite Hd in Hsent. now inversion Hsent. }
  split; [reflexivity |].
  split; [eexists; split; vm_compute; reflexivity |].
  split; [exact Hall |].
  intros Hbound.
  destruct (Search examples.slow_handler
              (examples.prompt examples.slow_handler examples.global_ctx
                 examples.rocq_slow)
              examples.global_ctx 0 examples.rocq_slow) as [r|] eqn:E;
    [| vm_compute in E; discriminate].
  pose proof (Hall _ _ E) as Hge.
  pose proof (Hbound examples.slow_handler _ examples.global_ctx 0%Z 500%Z
                examples.rocq_slow r eq_refl E) as Hle.
  lia.
Qed.

Lemma Search_queried h schedule ctx startTime req r :
  Search h schedule ctx startTime req = Some r ->
  pb.ResponseMetadata.PlatformsQueried (pb.SearchResponse.Metadata (run_response r))
  = int32 (Z.of_nat (length (effective_platforms req))).
Proof.
  unfold Search. intros H.
  destruct (run _ _ _) as [s|]; [| discriminate].
  destruct (returned s); [| discriminate].
  injection H as <-. reflexivity.
Qed.

Lemma Search_calls_length h schedule ctx startTime req r :
  Search h schedule ctx startTime req = Some r ->
  length (run_calls r) = length (filter (registered h) (effective_platforms req)).
Proof.
  intros Hr. rewrite (Search_calls _ _ _ _ _ _ Hr), length_map.
  unfold dispatched. apply fan_out_length.
Qed.

(** C2, as the code has it.  [PlatformsQueried] is the length of the effective
    platform list (the requested list, or the three defaults when it is
    empty), while the number of tasks dispatched is the number of listed
    names found in the registry.  The two agree whenever every listed name is
    registered, and so for every request that boundary validation lets
    through to a handler built by [NewSearchHandler]. *)
Theorem platforms_queried_counts_listed
    (h : SearchHandler) (schedule : list Event) (ctx : Context)
    (startTime : Z) (req : pb.SearchRequest.t) (r : SearchRun) :
  Search h schedule ctx startTime req = Some r ->
  let queried :=
    pb.ResponseMetadata.PlatformsQueried
      (pb.SearchResponse.Metadata (run_response r)) in
  queried = int32 (Z.of_nat (length (effective_platforms req))) /\
  length (run_calls r)
    = length (filter (registered h) (effective_platforms req)) /\
  (Forall (registered h) (effective_platforms req) ->
     queried = int32 (Z.of_nat (length (run_calls r)))) /\
  (forall s w cfg,
     h = NewSearchHandler w cfg -> validateSearchRequest s req = None ->
     queried = int32 (Z.of_nat (length (run_calls r)))).
Proof.
  intros Hr queried.
  assert (Hq := Search_queried _ _ _ _ _ _ Hr).
  assert (Hc := Search_calls_length _ _ _ _ _ _ Hr).
  assert (Hall : Forall (registered h) (effective_platforms req) ->
                 queried = int32 (Z.of_nat (length (run_calls r)))).
  { intros Hreg. subst queried. rewrite Hq, Hc, filter_all by assumption.
    reflexivity. }
  repeat split; try assumption.
  intros s w cfg -> Hvalid. apply Hall.
  now apply (validated_platforms_registered s).
Qed.

Lemma platforms_queried_counts_listed_witness :
  exists r,
    Search (NewSearchHandler examples.healthy examples.cfg)
      (examples.prompt (NewSearchHandler examples.healthy examples.cfg)
         examples.global_ctx examples.rocq_twice)
      examples.global_ctx 0 examples.rocq_twice = Some r /\
    pb.ResponseMetadata.PlatformsQueried
      (pb.SearchResponse.Metadata (run_response r))
    = int32 (Z.of_nat (length (run_calls r))).
Proof.
  destruct (Search (NewSearchHandler examples.healthy examples.cfg)
              (examples.prompt (NewSearchHandler examples.healthy examples.cfg)
                 examples.global_ctx examples.rocq_twice)
              examples.global_ctx 0 examples.rocq_twice) as [r|] eqn:E;
    [| vm_compute in E; discriminate].
  exists r. split; [reflexivity |].
  destruct (platforms_queried_counts_listed _ _ _ _ _ _ E) as (_ & _ & _ & H).
  apply (H (NewServer examples.healthy examples.cfg) examples.healthy examples.cfg);
    reflexivity.
Defined.

(** C2 fails as stated: a listed name that is not in the registry is skipped
    and still counted.  For the platforms [github; bogus] one task is
    dispatched and [PlatformsQueried] is 2. *)
Lemma skipped_platform_is_counted :
  exists r,
    Search (NewSearchHandler examples.healthy examples.cfg)
      (examples.prompt (NewSearchHandler examples.healthy examples.cfg)
         examples.global_ctx examples.rocq_with_typo)
      examples.global_ctx 0 examples.rocq_with_typo = Some r /\
    map call_fetcher (run_calls r) = ["github"] /\
    pb.ResponseMetadata.PlatformsQueried
      (pb.SearchResponse.Metadata (run_response r)) = 2%Z /\
    pb.ResponseMetadata.PlatformsQueried
      (pb.SearchResponse.Metadata (run_response r))
    <> Z.of_nat (length (run_calls r)).
Proof.
  eexists. split; [vm_compute; reflexivity |].
  vm_compute. repeat split; discriminate.
Qed.

(** C3, as the code has it.  The names in the success, timeout and error
    lists of a response are, with multiplicity, the names of the dispatched
    tasks: every listed name is a dispatched provider, and every Outcome read
    puts its provider in one list.  When no provider is dispatched twice, the
    three lists have no repeated and no shared name, and every dispatched
    provider is in exactly one of them; that is the case whenever the
    effective platform list has no repeated name and fetchers are registered
    under their own names. *)
Theorem partition_of_dispatched
    (h : SearchHandler) (schedule : list Event) (ctx : Context)
    (startTime : Z) (req : pb.SearchRequest.t) (r : SearchRun) :
  Search h schedule ctx startTime req = Some r ->
  let names := map task_name (dispatched h ctx startTime req) in
  response_names (run_response r) ≡ₚ names /\
  (forall p, p ∈ response_names (run_response r) -> p ∈ names) /\
  (NoDup names ->
     NoDup (response_names (run_response r)) /\
     forall p, p ∈ names -> in_exactly_one p (run_response r)) /\
  (well_named h -> NoDup (effective_platforms req) -> NoDup names).
Proof.
  intros Hr names.
  pose proof (Search_names _ _ _ _ _ _ Hr) as Hperm. fold names in Hperm.
  split; [exact Hperm |].
  split; [intros p Hp; now rewrite <- Hperm |].
  split.
  - intros Hnd.
    assert (Hnd' : NoDup (response_names (run_response r))) by now rewrite Hperm.
    split; [exact Hnd' |].
    intros p Hp. apply NoDup_exactly_one; [exact Hnd' | now rewrite Hperm].
  - intros Hwn Hnd. subst names. unfold dispatched.
    rewrite fan_out_names by assumption. now apply NoDup_filter.
Qed.

Lemma partition_of_dispatched_witness :
  exists r,
    Search (NewSearchHandler examples.all_down examples.cfg)
      (examples.prompt (NewSearchHandler examples.all_down examples.cfg)
         examples.global_ctx examples.rocq_everywhere)
      examples.global_ctx 0 examples.rocq_everywhere = Some r /\
    response_names (run_response r)
      ≡ₚ map task_name
           (dispatched (NewSearchHandler examples.all_down examples.cfg)
              examples.global_ctx 0 examples.rocq_everywhere).
Proof.
  destruct (Search (NewSearchHandler examples.all_down examples.cfg)
              (examples.prompt (NewSearchHandler examples.all_down examples.cfg)
                 examples.global_ctx examples.rocq_everywhere)
              examples.global_ctx 0 examples.rocq_everywhere) as [r|] eqn:E;
    [| vm_compute in E; discriminate].
  exists r. split; [reflexivity |].
  exact (proj1 (partition_of_dispatched _ _ _ _ _ _ E)).
Defined.

(** C3 fails as stated: a request may name a provider twice and pass the
    boundary; when one of the two tasks succeeds and the other fails, the
    provider is in two lists. *)
Lemma repeated_platform_in_two_lists :
  exists run resp,
    FederatedSearch (NewServer examples.rate_limited examples.cfg)
      (examples.prompt (NewSearchHandler examples.rate_limited examples.cfg)
         examples.global_ctx examples.rocq_twice)
      Background 0 examples.rocq_twice = Some run /\
    fed_response run = Some resp /\
    pb.SearchResponse.PlatformsSuccess resp = ["github"] /\
    pb.SearchResponse.PlatformsTimeout resp = [] /\
    pb.SearchResponse.PlatformsError resp = ["github"] /\
    ~ in_exactly_one "github" resp.
Proof.
  eexists. eexists. split; [vm_compute; reflexivity |].
  split; [reflexivity |].
  repeat split.
  unfold in_exactly_one. cbn.
  rewrite !elem_of_cons, !elem_of_nil. intuition congruence.
Qed.

Lemma FederatedSearch_validated s schedule ctx startTime req run :
  validateSearchRequest s req = None ->
  FederatedSearch s schedule ctx startTime req = Some run ->
  exists r,
    Search (searchHandler s) schedule
      (WithTimeout ctx startTime (ServerTimeout (config.Server (server_config s))))
      startTime req = Some r /\
    fed_response run = Some (run_response r) /\
    fed_status run = None /\
    fed_calls run = run_calls r /\
    fed_returned_at run = run_returned_at r.
Proof.
  intros Hvalid. unfold FederatedSearch. rewrite Hvalid.
  destruct (Search _ _ _ _ _) as [r|] eqn:Hr; [| discriminate].
  destruct (Search_inv _ _ _ _ _ _ Hr) as (_ & _ & _ & Herr & _).
  rewrite Herr. intros [= <-]. exists r. simpl. auto.
Qed.

(** C5. For every request that passes boundary validation the call returns
    a response and no error: [Search] never returns an error, whatever the
    provider tasks do, and [FederatedSearch] hands its response on.  When
    every dispatched provider fails, the response has no results, a total
    count of 0, an empty success list, and each provider of the effective
    platform list is in the timeout or in the error list. *)
Theorem provider_failures_stay_local
    (w : World) (cfg : Config) (ctx : Context) (startTime : Z)
    (req : pb.SearchRequest.t) :
  let srv := NewServer w cfg in
  validateSearchRequest srv req = None ->
  let searchCtx :=
    WithTimeout ctx startTime (ServerTimeout (config.Server cfg)) in
  let tasks := dispatched (searchHandler srv) searchCtx startTime req in
  (exists schedule run resp,
     FederatedSearch srv schedule ctx startTime req = Some run /\
     fed_response run = Some resp /\ fed_status run = None) /\
  (forall schedule r,
     Search (searchHandler srv) schedule searchCtx startTime req = Some r ->
     run_err r = None) /\
  (forall schedule run,
     FederatedSearch srv schedule ctx startTime req = Some run ->
     fed_status run = None /\
     exists resp,
       fed_response run = Some resp /\
       (Forall failed (map g_result tasks) ->
          pb.SearchResponse.Results resp = [] /\
          pb.SearchResponse.TotalCount resp = 0%Z /\
          pb.SearchResponse.PlatformsSuccess resp = [] /\
          pb.SearchResponse.PlatformsTimeout resp
            ++ pb.SearchResponse.PlatformsError resp
            ≡ₚ effective_platforms req)).
Proof.
  intros srv Hvalid searchCtx tasks. split; [| split].
  - destruct (Search_prompt (searchHandler srv) searchCtx startTime req)
      as (r & Hr & _).
    destruct (Search_inv _ _ _ _ _ _ Hr) as (_ & _ & _ & Herr & _).
    exists (prompt_schedule startTime tasks).
    unfold FederatedSearch. rewrite Hvalid.
    change (WithTimeout ctx startTime
              (ServerTimeout (config.Server (server_config srv))))
      with searchCtx.
    fold tasks in Hr. rewrite Hr, Herr. eauto.
  - intros schedule r Hr.
    now destruct (Search_inv _ _ _ _ _ _ Hr) as (_ & _ & _ & Herr & _).
  - intros schedule run Hrun.
    destruct (FederatedSearch_validated _ _ _ _ _ _ Hvalid Hrun)
      as (r & Hr & Hresp & Hstatus & _).
    change (WithTimeout ctx startTime
              (ServerTimeout (config.Server (server_config srv))))
      with searchCtx in Hr.
    split; [exact Hstatus |].
    exists (run_response r). split; [exact Hresp |].
    intros Hfailed.
    pose proof (Search_names _ _ _ _ _ _ Hr) as Hnames.
    destruct (Search_inv _ _ _ _ _ _ Hr) as (received & Hperm & Hbuild & _).
    assert (Hrecv : Forall failed received) by now rewrite Hperm.
    destruct (fold_collect_all_failed received nothing_collected Hrecv)
      as [Hres Hsucc].
    fold (collect received) in Hres, Hsucc. simpl in Hres, Hsucc.
    unfold response_names in Hnames. rewrite Hbuild in Hnames |- *.
    simpl in Hnames |- *. rewrite Hres, Hsucc in *. simpl in Hnames.
    repeat split.
    rewrite Hnames. unfold dispatched.
    rewrite fan_out_names by apply NewSearchHandler_well_named.
    apply Permutation_refl'. apply filter_all.
    now apply (validated_platforms_registered srv).
Qed.

Lemma provider_failures_stay_local_witness :
  exists run resp,
    FederatedSearch (NewServer examples.all_down examples.cfg)
      (examples.prompt (NewSearchHandler examples.all_down examples.cfg)
         examples.global_ctx examples.rocq_everywhere)
      Background 0 examples.rocq_everywhere = Some run /\
    fed_status run = None /\
    fed_response run = Some resp /\
    pb.SearchResponse.Results resp = [] /\
    pb.SearchResponse.TotalCount resp = 0%Z /\
    pb.SearchResponse.PlatformsSuccess resp = [] /\
    pb.SearchResponse.PlatformsTimeout resp ++ pb.SearchResponse.PlatformsError resp
      ≡ₚ ["github"; "stackoverflow"; "reddit"].
Proof.
  destruct (FederatedSearch (NewServer examples.all_down examples.cfg)
              (examples.prompt (NewSearchHandler examples.all_down examples.cfg)
                 examples.global_ctx examples.rocq_everywhere)
              Background 0 examples.rocq_everywhere) as [run|] eqn:E;
    [| vm_compute in E; discriminate].
  destruct (provider_failures_stay_local examples.all_down examples.cfg
              Background 0 examples.rocq_everywhere eq_refl) as (_ & _ & H).
  destruct (H _ _ E) as (Hstatus & resp & Hresp & Hall).
  exists run, resp. split; [reflexivity |].
  split; [exact Hstatus |]. split; [exact Hresp |].
  apply Hall. vm_compute. repeat constructor; discriminate.
Defined.

(** C6 at the failing input.  A query of 251 characters, each two bytes
    long in UTF-8, is rejected as longer than 500 characters, before any
    provider is called: the code compares the number of bytes. *)
Theorem query_limit_counts_bytes :
  let srv := NewServer examples.healthy examples.cfg in
  let req := examples.rocq_accented in
  RuneCountInString (pb.SearchRequest.Query req) = 251%Z /\
  len (pb.SearchRequest.Query req) = 502%Z /\
  validateSearchRequest srv req
    = Some {| code := InvalidArgument;
              message := "query too long (max 500 characters)" |} /\
  forall schedule ctx startTime,
    FederatedSearch srv schedule ctx startTime req
    = Some {| fed_response := None;
              fed_status :=
                Some {| code := InvalidArgument;
                        message := "query too long (max 500 characters)" |};
              fed_calls := []; fed_returned_at := startTime |}.
Proof.
  intros srv req.
  assert (Hv : validateSearchRequest srv req
               = Some {| code := InvalidArgument;
                         message := "query too long (max 500 characters)" |})
    by (vm_compute; reflexivity).
  split; [vm_compute; reflexivity |].
  split; [vm_compute; reflexivity |].
  split; [exact Hv |].
  intros schedule ctx startTime. now apply rejected_before_any_call.
Qed.

(* ===================================================================== *)
(** * Further properties                                                  *)
(* ===================================================================== *)

Import orchestration.

(** ** The fan-in loop as a comprehension *)

Lemma fold_collect_spec outcomes c :
  fold_left collect_step outcomes c =
    {| allResults := allResults c ++ allResults (collect_spec outcomes);
       platformsSuccess := platformsSuccess c ++ platformsSuccess (collect_spec outcomes);
       platformsTimeout := platformsTimeout c ++ platformsTimeout (collect_spec outcomes);
       platformsError := platformsError c ++ platformsError (collect_spec outcomes) |}.
Proof.
  revert c. induction outcomes as [|fr outcomes IH]; intros c.
  - simpl. rewrite !app_nil_r. now destruct c.
  - cbn [fold_left]. rewrite IH. unfold collect_step, collect_spec.
    rewrite append_protos. cbn [allResults platformsSuccess platformsTimeout platformsError].
    destruct (FetchResult.Error fr) as [e|] eqn:E.
    + rewrite (filter_cons_False succeeded) by (unfold succeeded; congruence).
      destruct (FetchResult.TimedOut fr) eqn:T.
      * rewrite (filter_cons_True timed_out) by (unfold timed_out; split; congruence).
        rewrite (filter_cons_False errored) by (unfold errored; intros [_ ?]; congruence).
        cbn [allResults platformsSuccess platformsTimeout platformsError map].
        now rewrite <- app_assoc.
      * rewrite (filter_cons_False timed_out) by (unfold timed_out; intros [_ ?]; congruence).
        rewrite (filter_cons_True errored) by (unfold errored; split; congruence).
        cbn [allResults platformsSuccess platformsTimeout platformsError map].
        now rewrite <- app_assoc.
    + rewrite (filter_cons_True succeeded) by exact E.
      rewrite (filter_cons_False timed_out) by (unfold timed_out; intros [? _]; congruence).
      rewrite (filter_cons_False errored) by (unfold errored; intros [? _]; congruence).
      cbn [allResults platformsSuccess platformsTimeout platformsError map concat].
      now rewrite <- !app_assoc.
Qed.

(** X1. The fan-in loop computes three comprehensions: the success, timeout
    and error lists are the provider names of the Outcomes of that class, in
    the order read; the results are the converted results of the successful
    Outcomes, in that order, and those of a failed Outcome are dropped. *)
Theorem collect_is_comprehension (outcomes : list FetchResult.t) :
  collect outcomes = collect_spec outcomes.
Proof.
  unfold collect. rewrite fold_collect_spec. reflexivity.
Qed.

(** ** The channel protocol *)

Lemma run_fifo cap schedule s s' sent received :
  run cap schedule s = Some s' ->
  received ++ chan s = map g_result sent ->
  collected s = collect received ->
  exists received',
    received' ++ chan s' = map g_result (sent ++ send_order cap schedule s) /\
    collected s' = collect received'.
Proof.
  revert s sent received.
  induction schedule as [|e schedule IH]; intros s sent received Hrun Hq Hc.
  - injection Hrun as <-. exists received. simpl. now rewrite app_nil_r.
  - cbn [run send_order] in *.
    destruct (step cap e s) as [s1|] eqn:Hstep; [| discriminate].
    rewrite app_assoc.
    apply (IH s1 (sent ++ sender e s)) with (received := 
      match e with
      | Recv => match chan s with fr :: _ => received ++ [fr] | [] => received end
      | _ => received
      end); [exact Hrun | |].
    + destruct e; simpl in Hstep |- *.
      * injection Hstep as <-. simpl. now rewrite app_nil_r.
      * destruct (running s !! i) as [g|]; [| discriminate].
        destruct (_ && _); [| discriminate].
        injection Hstep as <-. simpl.
        rewrite map_app, <- Hq, app_assoc. reflexivity.
      * destruct (running s); [| discriminate].
        destruct (closed s); [discriminate |].
        injection Hstep as <-. simpl. now rewrite app_nil_r.
      * destruct (returned s); [discriminate |].
        destruct (chan s) as [|fr rest]; [discriminate |].
        injection Hstep as <-. simpl.
        rewrite app_nil_r, <- Hq, <- app_assoc. reflexivity.
      * destruct (returned s); [discriminate |].
        destruct (chan s); [| discriminate].
        destruct (closed s); [| discriminate].
        injection Hstep as <-. simpl. rewrite !app_nil_r in *. exact Hq.
    + destruct e; simpl in Hstep |- *.
      * injection Hstep as <-. exact Hc.
      * destruct (running s !! i) as [g|]; [| discriminate].
        destruct (_ && _); [| discriminate].
        injection Hstep as <-. exact Hc.
      * destruct (running s); [| discriminate].
        destruct (closed s); [discriminate |].
        injection Hstep as <-. exact Hc.
      * destruct (returned s); [discriminate |].
        destruct (chan s) as [|fr rest]; [discriminate |].
        injection Hstep as <-. simpl. rewrite collect_snoc, Hc. reflexivity.
      * destruct (returned s); [discriminate |].
        destruct (chan s); [| discriminate].
        destruct (closed s); [| discriminate].
        injection Hstep as <-. exact Hc.
Qed.

Lemma run_send_order cap schedule s s' :
  run cap schedule s = Some s' ->
  send_order cap schedule s ++ running s' ≡ₚ running s.
Proof.
  revert s. induction schedule as [|e schedule IH]; intros s Hrun.
  - injection Hrun as <-. reflexivity.
  - cbn [run send_order] in *.
    destruct (step cap e s) as [s1|] eqn:Hstep; [| discriminate].
    rewrite <- app_assoc, (IH s1 Hrun).
    destruct e; simpl in Hstep |- *.
    + now injection Hstep as <-.
    + destruct (running s !! i) as [g|] eqn:Eg; [| discriminate].
      destruct (_ && _); [| discriminate].
      injection Hstep as <-. simpl.
      symmetry. now apply delete_Permutation.
    + destruct (running s); [| discriminate].
      destruct (closed s); [discriminate |].
      now injection Hstep as <-.
    + destruct (returned s); [discriminate |].
      destruct (chan s) as [|fr rest]; [discriminate |].
      now injection Hstep as <-.
    + destruct (returned s); [discriminate |].
      destruct (chan s); [| discriminate].
      destruct (closed s); [| discriminate].
      now injection Hstep as <-.
Qed.

Lemma run_settled startTime tasks cap schedule s :
  run cap schedule (initial startTime tasks) = Some s ->
  (closed s = true -> running s = []) /\
  (forall t, returned s = Some t ->
     closed s = true /\ chan s = [] /\ running s = []) /\
  (length (partition_names (collected s)) + length (chan s)
     + length (running s) = length tasks)%nat.
Proof.
  intros Hrun.
  destruct (run_Inv _ _ _ _ _ _ _ _ (Inv_initial startTime tasks) Hrun)
    as (sent & received & [Htasks Hout Hcol _ _ Hclosed Hret]).
  split; [exact Hclosed |]. split.
  - intros t Ht. destruct (Hret t Ht) as (Hc & Hch & _). auto.
  - rewrite Hcol, (Permutation_length (collect_names received)), length_map.
    apply Permutation_length in Htasks, Hout.
    rewrite length_app in Htasks. rewrite length_map, length_app in Hout. lia.
Qed.

(** X2. The channel delivers in the order of the sends: the response of a
    complete execution is the fold of the Outcomes of the dispatched tasks in
    the order in which the tasks sent them, and every dispatched task sends
    exactly once. *)
Theorem response_follows_send_order
    (h : SearchHandler) (schedule : list Event) (ctx : Context)
    (startTime : Z) (req : pb.SearchRequest.t) (r : SearchRun) :
  Search h schedule ctx startTime req = Some r ->
  let tasks := dispatched h ctx startTime req in
  let order :=
    send_order (length (effective_platforms req)) schedule
      (initial startTime tasks) in
  order ≡ₚ tasks /\
  run_response r =
    build_response (effective_platforms req) (collect (map g_result order))
      (run_returned_at r - startTime).
Proof.
  unfold Search, dispatched. intros H.
  destruct (run _ _ _) as [s|] eqn:Hrun; [| discriminate].
  destruct (returned s) as [t|] eqn:Ht; [| discriminate].
  injection H as <-. cbn [run_response run_returned_at].
  destruct (run_settled _ _ _ _ _ Hrun) as (_ & Hret & _).
  destruct (Hret t Ht) as (_ & Hch & Hrunning).
  pose proof (run_send_order _ _ _ _ Hrun) as Hperm.
  rewrite Hrunning, app_nil_r in Hperm.
  destruct (run_fifo _ _ _ _ [] [] Hrun eq_refl eq_refl) as (received & Hq & Hc).
  rewrite Hch, app_nil_r in Hq. simpl in Hq.
  split; [exact Hperm |].
  now rewrite Hc, Hq.
Qed.

Lemma response_follows_send_order_witness :
  exists r,
    Search (NewSearchHandler examples.healthy examples.cfg)
      (examples.prompt (NewSearchHandler examples.healthy examples.cfg)
         examples.global_ctx examples.rocq_everywhere)
      examples.global_ctx 0 examples.rocq_everywhere = Some r /\
    pb.SearchResponse.PlatformsSuccess (run_response r)
      = ["github"; "stackoverflow"; "reddit"].
Proof.
  destruct (Search (NewSearchHandler examples.healthy examples.cfg)
              (examples.prompt (NewSearchHandler examples.healthy examples.cfg)
                 examples.global_ctx examples.rocq_everywhere)
              examples.global_ctx 0 examples.rocq_everywhere) as [r|] eqn:E;
    [| vm_compute in E; discriminate].
  exists r. split; [reflexivity |].
  rewrite (proj2 (response_follows_send_order _ _ _ _ _ _ E)).
  vm_compute. reflexivity.
Defined.

(** X3. No Outcome is lost, read twice or made up.  At every moment of a
    run the Outcomes the loop has read, followed by those waiting in the
    channel, are the Outcomes of the tasks that have sent, in the order of
    the sends; the tasks that have sent and those still running are,
    together, the tasks the run started with.  The channel is closed only
    when no task is left to send, and the loop is left only when the channel
    is closed and empty: it has then read the Outcome of every task. *)
Theorem no_outcome_lost
    (startTime : Z) (tasks : list Goroutine) (cap : nat)
    (schedule : list Event) (s : State) :
  run cap schedule (initial startTime tasks) = Some s ->
  let sent := send_order cap schedule (initial startTime tasks) in
  sent ++ running s ≡ₚ tasks /\
  (exists received,
     received ++ chan s = map g_result sent /\
     collected s = collect received /\
     (forall t, returned s = Some t ->
        received = map g_result sent /\ sent ≡ₚ tasks)) /\
  (length (partition_names (collected s)) + length (chan s)
     + length (running s) = length tasks)%nat /\
  (closed s = true -> running s = []) /\
  (forall t, returned s = Some t ->
     closed s = true /\ chan s = [] /\ running s = [] /\
     length (partition_names (collected s)) = length tasks).
Proof.
  intros Hrun sent.
  destruct (run_settled _ _ _ _ _ Hrun) as (Hclosed & Hret & Hcount).
  pose proof (run_send_order _ _ _ _ Hrun) as Hperm. fold sent in Hperm.
  destruct (run_fifo _ _ _ _ [] [] Hrun eq_refl eq_refl) as (received & Hq & Hc).
  simpl in Hq. fold sent in Hq.
  split; [exact Hperm |]. split.
  - exists received. split; [exact Hq |]. split; [exact Hc |].
    intros t Ht. destruct (Hret t Ht) as (_ & Hch & Hr).
    rewrite Hch, app_nil_r in Hq. rewrite Hr, app_nil_r in Hperm. auto.
  - split; [exact Hcount |]. split; [exact Hclosed |].
    intros t Ht. destruct (Hret t Ht) as (Hcl & Hch & Hr).
    rewrite Hch, Hr in Hcount. simpl in Hcount.
    repeat split; auto. lia.
Qed.

Lemma no_outcome_lost_witness :
  exists s received,
    run 3 [Tick; Send 0; Recv] (initial 0 more_examples.two_tasks) = Some s /\
    received ++ chan s = [examples.ok_github] /\
    collected s = collect received.
Proof.
  destruct (run 3 [Tick; Send 0; Recv] (initial 0 more_examples.two_tasks))
    as [s|] eqn:E; [| vm_compute in E; discriminate].
  destruct (no_outcome_lost _ _ _ _ _ E) as (_ & (received & Hq & Hc & _) & _).
  exists s, received. split; [reflexivity |]. split; [exact Hq | exact Hc].
Defined.

(** X4. A task that is ready to send is never held up: in every state
    [Search] can reach, the channel is neither full (its capacity is the
    length of the platform list) nor closed while a task is still running,
    so the send of a task whose time has come is enabled. *)
Theorem ready_task_can_send
    (h : SearchHandler) (ctx : Context) (startTime : Z)
    (req : pb.SearchRequest.t) (schedule : list Event) (s : State)
    (i : nat) (g : Goroutine) :
  let cap := length (effective_platforms req) in
  run cap schedule (initial startTime (dispatched h ctx startTime req)) = Some s ->
  running s !! i = Some g ->
  (g_sends_at g <= now s)%Z ->
  (length (chan s) < cap)%nat /\ closed s = false /\
  exists s', step cap (Send i) s = Some s' /\
             chan s' = chan s ++ [g_result g].
Proof.
  intros cap Hrun Hg Hdue.
  assert (Hlen : (length (dispatched h ctx startTime req) <= cap)%nat)
    by apply fan_out_length_le.
  destruct (run_settled _ _ _ _ _ Hrun) as (Hclosed & _ & Hcount).
  assert (Hroom : (length (chan s) < cap)%nat).
  { apply lookup_lt_Some in Hg. lia. }
  assert (Hopen : closed s = false).
  { destruct (closed s); [| reflexivity].
    rewrite (Hclosed eq_refl) in Hg. discriminate. }
  repeat split; try assumption.
  simpl. rewrite Hg, Hopen.
  destruct (Z.leb_spec (g_sends_at g) (now s)); [| lia].
  destruct (Nat.ltb_spec (length (chan s)) cap); [| lia].
  simpl. eexists. split; reflexivity.
Qed.

Lemma ready_task_can_send_witness :
  exists s s',
    run 3 (replicate 30 Tick)
      (initial 0
         (dispatched (NewSearchHandler examples.all_down examples.cfg)
            examples.global_ctx 0 examples.rocq_everywhere)) = Some s /\
    step 3 (Send 0) s = Some s'.
Proof.
  destruct (run 3 (replicate 30 Tick)
              (initial 0
                 (dispatched (NewSearchHandler examples.all_down examples.cfg)
                    examples.global_ctx 0 examples.rocq_everywhere)))
    as [s|] eqn:E; [| vm_compute in E; discriminate].
  destruct (running s !! 0%nat) as [g|] eqn:Eg;
    [| vm_compute in E; injection E as <-; discriminate].
  destruct (ready_task_can_send
              (NewSearchHandler examples.all_down examples.cfg)
              examples.global_ctx 0 examples.rocq_everywhere
              (replicate 30 Tick) s 0 g E Eg)
    as (_ & _ & s' & Hs' & _).
  - vm_compute in E. injection E as <-.
    vm_compute in Eg. injection Eg as <-. vm_compute. discriminate.
  - exists s, s'. split; [reflexivity | exact Hs'].
Defined.

(** ** No deadlock *)

Lemma finish_schedule_runs startTime tasks cap sent received s :
  Inv startTime tasks sent received s ->
  returned s = None ->
  (length tasks <= cap)%nat ->
  exists s',
    run cap (finish_schedule s) s = Some s' /\
    returned s' = Some (last_send (now s) (running s)).
Proof.
  intros [Htasks Hout _ _ _ Hclosed _] Hret Hcap.
  apply Permutation_length in Htasks, Hout.
  rewrite length_app in Htasks. rewrite length_map, length_app in Hout.
  destruct s as [t runs ch cl col ret]. simpl in *. subst ret.
  unfold finish_schedule. cbn [now running chan closed].
  destruct (last_send_bounds t runs) as [Hle Hready].
  rewrite run_app, run_ticks. cbn [now running chan closed collected returned].
  replace (t + Z.of_nat (Z.to_nat (last_send t runs - t)))%Z
    with (last_send t runs) by lia.
  destruct cl.
  - rewrite (Hclosed eq_refl) in *. cbn [length replicate app].
    rewrite Nat.add_0_r, run_app, run_recvs.
    cbn [run step returned chan closed]. eauto.
  - rewrite run_app, run_sends by (auto; lia).
    rewrite run_app. cbn [run step running closed app].
    rewrite run_app.
    replace (length ch + length runs)%nat
      with (length (ch ++ map g_result runs))
      by (rewrite length_app, length_map; reflexivity).
    rewrite run_recvs. cbn [run step returned chan closed]. eauto.
Qed.

(** X5. The fan-in cannot deadlock: whatever the scheduler has done so
    far, as long as the loop has not been left there is a continuation under
    which [Search] returns, at the moment the last task still running is
    ready to send (or at once when none is running). *)
Theorem Search_never_stuck
    (h : SearchHandler) (ctx : Context) (startTime : Z)
    (req : pb.SearchRequest.t) (sofar : list Event) (s : State) :
  run (length (effective_platforms req)) sofar
    (initial startTime (dispatched h ctx startTime req)) = Some s ->
  returned s = None ->
  exists r,
    Search h (sofar ++ finish_schedule s) ctx startTime req = Some r /\
    run_returned_at r = last_send (now s) (running s).
Proof.
  intros Hrun Hret.
  destruct (run_Inv _ _ _ _ _ _ _ _ (Inv_initial startTime _) Hrun)
    as (sent & received & HI).
  destruct (finish_schedule_runs _ _ (length (effective_platforms req))
              _ _ _ HI Hret) as (s' & Hrun' & Hret').
  { apply fan_out_length_le. }
  unfold Search. fold (dispatched h ctx startTime req).
  rewrite run_app, Hrun, Hrun', Hret'.
  eexists. split; reflexivity.
Qed.

Lemma Search_never_stuck_witness :
  exists s r,
    run 3 (replicate 45 Tick ++ [Send 2; Recv; Send 0])
      (initial 0
         (dispatched (NewSearchHandler examples.all_down examples.cfg)
            examples.global_ctx 0 examples.rocq_everywhere)) = Some s /\
    Search (NewSearchHandler examples.all_down examples.cfg)
      ((replicate 45 Tick ++ [Send 2; Recv; Send 0]) ++ finish_schedule s)
      examples.global_ctx 0 examples.rocq_everywhere = Some r /\
    run_returned_at r = last_send (now s) (running s).
Proof.
  destruct (run 3 (replicate 45 Tick ++ [Send 2; Recv; Send 0])
              (initial 0
                 (dispatched (NewSearchHandler examples.all_down examples.cfg)
                    examples.global_ctx 0 examples.rocq_everywhere)))
    as [s|] eqn:E; [| vm_compute in E; discriminate].
  destruct (Search_never_stuck
              (NewSearchHandler examples.all_down examples.cfg)
              examples.global_ctx 0 examples.rocq_everywhere
              (replicate 45 Tick ++ [Send 2; Recv; Send 0]) s E)
    as (r & Hr & Ht).
  - vm_compute in E. injection E as <-. reflexivity.
  - exists s, r. split; [reflexivity |]. split; assumption.
Defined.

(** ** Deadlines *)

Lemma FederatedSearch_tasks s schedule ctx startTime req run :
  FederatedSearch s schedule ctx startTime req = Some run ->
  exists tasks,
    fed_calls run = map g_call tasks /\
    Forall (fun g =>
              exists platform fetcher k t,
                platform ∈ effective_platforms req /\
                handlers.fetchers (searchHandler s) !! platform = Some fetcher /\
                g = fetchFromPlatform (searchHandler s) k
                      (WithTimeout ctx startTime
                         (ServerTimeout (config.Server (server_config s))))
                      fetcher (pb.SearchRequest.Query req)
                      (effective_maxResults (searchHandler s) req) t)
           tasks.
Proof.
  intros Hrun.
  destruct (validateSearchRequest s req) as [err|] eqn:Hv.
  - rewrite (rejected_before_any_call _ schedule ctx startTime _ _ Hv) in Hrun.
    injection Hrun as <-. exists []. split; [reflexivity | constructor].
  - destruct (FederatedSearch_validated _ _ _ _ _ _ Hv Hrun)
      as (r & Hr & _ & _ & Hcalls & _).
    eexists. split; [rewrite Hcalls; exact (Search_calls _ _ _ _ _ _ Hr) |].
    unfold dispatched.
    eapply Forall_impl; [apply fan_out_applies_Fetch |]. cbn beta.
    intros g (p & f & j & Hp & Hf & Hg). exists p, f, j, startTime. auto.
Qed.

(** X6. Deadlines are nested.  The tasks of a request are calls of
    [fetchFromPlatform] under the context [FederatedSearch] made when the
    request came in, at [t0].  Such a task, whenever the scheduler starts it
    (at [t1]), applies [Fetch] to a context whose deadline is the earliest
    of the caller's deadline, [t0] plus the server timeout and [t1] plus the
    per-API timeout, and which is cancelled when the caller's context is;
    the Outcome of the task is what that application returned.  (A timeout
    that is not positive counts as zero: the context is ended as it is
    made.) *)
Theorem deadlines_are_nested
    (s : Server) (ctx : Context) (t0 t1 : Z) (k : nat) (fetcher : Fetcher)
    (query : string) (maxResults : Z) :
  let serverTimeout := ServerTimeout (config.Server (server_config s)) in
  let perAPITimeout :=
    PerAPITimeout (config.Server (handlers.config (searchHandler s))) in
  let searchCtx := WithTimeout ctx t0 serverTimeout in
  let task :=
    fetchFromPlatform (searchHandler s) k searchCtx fetcher query maxResults t1 in
  let d := Z.min (earlier (t0 + Z.max serverTimeout 0) (deadline ctx))
                 (t1 + Z.max perAPITimeout 0) in
  let ret := Fetch fetcher k
               {| deadline := Some d; canceled_at := canceled_at ctx |}
               query maxResults in
  (forall schedule req run,
     FederatedSearch s schedule ctx t0 req = Some run ->
     exists tasks,
       fed_calls run = map g_call tasks /\
       Forall (fun g =>
                 exists platform f j t,
                   platform ∈ effective_platforms req /\
                   handlers.fetchers (searchHandler s) !! platform = Some f /\
                   g = fetchFromPlatform (searchHandler s) j searchCtx f
                         (pb.SearchRequest.Query req)
                         (effective_maxResults (searchHandler s) req) t)
              tasks) /\
  FetchResult.Error (g_result task) = ret_err ret /\
  FetchResult.Duration (g_result task) = ret_latency ret /\
  (ret_err ret = None -> FetchResult.Results (g_result task) = ret_results ret) /\
  g_sends_at task = (t1 + ret_latency ret)%Z /\
  (d <= t1 + Z.max perAPITimeout 0)%Z /\
  (d <= t0 + Z.max serverTimeout 0)%Z /\
  (forall d0, deadline ctx = Some d0 -> (d <= d0)%Z).
Proof.
  intros serverTimeout perAPITimeout searchCtx task d ret.
  split; [intros schedule req run; apply FederatedSearch_tasks |].
  destruct (fetchFromPlatform_applies_Fetch (searchHandler s) k searchCtx
              fetcher query maxResults t1) as (_ & He & Hd & Hr).
  split; [exact He |]. split; [exact Hd |]. split; [exact Hr |].
  split; [reflexivity |].
  subst d. unfold earlier.
  destruct (deadline ctx) as [d0|]; repeat split; try lia.
  - intros d1 [= <-]. lia.
  - intros d1 [=].
Qed.

Lemma deadlines_are_nested_witness :
  let caller := {| deadline := Some 450%Z; canceled_at := None |} in
  let h := NewSearchHandler examples.healthy examples.cfg in
  let prompt :=
    fetchFromPlatform h 0 (WithTimeout caller 0 500) more_examples.probe
      "rocq" 20 0 in
  let late :=
    fetchFromPlatform h 0 (WithTimeout caller 0 500) more_examples.probe
      "rocq" 20 200 in
  FetchResult.Duration (g_result prompt) = 400%Z /\
  FetchResult.Duration (g_result late) = 450%Z.
Proof.
  intros caller h prompt late.
  destruct (deadlines_are_nested (NewServer examples.healthy examples.cfg)
              caller 0 0 0 more_examples.probe "rocq" 20)
    as (_ & _ & H0 & _).
  destruct (deadlines_are_nested (NewServer examples.healthy examples.cfg)
              caller 0 200 0 more_examples.probe "rocq" 20)
    as (_ & _ & H200 & _).
  split; [exact H0 | exact H200].
Defined.

(** X7. When a failed fetch is filed as a timeout.  With [d] the deadline
    of the task's context (the earlier of the parent's deadline and the
    task's start plus the per-API timeout): a fetch that fails at or after
    [d], under a parent that is not cancelled by [d], is a timeout whatever
    the error says; a fetch that fails after the parent was cancelled, the
    cancellation coming before [d], is an error and never a timeout, however
    late it returns; a fetch that does not fail is a success, however late
    it returns. *)
Theorem timeout_tracks_the_deadline
    (h : SearchHandler) (k : nat) (parentCtx : Context) (fetcher : Fetcher)
    (query : string) (maxResults startTime : Z) :
  let perAPITimeout := PerAPITimeout (config.Server (handlers.config h)) in
  let d := earlier (startTime + Z.max perAPITimeout 0)%Z (deadline parentCtx) in
  let ctx := WithTimeout parentCtx startTime perAPITimeout in
  let ret := Fetch fetcher k ctx query maxResults in
  let t := (startTime + ret_latency ret)%Z in
  let outcome :=
    g_result (fetchFromPlatform h k parentCtx fetcher query maxResults startTime) in
  (ret_err ret <> None -> (d <= t)%Z ->
   (forall c, canceled_at parentCtx = Some c -> (d < c)%Z) ->
   failure_of outcome = failure_timeout) /\
  (forall detail c,
     ret_err ret = Some detail ->
     canceled_at parentCtx = Some c -> (c < d)%Z -> (c <= t)%Z ->
     failure_of outcome = failure_error detail) /\
  (ret_err ret = None -> failure_of outcome = failure_none).
Proof.
  intros perAPITimeout d ctx ret t outcome.
  assert (Hclass : failure_of outcome = spec_failure (ret_err ret) (Err ctx t)).
  { subst outcome. unfold fetchFromPlatform. cbn [g_result].
    now apply failure_of_classify. }
  rewrite Hclass. unfold spec_failure.
  assert (Hdl : deadline ctx = Some d) by reflexivity.
  assert (Hc : canceled_at ctx = canceled_at parentCtx) by reflexivity.
  split; [| split].
  - intros Herr Hlate Hcancel.
    destruct (ret_err ret) as [e|]; [| congruence].
    assert (HE : Err ctx t = DeadlineExceeded).
    { unfold Err, cancelled_before_deadline, expired. rewrite Hdl, Hc.
      destruct (canceled_at parentCtx) as [c|].
      - specialize (Hcancel c eq_refl).
        destruct (Z.leb_spec c t), (Z.ltb_spec c d), (Z.leb_spec d t);
          simpl; reflexivity || lia.
      - destruct (Z.leb_spec d t); [reflexivity | lia]. }
    rewrite HE. now destruct (decide _).
  - intros detail c -> Hcancel Hbefore Hby.
    assert (HE : Err ctx t = Canceled).
    { unfold Err, cancelled_before_deadline. rewrite Hdl, Hc, Hcancel.
      destruct (Z.leb_spec c t), (Z.ltb_spec c d); simpl; reflexivity || lia. }
    rewrite HE. now destruct (decide _).
  - intros ->. reflexivity.
Qed.

Lemma timeout_tracks_the_deadline_witness :
  failure_of
    (g_result (fetchFromPlatform
                 (NewSearchHandler examples.all_down examples.cfg) 1
                 examples.global_ctx
                 (NewStackOverflowFetcher examples.hangs "" "") "rocq" 20 0))
  = failure_timeout.
Proof.
  apply (timeout_tracks_the_deadline
           (NewSearchHandler examples.all_down examples.cfg) 1
           examples.global_ctx
           (NewStackOverflowFetcher examples.hangs "" "") "rocq" 20 0).
  - discriminate.
  - vm_compute. discriminate.
  - intros c Hc. discriminate Hc.
Defined.

(** X8. The shape of an Outcome: it carries the fetcher's name, the time
    [Fetch] took and the error [Fetch] returned; it is marked as timed out
    only when it carries an error; it carries the results of [Fetch] when
    there is no error, and none at all when there is one, whatever [Fetch]
    returned beside the error. *)
Theorem outcome_shape
    (h : SearchHandler) (k : nat) (parentCtx : Context) (fetcher : Fetcher)
    (query : string) (maxResults startTime : Z) :
  let ctx := WithTimeout parentCtx startTime
               (PerAPITimeout (config.Server (handlers.config h))) in
  let ret := Fetch fetcher k ctx query maxResults in
  let task := fetchFromPlatform h k parentCtx fetcher query maxResults startTime in
  let outcome := g_result task in
  FetchResult.Platform outcome = Name fetcher /\
  FetchResult.Duration outcome = ret_latency ret /\
  g_sends_at task = (startTime + FetchResult.Duration outcome)%Z /\
  FetchResult.Error outcome = ret_err ret /\
  (FetchResult.TimedOut outcome = true -> FetchResult.Error outcome <> None) /\
  (ret_err ret = None -> FetchResult.Results outcome = ret_results ret) /\
  (ret_err ret <> None -> FetchResult.Results outcome = []).
Proof.
  intros ctx ret task outcome.
  subst outcome task. unfold fetchFromPlatform, classify.
  cbn [g_result g_sends_at]. fold ctx. fold ret.
  destruct (ret_err ret) as [e|]; cbn;
    repeat split; try congruence; try lia.
Qed.

Lemma outcome_shape_witness :
  FetchResult.Results
    (g_result (fetchFromPlatform
                 (NewSearchHandler examples.all_down examples.cfg) 0
                 examples.global_ctx
                 (NewGitHubFetcher (examples.refuses 30) "" "") "rocq" 20 0))
  = [].
Proof.
  apply (outcome_shape (NewSearchHandler examples.all_down examples.cfg) 0
           examples.global_ctx
           (NewGitHubFetcher (examples.refuses 30) "" "") "rocq" 20 0).
  discriminate.
Defined.

(** ** Responses *)

Lemma fan_out_duration h ctx query maxResults startTime platforms k :
  Forall (fun g =>
            g_sends_at g = (startTime + FetchResult.Duration (g_result g))%Z)
         (fan_out h ctx query maxResults startTime platforms k).
Proof.
  revert k. induction platforms as [|p ps IH]; intros k; simpl; [constructor |].
  destruct (handlers.fetchers h !! p) as [f|]; [| apply IH].
  constructor; [| apply IH].
  unfold fetchFromPlatform, classify. cbn [g_sends_at g_result].
  destruct (ret_err _); cbn; lia.
Qed.

(** X9. The response time covers every provider task: [Search] returns no
    earlier than it started, the time it reports is at least the duration of
    each dispatched task, and (below 2^31 ms) [ResponseTimeMs] is exactly
    the time between start and return. *)
Theorem response_time_covers_tasks
    (h : SearchHandler) (schedule : list Event) (ctx : Context)
    (startTime : Z) (req : pb.SearchRequest.t) (r : SearchRun) :
  Search h schedule ctx startTime req = Some r ->
  let elapsed := (run_returned_at r - startTime)%Z in
  (0 <= elapsed)%Z /\
  Forall (fun g => (FetchResult.Duration (g_result g) <= elapsed)%Z)
         (dispatched h ctx startTime req) /\
  ((elapsed < 2 ^ 31)%Z ->
     pb.ResponseMetadata.ResponseTimeMs
       (pb.SearchResponse.Metadata (run_response r)) = elapsed).
Proof.
  intros Hr elapsed.
  destruct (Search_inv _ _ _ _ _ _ Hr) as (received & _ & Hbuild & _ & Hclock & Hall).
  split; [subst elapsed; lia |]. split.
  - pose proof (fan_out_duration h ctx (pb.SearchRequest.Query req)
                  (effective_maxResults h req) startTime
                  (effective_platforms req) 0) as Hdur.
    fold (dispatched h ctx startTime req) in Hdur.
    rewrite Forall_forall in Hall, Hdur |- *.
    intros g Hg. specialize (Hall g Hg). specialize (Hdur g Hg).
    subst elapsed. lia.
  - intros Hsmall. rewrite Hbuild. cbn. fold elapsed.
    unfold int32, wrap. rewrite Z.mod_small; subst elapsed; lia.
Qed.

Lemma response_time_covers_tasks_witness :
  exists r,
    Search (NewSearchHandler examples.healthy examples.cfg)
      (examples.prompt (NewSearchHandler examples.healthy examples.cfg)
         examples.global_ctx examples.rocq_everywhere)
      examples.global_ctx 0 examples.rocq_everywhere = Some r /\
    pb.ResponseMetadata.ResponseTimeMs
      (pb.SearchResponse.Metadata (run_response r)) = 200%Z.
Proof.
  destruct (Search (NewSearchHandler examples.healthy examples.cfg)
              (examples.prompt (NewSearchHandler examples.healthy examples.cfg)
                 examples.global_ctx examples.rocq_everywhere)
              examples.global_ctx 0 examples.rocq_everywhere) as [r|] eqn:E;
    [| vm_compute in E; discriminate].
  exists r. split; [reflexivity |].
  destruct (response_time_covers_tasks _ _ _ _ _ _ E) as (_ & _ & H).
  assert (Ht : run_returned_at r = 200%Z)
    by (vm_compute in E; injection E as <-; reflexivity).
  rewrite H; rewrite Ht; [reflexivity | lia].
Defined.

Lemma fan_out_unregistered h ctx query maxResults startTime platforms k :
  Forall (fun p => ~ registered h p) platforms ->
  fan_out h ctx query maxResults startTime platforms k = [].
Proof.
  induction 1 as [|p ps Hp _ IH]; simpl; [reflexivity |].
  destruct (handlers.fetchers h !! p) as [f|] eqn:E; [| exact IH].
  exfalso. apply Hp. unfold registered. rewrite E. eauto.
Qed.

(** X10. A request none of whose platforms is in the registry: [Search]
    calls no provider and can return at once; whenever it returns, the
    response has no results, a total count of 0 and three empty lists, while
    [PlatformsQueried] still counts the listed names. *)
Theorem nothing_registered
    (h : SearchHandler) (ctx : Context) (startTime : Z)
    (req : pb.SearchRequest.t) :
  Forall (fun p => ~ registered h p) (effective_platforms req) ->
  (exists r,
     Search h [Close; LoopExit] ctx startTime req = Some r /\
     run_returned_at r = startTime) /\
  (forall schedule r,
     Search h schedule ctx startTime req = Some r ->
     run_calls r = [] /\
     pb.SearchResponse.Results (run_response r) = [] /\
     pb.SearchResponse.TotalCount (run_response r) = 0%Z /\
     pb.SearchResponse.PlatformsSuccess (run_response r) = [] /\
     pb.SearchResponse.PlatformsTimeout (run_response r) = [] /\
     pb.SearchResponse.PlatformsError (run_response r) = [] /\
     pb.ResponseMetadata.PlatformsQueried
       (pb.SearchResponse.Metadata (run_response r))
     = int32 (Z.of_nat (length (effective_platforms req)))).
Proof.
  intros Hnone.
  assert (Hd : dispatched h ctx startTime req = [])
    by (unfold dispatched; now apply fan_out_unregistered).
  split.
  - unfold Search. fold (dispatched h ctx startTime req). rewrite Hd.
    cbn. eexists. split; reflexivity.
  - intros schedule r Hr.
    destruct (Search_inv _ _ _ _ _ _ Hr) as (received & Hperm & Hbuild & _).
    rewrite Hd in Hperm. apply Permutation_nil_r in Hperm. subst received.
    rewrite (Search_calls _ _ _ _ _ _ Hr), Hd, Hbuild.
    repeat split.
Qed.

Lemma nothing_registered_witness :
  exists r,
    Search more_examples.no_fetchers [Close; LoopExit] examples.global_ctx 7
      examples.rocq_with_typo = Some r /\
    run_returned_at r = 7%Z.
Proof.
  apply (nothing_registered more_examples.no_fetchers examples.global_ctx 7
           examples.rocq_with_typo).
  repeat constructor; intros [f Hf]; vm_compute in Hf; discriminate.
Defined.

(** X11. Tasks are dispatched in the order of the platform list, one for
    each occurrence of a registered name (repeated names included, names
    that are not registered left out); for a request that passed validation
    the providers called are the effective platform list itself. *)
Theorem dispatch_follows_the_list
    (h : SearchHandler) (schedule : list Event) (ctx : Context)
    (startTime : Z) (req : pb.SearchRequest.t) (r : SearchRun) :
  well_named h ->
  Search h schedule ctx startTime req = Some r ->
  map call_fetcher (run_calls r)
    = filter (registered h) (effective_platforms req) /\
  (forall s w cfg,
     h = NewSearchHandler w cfg -> validateSearchRequest s req = None ->
     map call_fetcher (run_calls r) = effective_platforms req).
Proof.
  intros Hwn Hr.
  assert (Hnames : map call_fetcher (run_calls r)
                   = filter (registered h) (effective_platforms req)).
  { rewrite (Search_calls _ _ _ _ _ _ Hr), map_map. unfold dispatched.
    now apply fan_out_names. }
  split; [exact Hnames |].
  intros s w cfg -> Hvalid. rewrite Hnames.
  apply filter_all. now apply (validated_platforms_registered s).
Qed.

Lemma dispatch_follows_the_list_witness :
  exists r,
    Search (NewSearchHandler examples.healthy examples.cfg)
      (examples.prompt (NewSearchHandler examples.healthy examples.cfg)
         examples.global_ctx examples.rocq_with_typo)
      examples.global_ctx 0 examples.rocq_with_typo = Some r /\
    map call_fetcher (run_calls r)
      = filter (registered (NewSearchHandler examples.healthy examples.cfg))
          ["github"; "bogus"].
Proof.
  destruct (Search (NewSearchHandler examples.healthy examples.cfg)
              (examples.prompt (NewSearchHandler examples.healthy examples.cfg)
                 examples.global_ctx examples.rocq_with_typo)
              examples.global_ctx 0 examples.rocq_with_typo) as [r|] eqn:E;
    [| vm_compute in E; discriminate].
  exists r. split; [reflexivity |].
  exact (proj1 (dispatch_follows_the_list _ _ _ _ _ _
                  (NewSearchHandler_well_named _ _) E)).
Defined.

(** ** The gRPC boundary *)

(** X12. What [FederatedSearch] returns: either a response and no status,
    for a request that validation accepts, or no response and the status of
    the validation, for one it rejects; a rejection is always
    [InvalidArgument], is returned at once and calls no provider.  The
    [Internal] status is never returned. *)
Theorem FederatedSearch_response_or_rejection
    (s : Server) (schedule : list Event) (ctx : Context) (startTime : Z)
    (req : pb.SearchRequest.t) (run : FederatedRun) :
  FederatedSearch s schedule ctx startTime req = Some run ->
  (validateSearchRequest s req = None /\
   fed_status run = None /\ exists resp, fed_response run = Some resp) \/
  (exists st,
     validateSearchRequest s req = Some st /\
     fed_status run = Some st /\ code st = InvalidArgument /\
     fed_response run = None /\ fed_calls run = [] /\
     fed_returned_at run = startTime).
Proof.
  intros Hrun.
  destruct (validateSearchRequest s req) as [st|] eqn:Hv.
  - right. exists st.
    rewrite (rejected_before_any_call _ schedule ctx startTime _ _ Hv) in Hrun.
    injection Hrun as <-. simpl. repeat split.
    revert Hv. unfold validateSearchRequest.
    repeat (match goal with
            | |- context [if ?b then _ else _] => destruct b
            end; [intros [= <-]; reflexivity |]).
    induction (pb.SearchRequest.Platforms req) as [|p ps IH]; simpl;
      [discriminate |].
    destruct (negb _); [intros [= <-]; reflexivity | exact IH].
  - left. split; [reflexivity |].
    destruct (FederatedSearch_validated _ _ _ _ _ _ Hv Hrun)
      as (r & _ & Hresp & Hstatus & _).
    eauto.
Qed.

Lemma FederatedSearch_response_or_rejection_witness :
  exists run st,
    FederatedSearch (NewServer examples.healthy examples.cfg) []
      Background 0 examples.rocq_with_typo = Some run /\
    fed_status run = Some st /\ code st = InvalidArgument /\
    fed_calls run = [].
Proof.
  destruct (FederatedSearch (NewServer examples.healthy examples.cfg) []
              Background 0 examples.rocq_with_typo) as [run|] eqn:E;
    [| vm_compute in E; discriminate].
  destruct (FederatedSearch_response_or_rejection _ _ _ _ _ _ E)
    as [(Hv & _) | (st & _ & Hst & Hcode & _ & Hcalls & _)].
  - vm_compute in Hv. discriminate.
  - exists run, st. auto.
Defined.

(** X13. The requests validation accepts, as the code decides it: the query
    is not empty and at most 500 bytes long, maxResults lies in [0,100], and
    every listed platform is one of github, stackoverflow and reddit (an
    empty list and repeated names are accepted).  The server and its
    configuration play no part. *)
Theorem validation_accepts_exactly (s : Server) (req : pb.SearchRequest.t) :
  validateSearchRequest s req = None <->
  pb.SearchRequest.Query req <> "" /\
  (len (pb.SearchRequest.Query req) <= 500)%Z /\
  (0 <= pb.SearchRequest.MaxResults req <= 100)%Z /\
  (forall p, p ∈ pb.SearchRequest.Platforms req ->
             p = "github" \/ p = "stackoverflow" \/ p = "reddit").
Proof.
  assert (Hknown : forall p,
             p ∈ default_platforms <->
             p = "github" \/ p = "stackoverflow" \/ p = "reddit").
  { intros p. unfold default_platforms.
    rewrite !elem_of_cons, elem_of_nil. tauto. }
  unfold validateSearchRequest.
  destruct (decide (pb.SearchRequest.Query req = "")) as [Hq|Hq].
  { split; [discriminate | tauto]. }
  destruct (Z.ltb_spec 500 (len (pb.SearchRequest.Query req))).
  { split; [discriminate | lia]. }
  destruct (Z.ltb_spec (pb.SearchRequest.MaxResults req) 0).
  { split; [discriminate | lia]. }
  destruct (Z.ltb_spec 100 (pb.SearchRequest.MaxResults req)).
  { split; [discriminate | lia]. }
  rewrite check_platforms_None, Forall_forall.
  split.
  - intros Hall. repeat split; try assumption; try lia.
    intros p Hp. apply Hknown. now apply Hall.
  - intros (_ & _ & _ & Hall) p Hp. apply Hknown. now apply Hall.
Qed.

Lemma check_platforms_first known p rest :
  Forall (fun q => q ∈ default_platforms) known ->
  p ∉ default_platforms ->
  check_platforms (known ++ p :: rest) =
    Some {| code := InvalidArgument;
            message := "invalid platform: " +:+ p
                         +:+ " (valid: github, stackoverflow, reddit)" |}.
Proof.
  intros Hknown Hp. induction Hknown as [|q known Hq _ IH]; simpl.
  - destruct (default false (validPlatforms !! p)) eqn:E; [| reflexivity].
    apply valid_platform in E. contradiction.
  - apply valid_platform in Hq. rewrite Hq. simpl. exact IH.
Qed.

(** X14. When the query and maxResults are in order and some listed
    platform is unknown, the request is rejected with a message that names
    the first unknown platform of the list. *)
Theorem first_unknown_platform_is_reported
    (s : Server) (req : pb.SearchRequest.t)
    (known : list string) (p : string) (rest : list string) :
  pb.SearchRequest.Query req <> "" ->
  (len (pb.SearchRequest.Query req) <= 500)%Z ->
  (0 <= pb.SearchRequest.MaxResults req <= 100)%Z ->
  pb.SearchRequest.Platforms req = known ++ p :: rest ->
  Forall (fun q => q ∈ default_platforms) known ->
  p ∉ default_platforms ->
  validateSearchRequest s req =
    Some {| code := InvalidArgument;
            message := "invalid platform: " +:+ p
                         +:+ " (valid: github, stackoverflow, reddit)" |}.
Proof.
  intros Hq Hlen Hmax Hlist Hknown Hp. unfold validateSearchRequest.
  destruct (decide (pb.SearchRequest.Query req = "")); [contradiction |].
  destruct (Z.ltb_spec 500 (len (pb.SearchRequest.Query req))); [lia |].
  destruct (Z.ltb_spec (pb.SearchRequest.MaxResults req) 0); [lia |].
  destruct (Z.ltb_spec 100 (pb.SearchRequest.MaxResults req)); [lia |].
  rewrite Hlist. now apply check_platforms_first.
Qed.

Lemma first_unknown_platform_is_reported_witness :
  validateSearchRequest (NewServer examples.healthy examples.cfg)
    (examples.request "rocq" 10 ["reddit"; "gitlab"; "bitbucket"]) =
    Some {| code := InvalidArgument;
            message :=
              "invalid platform: gitlab (valid: github, stackoverflow, reddit)" |}.
Proof.
  apply (first_unknown_platform_is_reported
           (NewServer examples.healthy examples.cfg)
           (examples.request "rocq" 10 ["reddit"; "gitlab"; "bitbucket"])
           ["reddit"] "gitlab" ["bitbucket"]).
  - discriminate.
  - vm_compute. discriminate.
  - simpl. lia.
  - reflexivity.
  - repeat constructor.
  - unfold default_platforms. rewrite !elem_of_cons, elem_of_nil.
    intuition discriminate.
Defined.

(** ** TruncateString in its range *)

Section TruncateString_range.

Variable TrimSpace : string -> string.
Hypothesis TrimSpace_shorter :
  forall s, (String.length (TrimSpace s) <= String.length s)%nat.

(** X15. For a limit of at least 3 [TruncateString] always returns: a
    string no longer than the limit and no longer than its argument, on
    which a second truncation with the same limit changes nothing. *)
Theorem TruncateString_in_range (s : string) (maxLength : Z) :
  is_int maxLength -> (3 <= maxLength)%Z ->
  exists t,
    TruncateString TrimSpace s maxLength = Returned t /\
    (len t <= maxLength)%Z /\ (len t <= len s)%Z /\
    TruncateString TrimSpace t maxLength = Returned t.
Proof.
  intros Hint H3.
  destruct (Z.le_gt_cases (len s) maxLength) as [Hfits | Hlong].
  - exists s. rewrite (TruncateString_fits TrimSpace s maxLength Hfits).
    repeat split; lia.
  - destruct (TruncateString_cuts TrimSpace TrimSpace_shorter s maxLength)
      as (t & Ht & Hlen); try assumption; try lia.
    exists (t +:+ "..."). rewrite Ht.
    repeat split; try lia.
    now apply TruncateString_fits.
Qed.

End TruncateString_range.

Lemma TruncateString_in_range_witness :
  exists t,
    TruncateString TrimSpaceASCII "a question | Tags: rocq, stdpp" 16
      = Returned t /\
    (len t <= 16)%Z /\ (len t <= len "a question | Tags: rocq, stdpp")%Z /\
    TruncateString TrimSpaceASCII t 16 = Returned t.
Proof.
  apply (TruncateString_in_range TrimSpaceASCII TrimSpaceASCII_shorter).
  - unfold is_int. lia.
  - lia.
Defined.

Lemma validation_accepts_exactly_witness :
  validateSearchRequest (NewServer examples.healthy examples.cfg)
    examples.rocq_twice = None.
Proof.
  apply (validation_accepts_exactly (NewServer examples.healthy examples.cfg)
           examples.rocq_twice).
  split; [discriminate |]. split; [vm_compute; discriminate |].
  split; [simpl; lia |].
  intros p Hp. simpl in Hp. rewrite !elem_of_cons, elem_of_nil in Hp. tauto.
Defined.

(** ** The three providers *)

Import providers.

Lemma for_each_ok {A B} (f : A -> result B) (P : A -> B -> Prop) (l : list A) :
  (forall x, exists y, f x = Returned y /\ P x y) ->
  exists ys, for_each f l = Returned ys /\ Forall2 P l ys.
Proof.
  intros Hf. induction l as [|x l (ys & Hys & HP)]; simpl.
  - exists []. split; [reflexivity | constructor].
  - destruct (Hf x) as (y & Hy & Hxy). rewrite Hy, Hys.
    exists (y :: ys). split; [reflexivity | now constructor].
Qed.

Lemma for_each_Returned {A B} (f : A -> result B) (l : list A) (ys : list B) :
  for_each f l = Returned ys -> Forall2 (fun x y => f x = Returned y) l ys.
Proof.
  revert ys. induction l as [|x l IH]; simpl; intros ys H.
  - injection H as <-. constructor.
  - destruct (f x) as [y|] eqn:Hy; [| discriminate].
    destruct (for_each f l) as [ys'|]; [| discriminate].
    injection H as <-. constructor; [exact Hy | now apply IH].
Qed.

Lemma Forall2_map_eq {A B C} (f : A -> C) (g : B -> C) (l : list A) (k : list B) :
  Forall2 (fun x y => g y = f x) l k -> map g k = map f l.
Proof. induction 1; simpl; congruence. Qed.

Lemma Forall2_Forall_r {A B} (P : A -> B -> Prop) (Q : B -> Prop) l k :
  Forall2 P l k -> (forall x y, P x y -> Q y) -> Forall Q k.
Proof. induction 1; intros HPQ; constructor; eauto. Qed.

Lemma TruncateString_500 (TrimSpace : string -> string) (s : string) :
  (forall x, (String.length (TrimSpace x) <= String.length x)%nat) ->
  exists t,
    TruncateString TrimSpace s 500 = Returned t /\ (len t <= 500)%Z /\
    ((len s <= 500)%Z -> t = s).
Proof.
  intros Hshort.
  destruct (Z.le_gt_cases (len s) 500) as [Hfits | Hlong].
  - exists s. rewrite (TruncateString_fits TrimSpace s 500 Hfits). auto.
  - destruct (TruncateString_cuts TrimSpace Hshort s 500) as (t & Ht & Hlen);
      try (unfold is_int; lia).
    exists (t +:+ "..."). rewrite Ht. repeat split; [exact Hlen | lia].
Qed.

Lemma failure_keeps_contract name err elapsed :
  keeps_contract name (failure err elapsed).
Proof. split; [reflexivity | constructor]. Qed.

(** X16. What [GitHubFetcher.Fetch] returns.  It returns no error exactly
    when the request is accepted, the service answers with status 200 and
    the body decodes; the results are then the converted items, one for
    each, in order, with the repository's full name, description, URL and
    creation time, under the platform name github.  In every other case it
    returns an error and no result. *)
Theorem GitHub_Fetch_returns
    {Float : Type} (env : Env Float) (g : GitHubFetcher) (k : nat)
    (ctx : Context) (query : string) (maxResults : Z) :
  let ret := GitHub_Fetch env g k ctx query maxResults in
  keeps_contract (GitHub_Name g) ret /\
  (ret_err ret = None <->
     exists answer,
       answered env k (GitHub_request env g ctx query maxResults)
         (decode_github env) answer) /\
  (forall answer,
     answered env k (GitHub_request env g ctx query maxResults)
       (decode_github env) answer ->
     let items := GitHubSearchResponse.Items answer in
     length (ret_results ret) = length items /\
     map SearchResult.Title (ret_results ret) = map GitHubRepository.FullName items /\
     map SearchResult.Snippet (ret_results ret)
       = map GitHubRepository.Description items /\
     map SearchResult.URL (ret_results ret) = map GitHubRepository.HTMLURL items /\
     map SearchResult.Timestamp (ret_results ret)
       = map GitHubRepository.CreatedAt items).
Proof.
  intros ret. subst ret. unfold GitHub_Fetch, answered.
  destruct (GitHub_request env g ctx query maxResults) as [req|err].
  2: { split; [apply failure_keeps_contract |]. split.
       - split; [discriminate | intros (? & ? & ? & [=] & _)].
       - intros ? (? & ? & [=] & _). }
  destruct (ex_result (Do env k req)) as [resp|err] eqn:Hdo.
  2: { split; [apply failure_keeps_contract |]. split.
       - split; [discriminate | intros (? & ? & ? & [= <-] & ? & _); congruence].
       - intros ? (? & ? & [= <-] & ? & _). congruence. }
  destruct (decide (StatusCode resp = 200%Z)) as [Hok|Hbad].
  2: { split; [apply failure_keeps_contract |]. split.
       - split; [discriminate |].
         intros (? & ? & ? & [= <-] & ? & ? & _). congruence.
       - intros ? (? & ? & [= <-] & ? & ? & _). congruence. }
  destruct (decode_github env (Body resp)) as [gh|err] eqn:Hdec.
  2: { split; [apply failure_keeps_contract |]. split.
       - split; [discriminate |].
         intros (? & ? & ? & [= <-] & ? & ? & ?). congruence.
       - intros ? (? & ? & [= <-] & ? & ? & ?). congruence. }
  cbn [ret_results ret_err]. split; [| split].
  - split; [intros H; now elim H |].
    apply Forall_map. apply Forall_forall. reflexivity.
  - split; [intros _ | reflexivity].
    exists gh, req, resp. auto.
  - intros answer (req' & resp' & [= <-] & Hdo' & _ & Hdec').
    assert (resp' = resp) as -> by congruence.
    assert (answer = gh) as -> by congruence.
    cbv zeta. rewrite length_map, !map_map. repeat split.
Qed.

Lemma GitHub_Fetch_returns_witness :
  map SearchResult.Title
    (ret_results (GitHub_Fetch more_examples.lab more_examples.the_github 0
                    examples.global_ctx "stdpp" 20))
  = ["iris/stdpp"].
Proof.
  destruct (GitHub_Fetch_returns more_examples.lab more_examples.the_github 0
              examples.global_ctx "stdpp" 20) as (_ & _ & H).
  destruct (H {| GitHubSearchResponse.TotalCount := 1;
                 GitHubSearchResponse.Items := [more_examples.repository] |})
    as (_ & Htitles & _).
  - eexists. eexists. repeat split; reflexivity.
  - exact Htitles.
Defined.

Lemma StackOverflow_convert_ok {Float} (env : Env Float)
    (item : StackOverflowQuestion.t) :
  (forall x, (String.length (TrimSpace env x) <= String.length x)%nat) ->
  exists r,
    StackOverflow_convert env item = Returned r /\
    (SearchResult.Platform r = "stackoverflow" /\
     SearchResult.Title r = StackOverflowQuestion.Title item /\
     SearchResult.URL r = StackOverflowQuestion.Link item /\
     SearchResult.Timestamp r = StackOverflowQuestion.CreationDate item /\
     (len (SearchResult.Snippet r) <= 500)%Z /\
     ((len (StackOverflow_snippet item) <= 500)%Z ->
        SearchResult.Snippet r = StackOverflow_snippet item)).
Proof.
  intros Hshort. unfold StackOverflow_convert.
  destruct (TruncateString_500 (TrimSpace env) (StackOverflow_snippet item) Hshort)
    as (t & -> & Hlen & Hsame).
  eexists. split; [reflexivity |]. cbn. repeat split; assumption.
Qed.

(** X17. What [StackOverflowFetcher.Fetch] returns (with a [TrimSpace] that
    does not lengthen its argument).  It never panics.  It returns no error
    exactly when the request is accepted, the service answers with status
    200 and the body decodes; the results are then one for each question, in
    order, with its title, link and creation date, under the platform name
    stackoverflow.  Every snippet is at most 500 bytes long, and is the
    title followed by the tags when that fits.  In every other case it
    returns an error and no result. *)
Theorem StackOverflow_Fetch_returns
    {Float : Type} (env : Env Float) (s : StackOverflowFetcher) (k : nat)
    (ctx : Context) (query : string) (maxResults : Z) :
  (forall x, (String.length (TrimSpace env x) <= String.length x)%nat) ->
  exists ret,
    StackOverflow_Fetch env s k ctx query maxResults = Returned ret /\
    keeps_contract (StackOverflow_Name s) ret /\
    Forall (fun r => (len (SearchResult.Snippet r) <= 500)%Z) (ret_results ret) /\
    (ret_err ret = None <->
       exists answer,
         answered env k (StackOverflow_request env s ctx query maxResults)
           (decode_stackoverflow env) answer) /\
    (forall answer,
       answered env k (StackOverflow_request env s ctx query maxResults)
         (decode_stackoverflow env) answer ->
       let items := StackOverflowSearchResponse.Items answer in
       length (ret_results ret) = length items /\
       map SearchResult.Title (ret_results ret)
         = map StackOverflowQuestion.Title items /\
       map SearchResult.URL (ret_results ret)
         = map StackOverflowQuestion.Link items /\
       map SearchResult.Timestamp (ret_results ret)
         = map StackOverflowQuestion.CreationDate items /\
       Forall2 (fun item r =>
                  (len (StackOverflow_snippet item) <= 500)%Z ->
                  SearchResult.Snippet r = StackOverflow_snippet item)
               items (ret_results ret)).
Proof.
  intros Hshort. unfold StackOverflow_Fetch, answered.
  destruct (StackOverflow_request env s ctx query maxResults) as [req|err].
  2: { eexists. split; [reflexivity |].
       split; [apply failure_keeps_contract |]. split; [constructor |]. split.
       - split; [discriminate | intros (? & ? & ? & [=] & _)].
       - intros ? (? & ? & [=] & _). }
  destruct (ex_result (Do env k req)) as [resp|err] eqn:Hdo.
  2: { eexists. split; [reflexivity |].
       split; [apply failure_keeps_contract |]. split; [constructor |]. split.
       - split; [discriminate | intros (? & ? & ? & [= <-] & ? & _); congruence].
       - intros ? (? & ? & [= <-] & ? & _). congruence. }
  destruct (decide (StatusCode resp = 200%Z)) as [Hok|Hbad].
  2: { eexists. split; [reflexivity |].
       split; [apply failure_keeps_contract |]. split; [constructor |]. split.
       - split; [discriminate |].
         intros (? & ? & ? & [= <-] & ? & ? & _). congruence.
       - intros ? (? & ? & [= <-] & ? & ? & _). congruence. }
  destruct (decode_stackoverflow env (Body resp)) as [so|err] eqn:Hdec.
  2: { eexists. split; [reflexivity |].
       split; [apply failure_keeps_contract |]. split; [constructor |]. split.
       - split; [discriminate |].
         intros (? & ? & ? & [= <-] & ? & ? & ?). congruence.
       - intros ? (? & ? & [= <-] & ? & ? & ?). congruence. }
  destruct (for_each_ok (StackOverflow_convert env) _
              (StackOverflowSearchResponse.Items so)
              (fun item => StackOverflow_convert_ok env item Hshort))
    as (results & -> & Hall).
  eexists. split; [reflexivity |]. cbn [ret_results ret_err].
  split; [| split; [| split]].
  - split; [intros H; now elim H |].
    eapply Forall2_Forall_r; [exact Hall |]. cbn. intros ? ? H. apply H.
  - eapply Forall2_Forall_r; [exact Hall |]. cbn. intros ? ? H. apply H.
  - split; [intros _ | reflexivity]. exists so, req, resp. auto.
  - intros answer (req' & resp' & [= <-] & Hdo' & _ & Hdec').
    assert (resp' = resp) as -> by congruence.
    assert (answer = so) as -> by congruence.
    cbv zeta. split; [symmetry; eapply Forall2_length; exact Hall |].
    split; [apply Forall2_map_eq; eapply Forall2_impl; [exact Hall |];
            cbn; intros ? ? H; apply H |].
    split; [apply Forall2_map_eq; eapply Forall2_impl; [exact Hall |];
            cbn; intros ? ? H; apply H |].
    split; [apply Forall2_map_eq; eapply Forall2_impl; [exact Hall |];
            cbn; intros ? ? H; apply H |].
    eapply Forall2_impl; [exact Hall |]. cbn. intros ? ? H. apply H.
Qed.

Lemma StackOverflow_Fetch_returns_witness :
  exists ret,
    StackOverflow_Fetch more_examples.lab more_examples.the_stackoverflow 0
      examples.global_ctx "fold" 20 = Returned ret /\
    Forall (fun r => (len (SearchResult.Snippet r) <= 500)%Z) (ret_results ret).
Proof.
  destruct (StackOverflow_Fetch_returns more_examples.lab
              more_examples.the_stackoverflow 0 examples.global_ctx "fold" 20
              TrimSpaceASCII_shorter) as (ret & Hret & _ & Hsnip & _).
  exists ret. split; assumption.
Defined.

Lemma Reddit_convert_ok {Float} (env : Env Float) (child : RedditChild.t Float) :
  (forall x, (String.length (TrimSpace env x) <= String.length x)%nat) ->
  exists r,
    Reddit_convert env child = Returned r /\
    (SearchResult.Platform r = "reddit" /\
     SearchResult.Title r = RedditPost.Title (RedditChild.Data child) /\
     SearchResult.URL r
       = "https://www.reddit.com" +:+ RedditPost.Permalink (RedditChild.Data child) /\
     SearchResult.Timestamp r
       = int64_of_float64 env (RedditPost.CreatedUTC (RedditChild.Data child)) /\
     (len (SearchResult.Snippet r) <= 500)%Z /\
     ((len (Reddit_snippet (RedditChild.Data child)) <= 500)%Z ->
        SearchResult.Snippet r = Reddit_snippet (RedditChild.Data child))).
Proof.
  intros Hshort. unfold Reddit_convert.
  destruct (TruncateString_500 (TrimSpace env)
              (Reddit_snippet (RedditChild.Data child)) Hshort)
    as (t & -> & Hlen & Hsame).
  eexists. split; [reflexivity |]. cbn. repeat split; assumption.
Qed.

(** X18. What [RedditFetcher.Fetch] returns (with a [TrimSpace] that does
    not lengthen its argument).  It never panics.  It returns no error
    exactly when the request is accepted, the service answers with status
    200 and the body decodes; the results are then one for each post, in
    order, with its title, its permalink on www.reddit.com and its creation
    time, under the platform name reddit.  Every snippet is at most 500
    bytes long; it is the post's text, or its title when the text is empty,
    when that fits.  In every other case it returns an error and no
    result. *)
Theorem Reddit_Fetch_returns
    {Float : Type} (env : Env Float) (r : RedditFetcher) (k : nat)
    (ctx : Context) (query : string) (maxResults : Z) :
  (forall x, (String.length (TrimSpace env x) <= String.length x)%nat) ->
  exists ret,
    Reddit_Fetch env r k ctx query maxResults = Returned ret /\
    keeps_contract (Reddit_Name r) ret /\
    Forall (fun res => (len (SearchResult.Snippet res) <= 500)%Z) (ret_results ret) /\
    (ret_err ret = None <->
       exists answer,
         answered env k (Reddit_request env r ctx query maxResults)
           (decode_reddit env) answer) /\
    (forall answer,
       answered env k (Reddit_request env r ctx query maxResults)
         (decode_reddit env) answer ->
       let posts := map RedditChild.Data (RedditSearchResponse.Children answer) in
       length (ret_results ret) = length posts /\
       map SearchResult.Title (ret_results ret) = map RedditPost.Title posts /\
       map SearchResult.URL (ret_results ret)
         = map (fun post => "https://www.reddit.com" +:+ RedditPost.Permalink post)
               posts /\
       map SearchResult.Timestamp (ret_results ret)
         = map (fun post => int64_of_float64 env (RedditPost.CreatedUTC post))
               posts /\
       Forall2 (fun post res =>
                  let text := if decide (RedditPost.Selftext post = "")
                              then RedditPost.Title post
                              else RedditPost.Selftext post in
                  (len text <= 500)%Z -> SearchResult.Snippet res = text)
               posts (ret_results ret)).
Proof.
  intros Hshort. unfold Reddit_Fetch, answered.
  destruct (Reddit_request env r ctx query maxResults) as [req|err].
  2: { eexists. split; [reflexivity |].
       split; [apply failure_keeps_contract |]. split; [constructor |]. split.
       - split; [discriminate | intros (? & ? & ? & [=] & _)].
       - intros ? (? & ? & [=] & _). }
  destruct (ex_result (Do env k req)) as [resp|err] eqn:Hdo.
  2: { eexists. split; [reflexivity |].
       split; [apply failure_keeps_contract |]. split; [constructor |]. split.
       - split; [discriminate | intros (? & ? & ? & [= <-] & ? & _); congruence].
       - intros ? (? & ? & [= <-] & ? & _). congruence. }
  destruct (decide (StatusCode resp = 200%Z)) as [Hok|Hbad].
  2: { eexists. split; [reflexivity |].
       split; [apply failure_keeps_contract |]. split; [constructor |]. split.
       - split; [discriminate |].
         intros (? & ? & ? & [= <-] & ? & ? & _). congruence.
       - intros ? (? & ? & [= <-] & ? & ? & _). congruence. }
  destruct (decode_reddit env (Body resp)) as [rd|err] eqn:Hdec.
  2: { eexists. split; [reflexivity |].
       split; [apply failure_keeps_contract |]. split; [constructor |]. split.
       - split; [discriminate |].
         intros (? & ? & ? & [= <-] & ? & ? & ?). congruence.
       - intros ? (? & ? & [= <-] & ? & ? & ?). congruence. }
  destruct (for_each_ok (Reddit_convert env) _
              (RedditSearchResponse.Children rd)
              (fun child => Reddit_convert_ok env child Hshort))
    as (results & -> & Hall).
  eexists. split; [reflexivity |]. cbn [ret_results ret_err].
  split; [| split; [| split]].
  - split; [intros H; now elim H |].
    eapply Forall2_Forall_r; [exact Hall |]. cbn. intros ? ? H. apply H.
  - eapply Forall2_Forall_r; [exact Hall |]. cbn. intros ? ? H. apply H.
  - split; [intros _ | reflexivity]. exists rd, req, resp. auto.
  - intros answer (req' & resp' & [= <-] & Hdo' & _ & Hdec').
    assert (resp' = resp) as -> by congruence.
    assert (answer = rd) as -> by congruence.
    cbv zeta. rewrite length_map, !map_map.
    split; [symmetry; eapply Forall2_length; exact Hall |].
    split; [apply Forall2_map_eq; eapply Forall2_impl; [exact Hall |];
            cbn; intros ? ? H; apply H |].
    split; [apply Forall2_map_eq; eapply Forall2_impl; [exact Hall |];
            cbn; intros ? ? H; apply H |].
    split; [apply Forall2_map_eq; eapply Forall2_impl; [exact Hall |];
            cbn; intros ? ? H; apply H |].
    apply Forall2_fmap_l.
    eapply Forall2_impl; [exact Hall |]. cbn. intros ? ? H. apply H.
Qed.

Lemma Reddit_Fetch_returns_witness :
  exists ret,
    Reddit_Fetch more_examples.lab more_examples.the_reddit 0
      examples.global_ctx "rocq" 20 = Returned ret /\
    Forall (fun res => (len (SearchResult.Snippet res) <= 500)%Z) (ret_results ret).
Proof.
  destruct (Reddit_Fetch_returns more_examples.lab more_examples.the_reddit 0
              examples.global_ctx "rocq" 20 TrimSpaceASCII_shorter)
    as (ret & Hret & _ & Hsnip & _).
  exists ret. split; assumption.
Defined.

(** X19. The requests of the three providers.  Each is a GET under the
    task's context.  GitHub's carries the token as a bearer authorization
    when there is one, and no header at all when there is none.
    StackOverflow's carries the Accept header only.  Reddit's carries the
    user agent and the Accept header, and nothing else of the fetcher: two
    Reddit fetchers with the same user agent make the same request, whatever
    their client id, client secret and base URL. *)
Theorem requests_of_the_providers
    {Float : Type} (env : Env Float) (g : GitHubFetcher)
    (s : StackOverflowFetcher) (r : RedditFetcher)
    (ctx : Context) (query : string) (maxResults : Z) :
  (forall req,
     GitHub_request env g ctx query maxResults = inl req ->
     req_ctx req = ctx /\ req_method req = "GET" /\
     (github_apiToken g = "" -> req_header req = ∅) /\
     (github_apiToken g <> "" ->
        req_header req !! "Authorization"
          = Some ("Bearer " +:+ github_apiToken g))) /\
  (forall req,
     StackOverflow_request env s ctx query maxResults = inl req ->
     req_ctx req = ctx /\ req_method req = "GET" /\
     req_header req = <["Accept" := "application/json"]> ∅) /\
  (forall req,
     Reddit_request env r ctx query maxResults = inl req ->
     req_ctx req = ctx /\ req_method req = "GET" /\
     req_header req
       = <["Accept" := "application/json"]>
           (<["User-Agent" := reddit_userAgent r]> ∅) /\
     forall r',
       reddit_userAgent r' = reddit_userAgent r ->
       Reddit_request env r' ctx query maxResults = inl req).
Proof.
  split; [| split].
  - intros req. unfold GitHub_request, NewRequestWithContext.
    destruct (NewRequest_error env _ _); [discriminate |].
    destruct (decide (github_apiToken g = "")) as [He|Hne];
      intros [= <-]; cbn; repeat split; congruence.
  - intros req. unfold StackOverflow_request, NewRequestWithContext.
    destruct (NewRequest_error env _ _); [discriminate |].
    intros [= <-]. cbn. repeat split.
  - intros req. unfold Reddit_request, NewRequestWithContext.
    destruct (NewRequest_error env _ _) eqn:E; [discriminate |].
    intros [= <-]. cbn. repeat split.
    intros r' ->. reflexivity.
Qed.

Lemma requests_of_the_providers_witness :
  exists req,
    Reddit_request more_examples.lab more_examples.the_reddit
      examples.global_ctx "rocq" 20 = inl req /\
    Reddit_request more_examples.lab
      {| reddit_clientID := "id"; reddit_clientSecret := "secret";
         reddit_userAgent := "FederatedSearchEngine/1.0";
         reddit_baseURL := "https://example.org" |}
      examples.global_ctx "rocq" 20 = inl req.
Proof.
  destruct (Reddit_request more_examples.lab more_examples.the_reddit
              examples.global_ctx "rocq" 20) as [req|err] eqn:E;
    [| vm_compute in E; discriminate].
  exists req. split; [reflexivity |].
  destruct (requests_of_the_providers more_examples.lab more_examples.the_github
              more_examples.the_stackoverflow more_examples.the_reddit
              examples.global_ctx "rocq" 20) as (_ & _ & H).
  destruct (H req E) as (_ & _ & _ & Hsame).
  apply Hsame. reflexivity.
Defined.

(** ** The providers under the orchestrator *)

Lemma GitHub_Fetch_good {Float} (env : Env Float) g k ctx query maxResults :
  keeps_contract "github" (GitHub_Fetch env g k ctx query maxResults).
Proof.
  unfold GitHub_Fetch.
  destruct (GitHub_request env g ctx query maxResults);
    [| apply failure_keeps_contract].
  destruct (ex_result _); [| apply failure_keeps_contract].
  destruct (decide _); [| apply failure_keeps_contract].
  destruct (decode_github env _); [| apply failure_keeps_contract].
  split; [intros H; now elim H |].
  cbn. apply Forall_map, Forall_forall. reflexivity.
Qed.

Lemma StackOverflow_Fetch_good {Float} (env : Env Float) s k ctx query maxResults ret :
  (forall x, (String.length (TrimSpace env x) <= String.length x)%nat) ->
  StackOverflow_Fetch env s k ctx query maxResults = Returned ret ->
  keeps_contract "stackoverflow" ret /\
  Forall (fun r => (len (SearchResult.Snippet r) <= 500)%Z) (ret_results ret).
Proof.
  intros Hshort. unfold StackOverflow_Fetch.
  destruct (StackOverflow_request env s ctx query maxResults);
    [| intros [= <-]; split; [apply failure_keeps_contract | constructor]].
  destruct (ex_result _);
    [| intros [= <-]; split; [apply failure_keeps_contract | constructor]].
  destruct (decide _);
    [| intros [= <-]; split; [apply failure_keeps_contract | constructor]].
  destruct (decode_stackoverflow env _) as [so|];
    [| intros [= <-]; split; [apply failure_keeps_contract | constructor]].
  destruct (for_each _ _) as [results|] eqn:Hfor; [| discriminate].
  intros [= <-]. cbn.
  apply for_each_Returned in Hfor.
  assert (Hall : Forall (fun r => SearchResult.Platform r = "stackoverflow" /\
                                  (len (SearchResult.Snippet r) <= 500)%Z) results).
  { eapply Forall2_Forall_r; [exact Hfor |]. cbn. intros item sr Hsr.
    destruct (StackOverflow_convert_ok env item Hshort)
      as (sr' & Hsr' & Hp & _ & _ & _ & Hl & _).
    rewrite Hsr in Hsr'. injection Hsr' as <-. auto. }
  split; [split; [intros H; now elim H |] |];
    (eapply Forall_impl; [exact Hall |]); cbn; tauto.
Qed.

Lemma Reddit_Fetch_good {Float} (env : Env Float) r k ctx query maxResults ret :
  (forall x, (String.length (TrimSpace env x) <= String.length x)%nat) ->
  Reddit_Fetch env r k ctx query maxResults = Returned ret ->
  keeps_contract "reddit" ret /\
  Forall (fun res => (len (SearchResult.Snippet res) <= 500)%Z) (ret_results ret).
Proof.
  intros Hshort. unfold Reddit_Fetch.
  destruct (Reddit_request env r ctx query maxResults);
    [| intros [= <-]; split; [apply failure_keeps_contract | constructor]].
  destruct (ex_result _);
    [| intros [= <-]; split; [apply failure_keeps_contract | constructor]].
  destruct (decide _);
    [| intros [= <-]; split; [apply failure_keeps_contract | constructor]].
  destruct (decode_reddit env _) as [rd|];
    [| intros [= <-]; split; [apply failure_keeps_contract | constructor]].
  destruct (for_each _ _) as [results|] eqn:Hfor; [| discriminate].
  intros [= <-]. cbn.
  apply for_each_Returned in Hfor.
  assert (Hall : Forall (fun res => SearchResult.Platform res = "reddit" /\
                                    (len (SearchResult.Snippet res) <= 500)%Z) results).
  { eapply Forall2_Forall_r; [exact Hfor |]. cbn. intros child sr Hsr.
    destruct (Reddit_convert_ok env child Hshort)
      as (sr' & Hsr' & Hp & _ & _ & _ & Hl & _).
    rewrite Hsr in Hsr'. injection Hsr' as <-. auto. }
  split; [split; [intros H; now elim H |] |];
    (eapply Forall_impl; [exact Hall |]); cbn; tauto.
Qed.

Lemma fan_out_Forall (Q : Goroutine -> Prop) h ctx query maxResults startTime
    platforms k :
  (forall p f j,
     handlers.fetchers h !! p = Some f ->
     Q (fetchFromPlatform h j ctx f query maxResults startTime)) ->
  Forall Q (fan_out h ctx query maxResults startTime platforms k).
Proof.
  intros HQ. revert k.
  induction platforms as [|p ps IH]; intros k; simpl; [constructor |].
  destruct (handlers.fetchers h !! p) as [f|] eqn:E; [| apply IH].
  constructor; [eapply HQ; exact E | apply IH].
Qed.

Lemma provided_outcomes {Float} (env : Env Float) cfg w ctx startTime req :
  provided env cfg w ->
  (forall x, (String.length (TrimSpace env x) <= String.length x)%nat) ->
  Forall (fun g =>
            Forall (fun sr =>
                      SearchResult.Platform sr = FetchResult.Platform (g_result g) /\
                      (SearchResult.Platform sr <> "github" ->
                       (len (SearchResult.Snippet sr) <= 500)%Z))
                   (FetchResult.Results (g_result g)))
         (dispatched (NewSearchHandler w cfg) ctx startTime req).
Proof.
  intros (Hgh & Hso & Hrd) Hshort. unfold dispatched.
  apply fan_out_Forall. intros p f j Hf.
  unfold fetchFromPlatform.
  set (tctx := WithTimeout ctx startTime _).
  set (query := pb.SearchRequest.Query req).
  set (maxResults := effective_maxResults _ req).
  assert (Hgood : keeps_contract (Name f) (Fetch f j tctx query maxResults) /\
                  (Name f <> "github" ->
                   Forall (fun r => (len (SearchResult.Snippet r) <= 500)%Z)
                     (ret_results (Fetch f j tctx query maxResults)))).
  { rewrite NewSearchHandler_lookup in Hf.
    repeat case_decide; try discriminate; injection Hf as <-; cbn [Name Fetch].
    - specialize (Hrd j tctx query maxResults).
      destruct (Reddit_Fetch_good _ _ _ _ _ _ _ Hshort Hrd). auto.
    - specialize (Hso j tctx query maxResults).
      destruct (StackOverflow_Fetch_good _ _ _ _ _ _ _ Hshort Hso). auto.
    - specialize (Hgh j tctx query maxResults).
      injection Hgh as Hgh. split; [| intros Hne; now elim Hne].
      change (keeps_contract "github" (github_api w j tctx query maxResults)).
      rewrite <- Hgh. apply GitHub_Fetch_good. }
  destruct Hgood as ((Hnil & Hplat) & Hsnip).
  unfold classify. cbn [g_result].
  destruct (ret_err _) as [e|]; cbn; [constructor |].
  apply Forall_forall. intros sr Hsr. split.
  - rewrite Forall_forall in Hplat. now apply Hplat.
  - intros Hne. assert (Hnf : Name f <> "github").
    { rewrite Forall_forall in Hplat. rewrite <- (Hplat sr Hsr). exact Hne. }
    specialize (Hsnip Hnf). rewrite Forall_forall in Hsnip. now apply Hsnip.
Qed.

(** X20. With the three providers behind it, [Search] answers with results
    that each come from a provider named in the success list; the results
    of StackOverflow and Reddit have snippets of at most 500 bytes (those of
    GitHub carry the repository's description as it came). *)
Theorem results_come_from_successful_providers
    {Float : Type} (env : Env Float) (cfg : Config) (w : World)
    (schedule : list Event) (ctx : Context) (startTime : Z)
    (req : pb.SearchRequest.t) (r : SearchRun) :
  provided env cfg w ->
  (forall x, (String.length (TrimSpace env x) <= String.length x)%nat) ->
  Search (NewSearchHandler w cfg) schedule ctx startTime req = Some r ->
  Forall (fun res =>
            pb.Result.Platform res
              ∈ pb.SearchResponse.PlatformsSuccess (run_response r) /\
            (pb.Result.Platform res <> "github" ->
             (len (pb.Result.Snippet res) <= 500)%Z))
         (pb.SearchResponse.Results (run_response r)).
Proof.
  intros Hprov Hshort Hr.
  destruct (Search_inv _ _ _ _ _ _ Hr) as (received & Hperm & -> & _).
  pose proof (provided_outcomes env cfg w ctx startTime req Hprov Hshort) as Hall.
  apply (Forall_map g_result
           (fun fr => Forall (fun sr =>
                        SearchResult.Platform sr = FetchResult.Platform fr /\
                        (SearchResult.Platform sr <> "github" ->
                         (len (SearchResult.Snippet sr) <= 500)%Z))
                      (FetchResult.Results fr))) in Hall.
  rewrite <- Hperm in Hall.
  unfold collect. rewrite fold_collect_spec. cbn.
  apply Forall_forall. intros res Hres.
  apply list_elem_of_In, in_concat in Hres as (rs & Hrs & Hin).
  apply in_map_iff in Hrs as (fr & <- & Hfr).
  apply in_map_iff in Hin as (sr & <- & Hsr).
  apply list_elem_of_In in Hfr, Hsr.
  apply list_elem_of_filter in Hfr as [Hsucc Hfr].
  rewrite Forall_forall in Hall. specialize (Hall fr Hfr).
  rewrite Forall_forall in Hall.
  destruct (Hall sr Hsr) as [Hplat Hsnip].
  cbn. split; [| exact Hsnip].
  rewrite Hplat. apply list_elem_of_In, in_map.
  apply list_elem_of_In, list_elem_of_filter. auto.
Qed.

Lemma StackOverflow_Fetch_total {Float} (env : Env Float) s k ctx query maxResults :
  (forall x, (String.length (TrimSpace env x) <= String.length x)%nat) ->
  exists ret, StackOverflow_Fetch env s k ctx query maxResults = Returned ret.
Proof.
  intros Hshort. unfold StackOverflow_Fetch.
  destruct (StackOverflow_request env s ctx query maxResults); [| eauto].
  destruct (ex_result _); [| eauto].
  destruct (decide _); [| eauto].
  destruct (decode_stackoverflow env _) as [so|]; [| eauto].
  destruct (for_each_ok (StackOverflow_convert env) (fun _ _ => True)
              (StackOverflowSearchResponse.Items so)) as (results & -> & _);
    [| eauto].
  intros item. destruct (StackOverflow_convert_ok env item Hshort) as (sr & -> & _).
  eauto.
Qed.

Lemma Reddit_Fetch_total {Float} (env : Env Float) r k ctx query maxResults :
  (forall x, (String.length (TrimSpace env x) <= String.length x)%nat) ->
  exists ret, Reddit_Fetch env r k ctx query maxResults = Returned ret.
Proof.
  intros Hshort. unfold Reddit_Fetch.
  destruct (Reddit_request env r ctx query maxResults); [| eauto].
  destruct (ex_result _); [| eauto].
  destruct (decide _); [| eauto].
  destruct (decode_reddit env _) as [rd|]; [| eauto].
  destruct (for_each_ok (Reddit_convert env) (fun _ _ => True)
              (RedditSearchResponse.Children rd)) as (results & -> & _);
    [| eauto].
  intros child. destruct (Reddit_convert_ok env child Hshort) as (sr & -> & _).
  eauto.
Qed.

Lemma lab_provided :
  provided more_examples.lab examples.cfg more_examples.lab_world.
Proof.
  split; [| split]; intros k ctx query maxResults; cbn.
  - reflexivity.
  - destruct (StackOverflow_Fetch_total more_examples.lab
                more_examples.the_stackoverflow k ctx query maxResults
                TrimSpaceASCII_shorter) as (ret & Hret).
    change (StackOverflow_Fetch more_examples.lab more_examples.the_stackoverflow
              k ctx query maxResults
            = Returned (more_examples.returned_or
                          (StackOverflow_Fetch more_examples.lab
                             more_examples.the_stackoverflow k ctx query maxResults))).
    rewrite Hret. reflexivity.
  - destruct (Reddit_Fetch_total more_examples.lab more_examples.the_reddit
                k ctx query maxResults TrimSpaceASCII_shorter) as (ret & Hret).
    change (Reddit_Fetch more_examples.lab more_examples.the_reddit
              k ctx query maxResults
            = Returned (more_examples.returned_or
                          (Reddit_Fetch more_examples.lab more_examples.the_reddit
                             k ctx query maxResults))).
    rewrite Hret. reflexivity.
Qed.

Lemma results_come_from_successful_providers_witness :
  exists r,
    Search (NewSearchHandler more_examples.lab_world examples.cfg)
      (examples.prompt (NewSearchHandler more_examples.lab_world examples.cfg)
         examples.global_ctx examples.rocq_everywhere)
      examples.global_ctx 0 examples.rocq_everywhere = Some r /\
    length (pb.SearchResponse.Results (run_response r)) = 3 /\
    Forall (fun res =>
              pb.Result.Platform res
                ∈ pb.SearchResponse.PlatformsSuccess (run_response r) /\
              (pb.Result.Platform res <> "github" ->
               (len (pb.Result.Snippet res) <= 500)%Z))
           (pb.SearchResponse.Results (run_response r)).
Proof.
  destruct (Search (NewSearchHandler more_examples.lab_world examples.cfg)
              (examples.prompt
                 (NewSearchHandler more_examples.lab_world examples.cfg)
                 examples.global_ctx examples.rocq_everywhere)
              examples.global_ctx 0 examples.rocq_everywhere) as [r|] eqn:E;
    [| vm_compute in E; discriminate].
  exists r. split; [reflexivity |]. split.
  - vm_compute in E. injection E as <-. reflexivity.
  - exact (results_come_from_successful_providers more_examples.lab examples.cfg
             more_examples.lab_world _ _ _ _ _ lab_provided
             TrimSpaceASCII_shorter E).
Defined.

(** ** Loading the configuration *)

Import environment.

Section Load_spec.

Variable Atoi : string -> Z + string.
Variable ParseBool : string -> bool + string.

Lemma getEnv_nonempty env key defaultValue :
  defaultValue <> "" -> getEnv env key defaultValue <> "".
Proof. intros Hd. unfold getEnv. now destruct (decide _). Qed.

(** X21. [Load] never fails: for every environment and every file [.env]
    it returns a configuration and no error.  The port, the three base
    URLs, the user agent and the logging settings are never empty, whatever
    the environment and the file hold. *)
Theorem Load_never_fails (dotenv env : gmap string string) :
  exists c,
    Load Atoi ParseBool dotenv env = (Some c, None) /\
    GRPCPort (config.Server (settings c)) <> "" /\
    GitHub_BaseURL (GitHub (settings c)) <> "" /\
    StackOverflow_BaseURL (StackOverflow (settings c)) <> "" /\
    Reddit_BaseURL (Reddit (settings c)) <> "" /\
    UserAgent (Reddit (settings c)) <> "" /\
    Level (Logging c) <> "" /\ Format (Logging c) <> "".
Proof.
  unfold Load, Validate. eexists. split; [reflexivity |].
  cbn. repeat split; apply getEnv_nonempty; discriminate.
Qed.

Lemma getters_read_Getenv env1 env2 key :
  Getenv env1 key = Getenv env2 key ->
  (forall d, getEnv env1 key d = getEnv env2 key d) /\
  (forall d, getIntEnv Atoi env1 key d = getIntEnv Atoi env2 key d) /\
  (forall d, getBoolEnv ParseBool env1 key d = getBoolEnv ParseBool env2 key d) /\
  (forall d, getDurationEnv Atoi env1 key d = getDurationEnv Atoi env2 key d).
Proof.
  intros H. unfold getEnv, getIntEnv, getBoolEnv, getDurationEnv.
  rewrite H. repeat split.
Qed.

Ltac is_load_key :=
  apply list_elem_of_In; simpl;
  repeat (first [left; reflexivity | right]).

Lemma Load_ext dotenv1 env1 dotenv2 env2 :
  (forall key, key ∈ load_keys ->
     Getenv (godotenv_Load dotenv1 env1) key
     = Getenv (godotenv_Load dotenv2 env2) key) ->
  Load Atoi ParseBool dotenv1 env1 = Load Atoi ParseBool dotenv2 env2.
Proof.
  intros H. unfold Load.
  generalize dependent (godotenv_Load dotenv2 env2).
  generalize (godotenv_Load dotenv1 env1). clear.
  intros vars1 vars2 H.
  assert (Hk : forall key, key ∈ load_keys ->
             (forall d, getEnv vars1 key d = getEnv vars2 key d) /\
             (forall d, getIntEnv Atoi vars1 key d = getIntEnv Atoi vars2 key d) /\
             (forall d, getBoolEnv ParseBool vars1 key d
                        = getBoolEnv ParseBool vars2 key d) /\
             (forall d, getDurationEnv Atoi vars1 key d
                        = getDurationEnv Atoi vars2 key d)).
  { intros key Hkey. apply getters_read_Getenv. now apply H. }
  cbv zeta.
  repeat match goal with
         | |- context [getEnv vars1 ?key ?d] =>
             rewrite (proj1 (Hk key ltac:(is_load_key)) d)
         | |- context [getIntEnv Atoi vars1 ?key ?d] =>
             rewrite (proj1 (proj2 (Hk key ltac:(is_load_key))) d)
         | |- context [getBoolEnv ParseBool vars1 ?key ?d] =>
             rewrite (proj1 (proj2 (proj2 (Hk key ltac:(is_load_key)))) d)
         | |- context [getDurationEnv Atoi vars1 ?key ?d] =>
             rewrite (proj2 (proj2 (proj2 (Hk key ltac:(is_load_key)))) d)
         end.
  reflexivity.
Qed.

Lemma Getenv_godotenv dotenv env key :
  Getenv (godotenv_Load dotenv env) key =
    match env !! key with
    | Some value => value
    | None => Getenv dotenv key
    end.
Proof.
  unfold Getenv, godotenv_Load.
  destruct (env !! key) as [value|] eqn:E.
  - now rewrite (lookup_union_Some_l _ _ _ _ E).
  - now rewrite lookup_union_r.
Qed.

(** X22. What [Load] reads.  It depends on the process environment and on
    the file [.env] through its seventeen variables only: any other
    variable, set in the environment or in the file, changes nothing.  The
    file never overrides a variable that is set in the environment, be it
    set to the empty string; a variable that is not set takes the entry of
    the file, as if it had been set to it.  So a variable set to the empty
    string is as good as one that is not set only where the file has no
    entry for it: with an entry for LOG_LEVEL in the file, the level is the
    default when the variable is set to the empty string, and the entry
    when it is not set. *)
Theorem Load_reads_its_variables (dotenv env : gmap string string) :
  (forall dotenv' env',
     (forall key, key ∈ load_keys ->
        Getenv (godotenv_Load dotenv env) key
        = Getenv (godotenv_Load dotenv' env') key) ->
     Load Atoi ParseBool dotenv env = Load Atoi ParseBool dotenv' env') /\
  (forall key value,
     key ∉ load_keys ->
     Load Atoi ParseBool dotenv (<[key := value]> env)
       = Load Atoi ParseBool dotenv env /\
     Load Atoi ParseBool (<[key := value]> dotenv) env
       = Load Atoi ParseBool dotenv env) /\
  (forall key value,
     is_Some (env !! key) ->
     Load Atoi ParseBool (<[key := value]> dotenv) env
       = Load Atoi ParseBool dotenv env) /\
  (forall key value,
     env !! key = None -> dotenv !! key = Some value ->
     Load Atoi ParseBool dotenv (<[key := value]> env)
       = Load Atoi ParseBool dotenv env) /\
  (forall key,
     env !! key = Some "" -> Getenv dotenv key = "" ->
     Load Atoi ParseBool dotenv (delete key env)
       = Load Atoi ParseBool dotenv env) /\
  (forall value c unset,
     env !! "LOG_LEVEL" = Some "" ->
     dotenv !! "LOG_LEVEL" = Some value -> value <> "" ->
     Load Atoi ParseBool dotenv env = (Some c, None) ->
     Load Atoi ParseBool dotenv (delete "LOG_LEVEL" env) = (Some unset, None) ->
     Level (Logging c) = "info" /\ Level (Logging unset) = value).
Proof.
  split; [| split; [| split; [| split; [| split]]]].
  - intros dotenv' env'. apply Load_ext.
  - intros key value Hkey. split; apply Load_ext; intros k Hk;
      rewrite !Getenv_godotenv.
    + rewrite lookup_insert_ne by congruence. reflexivity.
    + unfold Getenv. rewrite lookup_insert_ne by congruence. reflexivity.
  - intros key value [v Hv]. apply Load_ext. intros k _.
    rewrite !Getenv_godotenv. unfold Getenv.
    destruct (decide (key = k)) as [<- | Hne].
    + now rewrite Hv.
    + now rewrite lookup_insert_ne.
  - intros key value Henv Hfile. apply Load_ext. intros k _.
    rewrite !Getenv_godotenv.
    destruct (decide (key = k)) as [<- | Hne].
    + rewrite lookup_insert_eq, Henv. unfold Getenv. now rewrite Hfile.
    + now rewrite lookup_insert_ne.
  - intros key Hempty Hfile. apply Load_ext. intros k _.
    rewrite !Getenv_godotenv.
    destruct (decide (key = k)) as [<- | Hne].
    + now rewrite lookup_delete_eq, Hempty, Hfile.
    + now rewrite lookup_delete_ne.
  - intros value c unset Hempty Hfile Hvalue.
    unfold Load, Validate. intros [= <-] [= <-]. cbn. unfold getEnv.
    rewrite !Getenv_godotenv, Hempty, lookup_delete_eq.
    unfold Getenv. rewrite Hfile. cbn.
    split; [reflexivity |]. now destruct (decide (value = "")).
Qed.

Lemma getDurationEnv_default env key d :
  unusable Atoi env key -> getDurationEnv Atoi env key d = d.
Proof.
  unfold getDurationEnv. intros [-> | (err & ->)].
  - reflexivity.
  - now destruct (decide _).
Qed.

Lemma getDurationEnv_parsed env key d n :
  Getenv env key <> "" -> Atoi (Getenv env key) = inl n ->
  getDurationEnv Atoi env key d = n.
Proof.
  unfold getDurationEnv. intros Hne ->.
  destruct (decide _); [contradiction | reflexivity].
Qed.

(** X23. The timeouts [Load] yields, from the variables as [os.Getenv]
    returns them once [godotenv.Load] has run.  A timeout variable that is
    not set, empty or not a number leaves the default: 500 ms for the server
    and 400 ms for each API, so that the per-API timeout is the shorter one.
    A variable that holds the number [n] gives [n] milliseconds, exactly so
    as long as [n] milliseconds fit a 64-bit count of nanoseconds; [n] is
    not checked in any way (zero and negative numbers are taken as they
    come). *)
Theorem timeouts_from_the_environment
    (dotenv env : gmap string string) (c : Loaded) :
  Load Atoi ParseBool dotenv env = (Some c, None) ->
  let vars := godotenv_Load dotenv env in
  let server := ServerTimeout (config.Server (settings c)) in
  let perAPI := PerAPITimeout (config.Server (settings c)) in
  (unusable Atoi vars "SERVER_TIMEOUT_MS" -> server = (500 * Millisecond)%Z) /\
  (unusable Atoi vars "PER_API_TIMEOUT_MS" -> perAPI = (400 * Millisecond)%Z) /\
  (unusable Atoi vars "SERVER_TIMEOUT_MS" ->
   unusable Atoi vars "PER_API_TIMEOUT_MS" -> (perAPI < server)%Z) /\
  (forall n,
     Getenv vars "SERVER_TIMEOUT_MS" <> "" ->
     Atoi (Getenv vars "SERVER_TIMEOUT_MS") = inl n ->
     server = Duration_mul n Millisecond /\
     (is_int (n * Millisecond) -> server = (n * Millisecond)%Z)) /\
  (forall n,
     Getenv vars "PER_API_TIMEOUT_MS" <> "" ->
     Atoi (Getenv vars "PER_API_TIMEOUT_MS") = inl n ->
     perAPI = Duration_mul n Millisecond /\
     (is_int (n * Millisecond) -> perAPI = (n * Millisecond)%Z)).
Proof.
  unfold Load, Validate. intros [= <-]. cbn.
  assert (H500 : Duration_mul 500 Millisecond = (500 * Millisecond)%Z)
    by reflexivity.
  assert (H400 : Duration_mul 400 Millisecond = (400 * Millisecond)%Z)
    by reflexivity.
  split; [| split; [| split; [| split]]].
  - intros H. now rewrite getDurationEnv_default.
  - intros H. now rewrite getDurationEnv_default.
  - intros Hs Hp. rewrite !getDurationEnv_default by assumption.
    rewrite H500, H400. unfold Millisecond. lia.
  - intros n Hne Hn. rewrite (getDurationEnv_parsed _ _ _ n Hne Hn).
    split; [reflexivity |]. intros Hint. now apply wrap64_id.
  - intros n Hne Hn. rewrite (getDurationEnv_parsed _ _ _ n Hne Hn).
    split; [reflexivity |]. intros Hint. now apply wrap64_id.
Qed.

End Load_spec.

Lemma Load_never_fails_witness :
  exists c,
    Load more_examples.read_int more_examples.read_bool
      more_examples.dotenv_file more_examples.production = (Some c, None) /\
    GRPCPort (config.Server (settings c)) = "9090" /\
    Level (Logging c) = "info".
Proof.
  destruct (Load_never_fails more_examples.read_int more_examples.read_bool
              more_examples.dotenv_file more_examples.production)
    as (c & Hc & _).
  exists c. split; [exact Hc |].
  vm_compute in Hc. injection Hc as <-. split; reflexivity.
Defined.

Lemma Load_reads_its_variables_witness :
  exists c unset,
    Load more_examples.read_int more_examples.read_bool
      more_examples.dotenv_file more_examples.production = (Some c, None) /\
    Load more_examples.read_int more_examples.read_bool
      more_examples.dotenv_file (delete "LOG_LEVEL" more_examples.production)
      = (Some unset, None) /\
    Level (Logging c) = "info" /\ Level (Logging unset) = "debug".
Proof.
  destruct (Load more_examples.read_int more_examples.read_bool
              more_examples.dotenv_file more_examples.production)
    as [[c|] [err|]] eqn:E; try (vm_compute in E; discriminate).
  destruct (Load more_examples.read_int more_examples.read_bool
              more_examples.dotenv_file
              (delete "LOG_LEVEL" more_examples.production))
    as [[unset|] [err|]] eqn:E'; try (vm_compute in E'; discriminate).
  exists c, unset. split; [reflexivity |]. split; [reflexivity |].
  destruct (Load_reads_its_variables more_examples.read_int
              more_examples.read_bool more_examples.dotenv_file
              more_examples.production) as (_ & _ & _ & _ & _ & H).
  apply (H "debug" c unset).
  - vm_compute. reflexivity.
  - vm_compute. reflexivity.
  - discriminate.
  - exact E.
  - exact E'.
Defined.

Lemma timeouts_from_the_environment_witness :
  exists c,
    Load more_examples.read_int more_examples.read_bool
      more_examples.dotenv_file more_examples.production = (Some c, None) /\
    ServerTimeout (config.Server (settings c)) = (500 * Millisecond)%Z /\
    PerAPITimeout (config.Server (settings c)) = (250 * Millisecond)%Z.
Proof.
  destruct (Load more_examples.read_int more_examples.read_bool
              more_examples.dotenv_file more_examples.production)
    as [[c|] [err|]] eqn:E; try (vm_compute in E; discriminate).
  exists c. split; [reflexivity |].
  destruct (timeouts_from_the_environment more_examples.read_int
              more_examples.read_bool more_examples.dotenv_file
              more_examples.production c E) as (Hs & _ & _ & _ & Hp).
  split.
  - apply Hs. right. exists "invalid syntax". vm_compute. reflexivity.
  - apply (Hp 250%Z).
    + vm_compute. discriminate.
    + vm_compute. reflexivity.
    + unfold is_int, Millisecond. lia.
Defined.

(** ** From the environment to the calls *)

(** X24. A server set up as [main] does, from a configuration loaded with
    the two timeout variables not set (or empty, or not numbers).  A task of
    a request that came in at [t0], whenever the scheduler starts it (at
    [t1]), applies [Fetch] to a context whose deadline is the earliest of
    the caller's deadline, [t0] + 500 ms and [t1] + 400 ms; the Outcome of
    the task is what that application returned.  The per-API timeout decides
    between the two as long as the task starts within 100 ms of the request,
    the server timeout when it starts later. *)
Theorem default_deadline_of_every_call
    (Atoi : string -> Z + string) (ParseBool : string -> bool + string)
    (dotenv env : gmap string string) (c : Loaded) (w : World)
    (ctx : Context) (t0 t1 : Z) (k : nat) (fetcher : Fetcher)
    (query : string) (maxResults : Z) :
  Load Atoi ParseBool dotenv env = (Some c, None) ->
  unusable Atoi (godotenv_Load dotenv env) "SERVER_TIMEOUT_MS" ->
  unusable Atoi (godotenv_Load dotenv env) "PER_API_TIMEOUT_MS" ->
  let s := NewServer w (on_the_clock (settings c)) in
  let searchCtx :=
    WithTimeout ctx t0 (ServerTimeout (config.Server (server_config s))) in
  let task :=
    fetchFromPlatform (searchHandler s) k searchCtx fetcher query maxResults t1 in
  let d := Z.min (earlier (t0 + 500) (deadline ctx)) (t1 + 400) in
  let ret := Fetch fetcher k
               {| deadline := Some d; canceled_at := canceled_at ctx |}
               query maxResults in
  FetchResult.Error (g_result task) = ret_err ret /\
  FetchResult.Duration (g_result task) = ret_latency ret /\
  (ret_err ret = None -> FetchResult.Results (g_result task) = ret_results ret) /\
  ((t1 <= t0 + 100)%Z -> d = earlier (t1 + 400) (deadline ctx)) /\
  ((t0 + 100 < t1)%Z -> d = earlier (t0 + 500) (deadline ctx)).
Proof.
  intros Hload Hs Hp s searchCtx task d ret.
  assert (Hst : ServerTimeout (config.Server (server_config s)) = 500%Z).
  { subst s. unfold Load, Validate in Hload. injection Hload as <-.
    unfold on_the_clock. cbn.
    now rewrite getDurationEnv_default by assumption. }
  assert (Hpt : PerAPITimeout (config.Server (handlers.config (searchHandler s)))
                = 400%Z).
  { subst s. unfold Load, Validate in Hload. injection Hload as <-.
    unfold on_the_clock. cbn.
    now rewrite getDurationEnv_default by assumption. }
  destruct (fetchFromPlatform_applies_Fetch (searchHandler s) k searchCtx
              fetcher query maxResults t1) as (_ & He & Hd & Hr).
  assert (Hctx : call_ctx (g_call task)
                 = {| deadline := Some d; canceled_at := canceled_at ctx |}).
  { subst task searchCtx d. unfold fetchFromPlatform, WithTimeout.
    cbn [g_call call_ctx deadline canceled_at]. rewrite Hst, Hpt.
    reflexivity. }
  fold task in He, Hd, Hr. rewrite Hctx in He, Hd, Hr.
  split; [exact He |]. split; [exact Hd |]. split; [exact Hr |].
  subst d. unfold earlier.
  destruct (deadline ctx) as [d0|]; split; intros; lia.
Qed.

Lemma default_deadline_of_every_call_witness :
  exists c,
    Load more_examples.read_int more_examples.read_bool ∅ ∅ = (Some c, None) /\
    let h := NewSearchHandler examples.healthy (on_the_clock (settings c)) in
    let prompt :=
      fetchFromPlatform h 0 (WithTimeout Background 0 500) more_examples.probe
        "rocq" 20 0 in
    let late :=
      fetchFromPlatform h 0 (WithTimeout Background 0 500) more_examples.probe
        "rocq" 20 300 in
    FetchResult.Duration (g_result prompt) = 400%Z /\
    FetchResult.Duration (g_result late) = 500%Z.
Proof.
  destruct (Load more_examples.read_int more_examples.read_bool ∅ ∅)
    as [[c|] [err|]] eqn:E; try (vm_compute in E; discriminate).
  exists c. split; [reflexivity |]. intros h prompt late.
  pose proof (default_deadline_of_every_call more_examples.read_int
                more_examples.read_bool ∅ ∅ c examples.healthy Background
                0 0 0 more_examples.probe "rocq" 20
                E (or_introl eq_refl) (or_introl eq_refl)) as (_ & H0 & _).
  pose proof (default_deadline_of_every_call more_examples.read_int
                more_examples.read_bool ∅ ∅ c examples.healthy Background
                0 300 0 more_examples.probe "rocq" 20
                E (or_introl eq_refl) (or_introl eq_refl)) as (_ & H300 & _).
  assert (Hst : ServerTimeout (config.Server (on_the_clock (settings c))) = 500%Z)
    by (vm_compute in E; injection E as <-; reflexivity).
  split.
  - subst prompt h. cbn [NewServer searchHandler server_config] in H0.
    rewrite Hst in H0. exact H0.
  - subst late h. cbn [NewServer searchHandler server_config] in H300.
    rewrite Hst in H300. exact H300.
Defined.

(** X25. The default result cap is taken from the environment unchecked:
    when MAX_RESULTS_PER_PLATFORM holds the number [n], a request whose
    maxResults is 0 (or outside [1,100]) has [Fetch] applied to [n] by every
    task, whatever [n] is; the range [1,100] applies to the request's own
    value only.  The Outcome of every task is what a fetcher of the registry
    returned when applied to the query and [n], and the response is folded
    from these Outcomes. *)
Theorem default_cap_is_unchecked
    (Atoi : string -> Z + string) (ParseBool : string -> bool + string)
    (dotenv env : gmap string string) (c : Loaded) (n : Z) (w : World)
    (schedule : list Event) (ctx : Context) (startTime : Z)
    (req : pb.SearchRequest.t) (r : SearchRun) :
  Load Atoi ParseBool dotenv env = (Some c, None) ->
  Getenv (godotenv_Load dotenv env) "MAX_RESULTS_PER_PLATFORM" <> "" ->
  Atoi (Getenv (godotenv_Load dotenv env) "MAX_RESULTS_PER_PLATFORM") = inl n ->
  (pb.SearchRequest.MaxResults req <= 0)%Z \/
  (100 < pb.SearchRequest.MaxResults req)%Z ->
  let h := NewSearchHandler w (on_the_clock (settings c)) in
  Search h schedule ctx startTime req = Some r ->
  let tasks := dispatched h ctx startTime req in
  Forall (fun call => call_maxResults call = n) (run_calls r) /\
  run_calls r = map g_call tasks /\
  Forall (fun g =>
            exists platform fetcher k,
              platform ∈ effective_platforms req /\
              handlers.fetchers h !! platform = Some fetcher /\
              let ret := Fetch fetcher k (call_ctx (g_call g))
                           (pb.SearchRequest.Query req) n in
              FetchResult.Platform (g_result g) = Name fetcher /\
              FetchResult.Error (g_result g) = ret_err ret /\
              FetchResult.Duration (g_result g) = ret_latency ret /\
              (ret_err ret = None ->
               FetchResult.Results (g_result g) = ret_results ret))
         tasks /\
  (exists received,
     received ≡ₚ map g_result tasks /\
     run_response r =
       build_response (effective_platforms req) (collect received)
         (run_returned_at r - startTime)).
Proof.
  intros Hload Hne Hn Hreq h Hr tasks.
  assert (Hcap : effective_maxResults h req = n).
  { unfold effective_maxResults.
    destruct (Z.leb_spec (pb.SearchRequest.MaxResults req) 0),
      (Z.ltb_spec 100 (pb.SearchRequest.MaxResults req)); cbn [orb]; try lia;
      subst h; unfold Load, Validate in Hload; injection Hload as <-;
      unfold on_the_clock; cbn;
      unfold getIntEnv; rewrite Hn; now destruct (decide _). }
  split; [| split; [| split]].
  - rewrite (Search_calls _ _ _ _ _ _ Hr). apply Forall_map. unfold dispatched.
    eapply Forall_impl; [apply fan_out_arguments |].
    cbn beta. intros g (_ & -> & _). exact Hcap.
  - exact (Search_calls _ _ _ _ _ _ Hr).
  - subst tasks. rewrite <- Hcap. apply dispatched_applies_Fetch.
  - destruct (Search_inv _ _ _ _ _ _ Hr) as (received & Hperm & Hbuild & _).
    exists received. auto.
Qed.

Lemma default_cap_is_unchecked_witness :
  exists c r,
    Load more_examples.read_int more_examples.read_bool ∅
      (<["MAX_RESULTS_PER_PLATFORM" := "1000"]> ∅) = (Some c, None) /\
    Search (NewSearchHandler examples.metered_world (on_the_clock (settings c)))
      (replicate 1000 Tick ++ [Send 0; Send 0; Close; Recv; Recv; LoopExit])
      examples.global_ctx 0 (examples.request "rocq" 0 ["github"; "github"])
      = Some r /\
    Forall (fun call => call_maxResults call = 1000%Z) (run_calls r) /\
    run_returned_at r = 1000%Z.
Proof.
  destruct (Load more_examples.read_int more_examples.read_bool ∅
              (<["MAX_RESULTS_PER_PLATFORM" := "1000"]> ∅))
    as [[c|] [err|]] eqn:E; try (vm_compute in E; discriminate).
  destruct (Search (NewSearchHandler examples.metered_world
                      (on_the_clock (settings c)))
              (replicate 1000 Tick ++ [Send 0; Send 0; Close; Recv; Recv; LoopExit])
              examples.global_ctx 0
              (examples.request "rocq" 0 ["github"; "github"])) as [r|] eqn:Er.
  - exists c, r. split; [reflexivity |]. split; [exact Er |]. split.
    + apply (default_cap_is_unchecked more_examples.read_int
               more_examples.read_bool ∅
               (<["MAX_RESULTS_PER_PLATFORM" := "1000"]> ∅) c 1000
               examples.metered_world
               (replicate 1000 Tick ++ [Send 0; Send 0; Close; Recv; Recv; LoopExit])
               examples.global_ctx 0
               (examples.request "rocq" 0 ["github"; "github"]) r E).
      * vm_compute. discriminate.
      * vm_compute. reflexivity.
      * left. simpl. lia.
      * exact Er.
    + vm_compute in E. injection E as <-.
      vm_compute in Er. injection Er as <-. reflexivity.
  - exfalso. vm_compute in E. injection E as <-.
    vm_compute in Er. discriminate.
Defined.
